(** * Gesture estimation core of the hand-tracking hook

    A shallow embedding of [useHandTracking] (the hook that turns MediaPipe
    hand landmarks into pinch and pull gestures) and the properties of its
    per-frame pipeline: [calculatePinchDistance], [calculateHandCenter],
    [processLandmarks], [processHandLandmarks], [processTwoHandGesture] and
    [onResults].

    Modelling conventions.
    - JavaScript numbers are modelled by the real numbers [R]: the
      arithmetic is the one written in the source, without rounding, NaN or
      infinities.  Counters that the source only increments and compares
      with an integer constant are [nat].
    - The refs of the hook ([useRef]) and its two pieces of React state
      ([useState]) are the fields of one record, [Hook], threaded through a
      state-and-exception monad [M].  A [TypeError] raised by reading a
      property of [undefined] is the outcome [Thrown], which keeps the
      state reached when the exception left the function.
    - The objects used as per-hand dictionaries
      ([{ [key: number]: ... }]) are [gmap nat _]; a missing key is the
      source's [undefined].
    - Arrays are lists; [a[i]] is the partial lookup [a !! i]. *)

From Stdlib Require Import Reals Lra Lia.
From stdpp Require Import base option list gmap strings.

Open Scope R_scope.

(** ** Numbers: decidable comparisons on [R] *)

#[global] Instance Rlt_decision : RelDecision Rlt := Rlt_dec.
#[global] Instance Rgt_decision : RelDecision Rgt := Rgt_dec.

(** ** Data model *)

Module Point3.
Record t : Type := mk { x : R; y : R; z : R }.
End Point3.

Module Point2.
Record t : Type := mk { x : R; y : R }.
End Point2.

(** [HandLandmark]: one normalized landmark of the detector. *)
Abbreviation HandLandmark := Point3.t (only parsing).

(** Modelled from the spec: the table [HAND_LANDMARKS] of
    [@/types/hand-tracking] is not part of the sources read here; the two
    indices the hook uses are THUMB_TIP (index 4) and INDEX_TIP (index 8). *)
Module HAND_LANDMARKS.
Definition THUMB_TIP : nat := 4.
Definition INDEX_TIP : nat := 8.
End HAND_LANDMARKS.

Record GestureState : Type := mkGesture {
  isGrabbing : bool;
  handPosition : option Point3.t;
  pinchDistance : R;
  confidence : nat
}.

Record TwoHandGestureState : Type := mkTwoHand {
  bothPinching : bool;
  pullDistance : R;
  centerPosition : option Point2.t;
  leftHand : option GestureState;
  rightHand : option GestureState;
  isPulling : bool
}.

(** ** Constants *)

Definition PINCH_THRESHOLD : R := 0.055.
Definition PINCH_RELEASE_THRESHOLD : R := 0.16.
Definition STATE_CHANGE_FRAMES : nat := 2.
Definition POSITION_SMOOTHING : R := 0.4.
Definition PINCH_SMOOTHING : R := 0.5.
Definition MIN_PULL_DISTANCE : R := 0.15.

(** ** The state of the hook *)

(** A call of one of the optional callbacks of [options]. *)
Inductive Emission : Type :=
| onGestureUpdate (g : GestureState)
| onTwoHandGestureUpdate (g : TwoHandGestureState).

Record Hook : Type := mkHook {
  (* useState *)
  gesture : GestureState;
  twoHandGesture : TwoHandGestureState;
  (* single-hand refs *)
  wasGrabbingRef : bool;
  stateChangeCounterRef : nat;
  pendingStateRef : option bool;
  (* two-hand tracking refs *)
  wasGrabbingRefsPerHand : gmap nat bool;
  stateChangeCountersPerHand : gmap nat nat;
  pendingStatesPerHand : gmap nat (option bool);
  smoothedPositionsPerHand : gmap nat (option Point3.t);
  smoothedPinchesPerHand : gmap nat R;
  prevPullDistanceRef : R;
  (* smoothed values of the single-hand path *)
  smoothedPositionRef : option Point3.t;
  smoothedPinchRef : R;
  (* calls of options.onGestureUpdate / options.onTwoHandGestureUpdate,
     most recent first *)
  callbacks : list Emission
}.

Definition noHandGesture : GestureState :=
  {| isGrabbing := false; handPosition := None; pinchDistance := 1;
     confidence := 0 |}.

Definition noTwoHandGesture : TwoHandGestureState :=
  {| bothPinching := false; pullDistance := 0; centerPosition := None;
     leftHand := None; rightHand := None; isPulling := false |}.

(** The state of a freshly mounted hook: the initial values given to
    [useState] and [useRef]. *)
Definition initialHook : Hook :=
  {| gesture := noHandGesture;
     twoHandGesture := noTwoHandGesture;
     wasGrabbingRef := false;
     stateChangeCounterRef := 0;
     pendingStateRef := None;
     wasGrabbingRefsPerHand := ∅;
     stateChangeCountersPerHand := ∅;
     pendingStatesPerHand := ∅;
     smoothedPositionsPerHand := ∅;
     smoothedPinchesPerHand := ∅;
     prevPullDistanceRef := 0;
     smoothedPositionRef := None;
     smoothedPinchRef := 1;
     callbacks := [] |}.

(** ** State and exception monad *)

Inductive Outcome (A : Type) : Type :=
| Returned (a : A) (s : Hook)
| Thrown (s : Hook).
Arguments Returned {A} a s.
Arguments Thrown {A} s.

Definition M (A : Type) : Type := Hook → Outcome A.

#[global] Instance M_ret : MRet M := λ A a s, Returned a s.
#[global] Instance M_bind : MBind M := λ A B f m s,
  match m s with
  | Returned a s' => f a s'
  | Thrown s' => Thrown s'
  end.

Definition throw {A} : M A := λ s, Thrown s.
Definition get : M Hook := λ s, Returned s s.

(** Reading a property of a possibly [undefined] value. *)
Definition defined {A} (o : option A) : M A :=
  match o with
  | Some a => mret a
  | None => throw
  end.

Definition modify (f : Hook → Hook) : M unit := λ s, Returned tt (f s).
Definition gets {A} (f : Hook → A) : M A := λ s, Returned (f s) s.

(** *** Assignments to the refs and setters of the React state *)

Definition setGesture (g : GestureState) (s : Hook) : Hook :=
  mkHook g (twoHandGesture s) (wasGrabbingRef s) (stateChangeCounterRef s)
    (pendingStateRef s) (wasGrabbingRefsPerHand s)
    (stateChangeCountersPerHand s) (pendingStatesPerHand s)
    (smoothedPositionsPerHand s) (smoothedPinchesPerHand s)
    (prevPullDistanceRef s) (smoothedPositionRef s) (smoothedPinchRef s)
    (callbacks s).

Definition setTwoHandGesture (g : TwoHandGestureState) (s : Hook) : Hook :=
  mkHook (gesture s) g (wasGrabbingRef s) (stateChangeCounterRef s)
    (pendingStateRef s) (wasGrabbingRefsPerHand s)
    (stateChangeCountersPerHand s) (pendingStatesPerHand s)
    (smoothedPositionsPerHand s) (smoothedPinchesPerHand s)
    (prevPullDistanceRef s) (smoothedPositionRef s) (smoothedPinchRef s)
    (callbacks s).

Definition set_wasGrabbingRef (b : bool) (s : Hook) : Hook :=
  mkHook (gesture s) (twoHandGesture s) b (stateChangeCounterRef s)
    (pendingStateRef s) (wasGrabbingRefsPerHand s)
    (stateChangeCountersPerHand s) (pendingStatesPerHand s)
    (smoothedPositionsPerHand s) (smoothedPinchesPerHand s)
    (prevPullDistanceRef s) (smoothedPositionRef s) (smoothedPinchRef s)
    (callbacks s).

Definition set_stateChangeCounterRef (n : nat) (s : Hook) : Hook :=
  mkHook (gesture s) (twoHandGesture s) (wasGrabbingRef s) n
    (pendingStateRef s) (wasGrabbingRefsPerHand s)
    (stateChangeCountersPerHand s) (pendingStatesPerHand s)
    (smoothedPositionsPerHand s) (smoothedPinchesPerHand s)
    (prevPullDistanceRef s) (smoothedPositionRef s) (smoothedPinchRef s)
    (callbacks s).

Definition set_pendingStateRef (p : option bool) (s : Hook) : Hook :=
  mkHook (gesture s) (twoHandGesture s) (wasGrabbingRef s)
    (stateChangeCounterRef s) p (wasGrabbingRefsPerHand s)
    (stateChangeCountersPerHand s) (pendingStatesPerHand s)
    (smoothedPositionsPerHand s) (smoothedPinchesPerHand s)
    (prevPullDistanceRef s) (smoothedPositionRef s) (smoothedPinchRef s)
    (callbacks s).

Definition set_wasGrabbingRefsPerHand (m : gmap nat bool) (s : Hook) : Hook :=
  mkHook (gesture s) (twoHandGesture s) (wasGrabbingRef s)
    (stateChangeCounterRef s) (pendingStateRef s) m
    (stateChangeCountersPerHand s) (pendingStatesPerHand s)
    (smoothedPositionsPerHand s) (smoothedPinchesPerHand s)
    (prevPullDistanceRef s) (smoothedPositionRef s) (smoothedPinchRef s)
    (callbacks s).

Definition set_stateChangeCountersPerHand (m : gmap nat nat) (s : Hook) : Hook :=
  mkHook (gesture s) (twoHandGesture s) (wasGrabbingRef s)
    (stateChangeCounterRef s) (pendingStateRef s) (wasGrabbingRefsPerHand s)
    m (pendingStatesPerHand s)
    (smoothedPositionsPerHand s) (smoothedPinchesPerHand s)
    (prevPullDistanceRef s) (smoothedPositionRef s) (smoothedPinchRef s)
    (callbacks s).

Definition set_pendingStatesPerHand (m : gmap nat (option bool)) (s : Hook) : Hook :=
  mkHook (gesture s) (twoHandGesture s) (wasGrabbingRef s)
    (stateChangeCounterRef s) (pendingStateRef s) (wasGrabbingRefsPerHand s)
    (stateChangeCountersPerHand s) m
    (smoothedPositionsPerHand s) (smoothedPinchesPerHand s)
    (prevPullDistanceRef s) (smoothedPositionRef s) (smoothedPinchRef s)
    (callbacks s).

Definition set_smoothedPositionsPerHand (m : gmap nat (option Point3.t))
    (s : Hook) : Hook :=
  mkHook (gesture s) (twoHandGesture s) (wasGrabbingRef s)
    (stateChangeCounterRef s) (pendingStateRef s) (wasGrabbingRefsPerHand s)
    (stateChangeCountersPerHand s) (pendingStatesPerHand s)
    m (smoothedPinchesPerHand s)
    (prevPullDistanceRef s) (smoothedPositionRef s) (smoothedPinchRef s)
    (callbacks s).

Definition set_smoothedPinchesPerHand (m : gmap nat R) (s : Hook) : Hook :=
  mkHook (gesture s) (twoHandGesture s) (wasGrabbingRef s)
    (stateChangeCounterRef s) (pendingStateRef s) (wasGrabbingRefsPerHand s)
    (stateChangeCountersPerHand s) (pendingStatesPerHand s)
    (smoothedPositionsPerHand s) m
    (prevPullDistanceRef s) (smoothedPositionRef s) (smoothedPinchRef s)
    (callbacks s).

Definition set_prevPullDistanceRef (d : R) (s : Hook) : Hook :=
  mkHook (gesture s) (twoHandGesture s) (wasGrabbingRef s)
    (stateChangeCounterRef s) (pendingStateRef s) (wasGrabbingRefsPerHand s)
    (stateChangeCountersPerHand s) (pendingStatesPerHand s)
    (smoothedPositionsPerHand s) (smoothedPinchesPerHand s)
    d (smoothedPositionRef s) (smoothedPinchRef s)
    (callbacks s).

Definition set_smoothedPositionRef (p : option Point3.t) (s : Hook) : Hook :=
  mkHook (gesture s) (twoHandGesture s) (wasGrabbingRef s)
    (stateChangeCounterRef s) (pendingStateRef s) (wasGrabbingRefsPerHand s)
    (stateChangeCountersPerHand s) (pendingStatesPerHand s)
    (smoothedPositionsPerHand s) (smoothedPinchesPerHand s)
    (prevPullDistanceRef s) p (smoothedPinchRef s)
    (callbacks s).

Definition set_smoothedPinchRef (d : R) (s : Hook) : Hook :=
  mkHook (gesture s) (twoHandGesture s) (wasGrabbingRef s)
    (stateChangeCounterRef s) (pendingStateRef s) (wasGrabbingRefsPerHand s)
    (stateChangeCountersPerHand s) (pendingStatesPerHand s)
    (smoothedPositionsPerHand s) (smoothedPinchesPerHand s)
    (prevPullDistanceRef s) (smoothedPositionRef s) d
    (callbacks s).

(** [options.onGestureUpdate?.(g)] and [options.onTwoHandGestureUpdate?.(g)]:
    the call is recorded. *)
Definition call (e : Emission) (s : Hook) : Hook :=
  mkHook (gesture s) (twoHandGesture s) (wasGrabbingRef s)
    (stateChangeCounterRef s) (pendingStateRef s) (wasGrabbingRefsPerHand s)
    (stateChangeCountersPerHand s) (pendingStatesPerHand s)
    (smoothedPositionsPerHand s) (smoothedPinchesPerHand s)
    (prevPullDistanceRef s) (smoothedPositionRef s) (smoothedPinchRef s)
    (e :: callbacks s).

(** ** Geometry *)

Definition calculatePinchDistance (landmarks : list HandLandmark) : M R :=
  let thumbTip := landmarks !! HAND_LANDMARKS.THUMB_TIP in
  let indexTip := landmarks !! HAND_LANDMARKS.INDEX_TIP in
  thumbTip ← defined thumbTip;
  indexTip ← defined indexTip;
  let dx := Point3.x thumbTip - Point3.x indexTip in
  let dy := Point3.y thumbTip - Point3.y indexTip in
  let dz := Point3.z thumbTip - Point3.z indexTip in
  mret (sqrt (dx * dx + dy * dy + dz * dz)).

Definition calculateHandCenter (landmarks : list HandLandmark) : M Point3.t :=
  (* Use the midpoint between thumb tip and index tip as the grab point *)
  let thumbTip := landmarks !! HAND_LANDMARKS.THUMB_TIP in
  let indexTip := landmarks !! HAND_LANDMARKS.INDEX_TIP in
  thumbTip ← defined thumbTip;
  indexTip ← defined indexTip;
  mret {| Point3.x := (Point3.x thumbTip + Point3.x indexTip) / 2;
          Point3.y := (Point3.y thumbTip + Point3.y indexTip) / 2;
          Point3.z := (Point3.z thumbTip + Point3.z indexTip) / 2 |}.

(** ** The single-hand path *)

Definition processLandmarks (landmarks : list HandLandmark) : M unit :=
  rawPinchDistance ← calculatePinchDistance landmarks;
  rawHandPosition ← calculateHandCenter landmarks;
  (* Convert raw position to centered coordinates *)
  let rawX := - (Point3.x rawHandPosition * 2 - 1) in
  let rawY := - (Point3.y rawHandPosition * 2 - 1) in
  let rawZ := Point3.z rawHandPosition in
  (* Apply exponential smoothing to position *)
  current ← gets smoothedPositionRef;
  match current with
  | None => modify (set_smoothedPositionRef (Some (Point3.mk rawX rawY rawZ)))
  | Some current =>
      modify (set_smoothedPositionRef (Some
        {| Point3.x := Point3.x current + POSITION_SMOOTHING * (rawX - Point3.x current);
           Point3.y := Point3.y current + POSITION_SMOOTHING * (rawY - Point3.y current);
           Point3.z := Point3.z current + POSITION_SMOOTHING * (rawZ - Point3.z current) |}))
  end;;
  (* Apply smoothing to pinch distance *)
  modify (λ s, set_smoothedPinchRef
    (smoothedPinchRef s + PINCH_SMOOTHING * (rawPinchDistance - smoothedPinchRef s)) s);;
  pinchDistance ← gets smoothedPinchRef;
  (* Determine what the new state should be based on thresholds *)
  wasGrabbing ← gets wasGrabbingRef;
  let targetState :=
    if negb wasGrabbing && bool_decide (pinchDistance < PINCH_THRESHOLD) then true
    else if wasGrabbing && bool_decide (pinchDistance > PINCH_RELEASE_THRESHOLD) then false
    else wasGrabbing in
  (* Debouncing: require multiple consecutive frames to confirm state change *)
  (if bool_decide (targetState ≠ wasGrabbing) then
     pending ← gets pendingStateRef;
     if bool_decide (pending = Some targetState) then
       modify (λ s, set_stateChangeCounterRef (S (stateChangeCounterRef s)) s);;
       counter ← gets stateChangeCounterRef;
       if bool_decide (STATE_CHANGE_FRAMES ≤ counter)%nat then
         modify (set_wasGrabbingRef targetState);;
         modify (set_pendingStateRef None);;
         modify (set_stateChangeCounterRef 0)
       else mret tt
     else
       modify (set_pendingStateRef (Some targetState));;
       modify (set_stateChangeCounterRef 1)
   else
     (* State matches, reset pending *)
     modify (set_pendingStateRef None);;
     modify (set_stateChangeCounterRef 0));;
  s ← get;
  let newGesture :=
    {| isGrabbing := wasGrabbingRef s;
       handPosition := smoothedPositionRef s;
       pinchDistance := pinchDistance;
       confidence := 1 |} in
  modify (setGesture newGesture);;
  modify (call (onGestureUpdate newGesture)).

(** ** The per-hand path *)

(** [if (m[handIndex] === undefined) m[handIndex] = v]. *)
Definition initIfUndefined {A} (handIndex : nat) (v : A) (m : gmap nat A)
    : gmap nat A :=
  match m !! handIndex with
  | None => <[handIndex := v]> m
  | Some _ => m
  end.

(* Process landmarks for a specific hand (for multi-hand tracking) *)
Definition processHandLandmarks (landmarks : list HandLandmark)
    (handIndex : nat) : M GestureState :=
  rawPinchDistance ← calculatePinchDistance landmarks;
  rawHandPosition ← calculateHandCenter landmarks;
  (* Convert raw position to centered coordinates *)
  let rawX := - (Point3.x rawHandPosition * 2 - 1) in
  let rawY := - (Point3.y rawHandPosition * 2 - 1) in
  let rawZ := Point3.z rawHandPosition in
  (* Initialize refs for this hand if needed *)
  modify (λ s, set_smoothedPositionsPerHand
    (initIfUndefined handIndex None (smoothedPositionsPerHand s)) s);;
  modify (λ s, set_smoothedPinchesPerHand
    (initIfUndefined handIndex 1 (smoothedPinchesPerHand s)) s);;
  modify (λ s, set_wasGrabbingRefsPerHand
    (initIfUndefined handIndex false (wasGrabbingRefsPerHand s)) s);;
  modify (λ s, set_stateChangeCountersPerHand
    (initIfUndefined handIndex 0%nat (stateChangeCountersPerHand s)) s);;
  modify (λ s, set_pendingStatesPerHand
    (initIfUndefined handIndex None (pendingStatesPerHand s)) s);;
  (* Apply exponential smoothing to position *)
  prev ← gets (λ s, smoothedPositionsPerHand s !! handIndex);
  match prev with
  | Some None =>
      modify (λ s, set_smoothedPositionsPerHand
        (<[handIndex := Some (Point3.mk rawX rawY rawZ)]> (smoothedPositionsPerHand s)) s)
  | Some (Some prev) =>
      modify (λ s, set_smoothedPositionsPerHand
        (<[handIndex := Some
            {| Point3.x := Point3.x prev + POSITION_SMOOTHING * (rawX - Point3.x prev);
               Point3.y := Point3.y prev + POSITION_SMOOTHING * (rawY - Point3.y prev);
               Point3.z := Point3.z prev + POSITION_SMOOTHING * (rawZ - Point3.z prev) |}]>
          (smoothedPositionsPerHand s)) s)
  | None => throw (* reading [prev.x] of [undefined]; not reached after the initialisation *)
  end;;
  (* Apply smoothing to pinch distance *)
  smoothedPinch ← gets (λ s, smoothedPinchesPerHand s !! handIndex) ≫= defined;
  modify (λ s, set_smoothedPinchesPerHand
    (<[handIndex := smoothedPinch + PINCH_SMOOTHING * (rawPinchDistance - smoothedPinch)]>
      (smoothedPinchesPerHand s)) s);;
  pinchDistance ← gets (λ s, smoothedPinchesPerHand s !! handIndex) ≫= defined;
  (* Determine what the new state should be based on thresholds *)
  wasGrabbing ← gets (λ s, wasGrabbingRefsPerHand s !! handIndex) ≫= defined;
  let targetState :=
    if negb wasGrabbing && bool_decide (pinchDistance < PINCH_THRESHOLD) then true
    else if wasGrabbing && bool_decide (pinchDistance > PINCH_RELEASE_THRESHOLD) then false
    else wasGrabbing in
  (* Debouncing *)
  (if bool_decide (targetState ≠ wasGrabbing) then
     pending ← gets (λ s, pendingStatesPerHand s !! handIndex);
     if bool_decide (pending = Some (Some targetState)) then
       modify (λ s, set_stateChangeCountersPerHand
         (alter S handIndex (stateChangeCountersPerHand s)) s);;
       counter ← gets (λ s, stateChangeCountersPerHand s !! handIndex) ≫= defined;
       if bool_decide (STATE_CHANGE_FRAMES ≤ counter)%nat then
         modify (λ s, set_wasGrabbingRefsPerHand
           (<[handIndex := targetState]> (wasGrabbingRefsPerHand s)) s);;
         modify (λ s, set_pendingStatesPerHand
           (<[handIndex := None]> (pendingStatesPerHand s)) s);;
         modify (λ s, set_stateChangeCountersPerHand
           (<[handIndex := 0%nat]> (stateChangeCountersPerHand s)) s)
       else mret tt
     else
       modify (λ s, set_pendingStatesPerHand
         (<[handIndex := Some targetState]> (pendingStatesPerHand s)) s);;
       modify (λ s, set_stateChangeCountersPerHand
         (<[handIndex := 1%nat]> (stateChangeCountersPerHand s)) s)
   else
     modify (λ s, set_pendingStatesPerHand
       (<[handIndex := None]> (pendingStatesPerHand s)) s);;
     modify (λ s, set_stateChangeCountersPerHand
       (<[handIndex := 0%nat]> (stateChangeCountersPerHand s)) s));;
  isGrabbing ← gets (λ s, wasGrabbingRefsPerHand s !! handIndex) ≫= defined;
  handPosition ← gets (λ s, smoothedPositionsPerHand s !! handIndex) ≫= defined;
  mret {| isGrabbing := isGrabbing;
          handPosition := handPosition;
          pinchDistance := pinchDistance;
          confidence := 1 |}.

(** ** The two-hand aggregator *)

(** The value [newTwoHandGesture] built by [processTwoHandGesture]: role
    assignment, distance, midpoint and the pull gate. *)
Definition newTwoHandGesture (hand0 hand1 : option GestureState)
    (handedness0 handedness1 : option string) : TwoHandGestureState :=
  (* Determine which hand is left/right based on handedness *)
  let leftHand : option GestureState := None in
  let rightHand : option GestureState := None in
  let '(leftHand, rightHand) :=
    match hand0 with
    | Some h0 =>
        if bool_decide (handedness0 = Some "Left"%string) then (Some h0, rightHand)
        else if bool_decide (handedness0 = Some "Right"%string) then (leftHand, Some h0)
        else
          (* Fallback: use x position to determine left/right *)
          if match handPosition h0 with
             | Some p0 =>
                 match hand1 ≫= handPosition with
                 | None => true
                 | Some p1 => bool_decide (Point3.x p0 < Point3.x p1)
                 end
             | None => false
             end
          then (Some h0, rightHand)
          else (leftHand, Some h0)
    | None => (leftHand, rightHand)
    end in
  let '(leftHand, rightHand) :=
    match hand1 with
    | Some h1 =>
        if bool_decide (handedness1 = Some "Left"%string) then (Some h1, rightHand)
        else if bool_decide (handedness1 = Some "Right"%string) then (leftHand, Some h1)
        else
          match leftHand with
          | None => (Some h1, rightHand)
          | Some _ => (leftHand, Some h1)
          end
    | None => (leftHand, rightHand)
    end in
  let bothPinching :=
    from_option isGrabbing false leftHand && from_option isGrabbing false rightHand in
  let '(pullDistance, centerPosition) :=
    match leftHand ≫= handPosition, rightHand ≫= handPosition with
    | Some l, Some r =>
        (* Calculate distance between hands (in normalized coordinates) *)
        let dx := Point3.x r - Point3.x l in
        let dy := Point3.y r - Point3.y l in
        (sqrt (dx * dx + dy * dy),
         (* Calculate center point *)
         Some {| Point2.x := (Point3.x l + Point3.x r) / 2;
                 Point2.y := (Point3.y l + Point3.y r) / 2 |})
    | _, _ => (0, None)
    end in
  (* Determine if this is a valid pull gesture:
     both hands pinching AND distance above threshold *)
  let isPulling := bothPinching && bool_decide (pullDistance > MIN_PULL_DISTANCE) in
  {| bothPinching := bothPinching;
     pullDistance := pullDistance;
     centerPosition := centerPosition;
     leftHand := leftHand;
     rightHand := rightHand;
     isPulling := isPulling |}.

Definition processTwoHandGesture (hand0 hand1 : option GestureState)
    (handedness0 handedness1 : option string) : M TwoHandGestureState :=
  let g := newTwoHandGesture hand0 hand1 handedness0 handedness1 in
  modify (set_prevPullDistanceRef (pullDistance g));;
  modify (setTwoHandGesture g);;
  modify (call (onTwoHandGestureUpdate g));;
  mret g.

(** ** The detector callback *)

(** [drawLandmarks] paints on the canvas and touches no ref; it reads both
    ends of every connection of the hand skeleton, which cover the indices
    0 to 20, so it raises a [TypeError] on a shorter landmark list. *)
Definition drawLandmarks (landmarks : list HandLandmark) : M unit :=
  if bool_decide (length landmarks < 21)%nat then throw else mret tt.

(** One entry of [results.multiHandedness]. *)
Record Handedness : Type := { label : string }.

(** The argument of [onResults]; both fields may be missing. *)
Record Results : Type := {
  multiHandLandmarks : option (list (list HandLandmark));
  multiHandedness : option (list Handedness)
}.

(** The [for] loop of [onResults], from index [i] on; [hands] are the
    entries [i], [i+1], ... of [results.multiHandLandmarks]. *)
Fixpoint processAllHands (results : Results) (hands : list (list HandLandmark))
    (i : nat) (handGestures : list GestureState)
    (handednessLabels : list (option string))
    : M (list GestureState * list (option string)) :=
  match hands with
  | [] => mret (handGestures, handednessLabels)
  | handLandmarks :: hands =>
      handGesture ← processHandLandmarks handLandmarks i;
      let handGestures := handGestures ++ [handGesture] in
      (* Get handedness if available *)
      let handedness := label <$> (multiHandedness results ≫= (.!! i)) in
      let handednessLabels := handednessLabels ++ [handedness] in
      (* Draw additional hands *)
      (if bool_decide (0 < i)%nat then drawLandmarks handLandmarks else mret tt);;
      processAllHands results hands (S i) handGestures handednessLabels
  end.

(** [onResults results]; [canvas] tells whether the canvas element and its
    2d context exist, the two guards at the top of the callback. *)
Definition onResults (canvas : bool) (results : Results) : M unit :=
  if negb canvas then mret tt
  else
    match multiHandLandmarks results with
    | Some (landmarks :: others) =>
        (* Process first hand for backward compatibility (single hand gesture) *)
        processLandmarks landmarks;;
        drawLandmarks landmarks;;
        (* Process all hands for two-hand gesture *)
        '(handGestures, handednessLabels) ←
          processAllHands results (landmarks :: others) 0 [] [];
        (* Process two-hand gesture *)
        processTwoHandGesture (handGestures !! 0%nat) (handGestures !! 1%nat)
          (mjoin (handednessLabels !! 0%nat)) (mjoin (handednessLabels !! 1%nat));;
        mret tt
    | _ =>
        modify (setGesture noHandGesture);;
        modify (set_wasGrabbingRef false);;
        (* Reset two-hand gesture *)
        modify (setTwoHandGesture noTwoHandGesture);;
        (* Reset per-hand refs *)
        modify (set_wasGrabbingRefsPerHand ∅);;
        modify (set_stateChangeCountersPerHand ∅);;
        modify (set_pendingStatesPerHand ∅);;
        modify (set_smoothedPositionsPerHand ∅);;
        modify (set_smoothedPinchesPerHand ∅)
    end.

(** The state left by a call, whether it returned or threw. *)
Definition stateAfter {A} (o : Outcome A) : Hook :=
  match o with
  | Returned _ s => s
  | Thrown s => s
  end.

(** The hook driven by the detector: [onResults] is called once per frame,
    each call starting from the state the previous one left (an exception
    ends one call, not the stream of frames). *)
Fixpoint afterFrames (canvas : bool) (frames : list Results) (s : Hook) : Hook :=
  match frames with
  | [] => s
  | results :: frames =>
      afterFrames canvas frames (stateAfter (onResults canvas results s))
  end.

(** ** The filter of one hand, as a transition on one slot

    [processLandmarks] (on the single-hand refs) and [processHandLandmarks]
    (on the entries [handIndex] of the per-hand dictionaries) run the same
    statements.  [filter] is that common transition on the five values of
    one hand; the lemmas [processLandmarks_filter] and
    [processHandLandmarks_filter] below relate both functions to it. *)

Module Slot.
Record t : Type := mk {
  smoothedPosition : option Point3.t;
  smoothedPinch : R;
  wasGrabbing : bool;
  pendingState : option bool;
  stateChangeCounter : nat
}.

(** The values the source initialises the refs of a hand with. *)
Definition initial : t := mk None 1 false None 0.
End Slot.

(** The slot read from the single-hand refs. *)
Definition singleSlot (s : Hook) : Slot.t :=
  Slot.mk (smoothedPositionRef s) (smoothedPinchRef s) (wasGrabbingRef s)
    (pendingStateRef s) (stateChangeCounterRef s).

(** The slot read from the per-hand dictionaries, a missing entry read as
    the value [processHandLandmarks] initialises it with. *)
Definition slot (handIndex : nat) (s : Hook) : Slot.t :=
  Slot.mk (default None (smoothedPositionsPerHand s !! handIndex))
    (default 1 (smoothedPinchesPerHand s !! handIndex))
    (default false (wasGrabbingRefsPerHand s !! handIndex))
    (default None (pendingStatesPerHand s !! handIndex))
    (default 0%nat (stateChangeCountersPerHand s !! handIndex)).

Definition storeSingleSlot (p : Slot.t) (s : Hook) : Hook :=
  mkHook (gesture s) (twoHandGesture s) (Slot.wasGrabbing p)
    (Slot.stateChangeCounter p) (Slot.pendingState p)
    (wasGrabbingRefsPerHand s) (stateChangeCountersPerHand s)
    (pendingStatesPerHand s) (smoothedPositionsPerHand s)
    (smoothedPinchesPerHand s) (prevPullDistanceRef s)
    (Slot.smoothedPosition p) (Slot.smoothedPinch p) (callbacks s).

Definition storeSlot (handIndex : nat) (p : Slot.t) (s : Hook) : Hook :=
  mkHook (gesture s) (twoHandGesture s) (wasGrabbingRef s)
    (stateChangeCounterRef s) (pendingStateRef s)
    (<[handIndex := Slot.wasGrabbing p]> (wasGrabbingRefsPerHand s))
    (<[handIndex := Slot.stateChangeCounter p]> (stateChangeCountersPerHand s))
    (<[handIndex := Slot.pendingState p]> (pendingStatesPerHand s))
    (<[handIndex := Slot.smoothedPosition p]> (smoothedPositionsPerHand s))
    (<[handIndex := Slot.smoothedPinch p]> (smoothedPinchesPerHand s))
    (prevPullDistanceRef s) (smoothedPositionRef s) (smoothedPinchRef s)
    (callbacks s).

(** Raw pinch distance and raw anchor of the two finger tips. *)
Definition tipDistance (thumbTip indexTip : HandLandmark) : R :=
  let dx := Point3.x thumbTip - Point3.x indexTip in
  let dy := Point3.y thumbTip - Point3.y indexTip in
  let dz := Point3.z thumbTip - Point3.z indexTip in
  sqrt (dx * dx + dy * dy + dz * dz).

Definition tipCenter (thumbTip indexTip : HandLandmark) : Point3.t :=
  {| Point3.x := (Point3.x thumbTip + Point3.x indexTip) / 2;
     Point3.y := (Point3.y thumbTip + Point3.y indexTip) / 2;
     Point3.z := (Point3.z thumbTip + Point3.z indexTip) / 2 |}.

(** The centered, axis-flipped coordinates [rawX], [rawY], [rawZ]. *)
Definition centered (rawHandPosition : Point3.t) : Point3.t :=
  {| Point3.x := - (Point3.x rawHandPosition * 2 - 1);
     Point3.y := - (Point3.y rawHandPosition * 2 - 1);
     Point3.z := Point3.z rawHandPosition |}.

Definition smoothPosition (prev : option Point3.t) (raw : Point3.t) : Point3.t :=
  match prev with
  | None => raw
  | Some prev =>
      {| Point3.x := Point3.x prev + POSITION_SMOOTHING * (Point3.x raw - Point3.x prev);
         Point3.y := Point3.y prev + POSITION_SMOOTHING * (Point3.y raw - Point3.y prev);
         Point3.z := Point3.z prev + POSITION_SMOOTHING * (Point3.z raw - Point3.z prev) |}
  end.

Definition smoothPinch (prev rawPinchDistance : R) : R :=
  prev + PINCH_SMOOTHING * (rawPinchDistance - prev).

(** [targetState], from the committed state and the smoothed distance. *)
Definition targetState (wasGrabbing : bool) (pinchDistance : R) : bool :=
  if negb wasGrabbing && bool_decide (pinchDistance < PINCH_THRESHOLD) then true
  else if wasGrabbing && bool_decide (pinchDistance > PINCH_RELEASE_THRESHOLD) then false
  else wasGrabbing.

Definition filter (rawPinchDistance : R) (rawHandPosition : Point3.t)
    (p : Slot.t) : Slot.t :=
  let position := smoothPosition (Slot.smoothedPosition p) (centered rawHandPosition) in
  let pinchDistance := smoothPinch (Slot.smoothedPinch p) rawPinchDistance in
  let target := targetState (Slot.wasGrabbing p) pinchDistance in
  if bool_decide (target ≠ Slot.wasGrabbing p) then
    if bool_decide (Slot.pendingState p = Some target) then
      if bool_decide (STATE_CHANGE_FRAMES ≤ S (Slot.stateChangeCounter p))%nat then
        Slot.mk (Some position) pinchDistance target None 0
      else
        Slot.mk (Some position) pinchDistance (Slot.wasGrabbing p)
          (Slot.pendingState p) (S (Slot.stateChangeCounter p))
    else Slot.mk (Some position) pinchDistance (Slot.wasGrabbing p) (Some target) 1
  else Slot.mk (Some position) pinchDistance (Slot.wasGrabbing p) None 0.

(** The [GestureState] read off a slot after a step. *)
Definition slotGesture (p : Slot.t) : GestureState :=
  {| isGrabbing := Slot.wasGrabbing p;
     handPosition := Slot.smoothedPosition p;
     pinchDistance := Slot.smoothedPinch p;
     confidence := 1 |}.

(** ** Runs of the per-hand filter *)

(** The per-hand filter called on the successive frames of the hand of slot
    [handIndex]; the result lists the gesture returned for each frame. *)
Fixpoint processHandFrames (handIndex : nat) (frames : list (list HandLandmark))
    : M (list GestureState) :=
  match frames with
  | [] => mret []
  | landmarks :: frames =>
      g ← processHandLandmarks landmarks handIndex;
      gs ← processHandFrames handIndex frames;
      mret (g :: gs)
  end.

(** The raw pinch distance and raw anchor of a hand, when both tips exist. *)
Definition rawInput (landmarks : list HandLandmark) : option (R * Point3.t) :=
  thumbTip ← landmarks !! HAND_LANDMARKS.THUMB_TIP;
  indexTip ← landmarks !! HAND_LANDMARKS.INDEX_TIP;
  Some (tipDistance thumbTip indexTip, tipCenter thumbTip indexTip).

(** The successive slots produced by [filter] on a list of raw inputs. *)
Fixpoint filterFrames (inputs : list (R * Point3.t)) (p : Slot.t) : list Slot.t :=
  match inputs with
  | [] => []
  | (rawPinchDistance, rawHandPosition) :: inputs =>
      let p' := filter rawPinchDistance rawHandPosition p in
      p' :: filterFrames inputs p'
  end.

(** The smoothed pinch distances of a run depend on the raw distances only. *)
Fixpoint smoothedPinches (prev : R) (rawPinchDistances : list R) : list R :=
  match rawPinchDistances with
  | [] => []
  | d :: ds => smoothPinch prev d :: smoothedPinches (smoothPinch prev d) ds
  end.

(** ** The first grab of a run *)

(** The index of the first gesture with [isGrabbing = true]. *)
Fixpoint firstGrabbing (gs : list GestureState) : option nat :=
  match gs with
  | [] => None
  | g :: gs => if isGrabbing g then Some 0%nat else S <$> firstGrabbing gs
  end.

(** The index of the first sample that is below [PINCH_THRESHOLD] and whose
    predecessor is below it too; [previousBelow] tells whether the sample
    before the list was below the threshold. *)
Fixpoint firstPairBelow (previousBelow : bool) (samples : list R) : option nat :=
  match samples with
  | [] => None
  | d :: samples =>
      if bool_decide (d < PINCH_THRESHOLD) then
        if previousBelow then Some 0%nat else S <$> firstPairBelow true samples
      else S <$> firstPairBelow false samples
  end.

(** The slots from which the commit of a grab is pending or not. *)
Definition openSlot (previousBelow : bool) (p : Slot.t) : Prop :=
  Slot.wasGrabbing p = false ∧
  if previousBelow
  then Slot.pendingState p = Some true ∧ (1 ≤ Slot.stateChangeCounter p)%nat
  else Slot.pendingState p ≠ Some true.

(** The values of a slot that decide the debounce. *)
Definition slotIs (p : Slot.t) (pinch : R) (wasGrabbing : bool)
    (pending : option bool) (counter : nat) : Prop :=
  Slot.smoothedPinch p = pinch ∧ Slot.wasGrabbing p = wasGrabbing ∧
  Slot.pendingState p = pending ∧ Slot.stateChangeCounter p = counter.

(** ** Outcomes of calls *)

(** [wp m Q E s]: from [s], [m] returns a value and a state in [Q], or
    throws in a state in [E]. *)
Definition wp {A} (m : M A) (Q : A → Hook → Prop) (E : Hook → Prop)
    (s : Hook) : Prop :=
  match m s with
  | Returned a s' => Q a s'
  | Thrown s' => E s'
  end.

(** The state written by the branch of [onResults] for a frame without
    hands. *)
Definition resetHook (s : Hook) : Hook :=
  set_smoothedPinchesPerHand ∅
    (set_smoothedPositionsPerHand ∅
      (set_pendingStatesPerHand ∅
        (set_stateChangeCountersPerHand ∅
          (set_wasGrabbingRefsPerHand ∅
            (setTwoHandGesture noTwoHandGesture
              (set_wasGrabbingRef false (setGesture noHandGesture s))))))).

(** The values [processTwoHandGesture] derives once the roles are assigned. *)
Definition derivedGesture (leftHand rightHand : option GestureState)
    : TwoHandGestureState :=
  let bothPinching :=
    from_option isGrabbing false leftHand && from_option isGrabbing false rightHand in
  let '(pullDistance, centerPosition) :=
    match leftHand ≫= handPosition, rightHand ≫= handPosition with
    | Some l, Some r =>
        let dx := Point3.x r - Point3.x l in
        let dy := Point3.y r - Point3.y l in
        (sqrt (dx * dx + dy * dy),
         Some {| Point2.x := (Point3.x l + Point3.x r) / 2;
                 Point2.y := (Point3.y l + Point3.y r) / 2 |})
    | _, _ => (0, None)
    end in
  mkTwoHand bothPinching pullDistance centerPosition leftHand rightHand
    (bothPinching && bool_decide (pullDistance > MIN_PULL_DISTANCE)).

(** ** Predicates of the statements *)

(** The pull gate, as a property of one [TwoHandGestureState]. *)
Definition pullGate (g : TwoHandGestureState) : Prop :=
  pullDistance g =
    match leftHand g ≫= handPosition, rightHand g ≫= handPosition with
    | Some l, Some r =>
        sqrt ((Point3.x r - Point3.x l)² + (Point3.y r - Point3.y l)²)
    | _, _ => 0
    end ∧
  (isPulling g = true ↔
     (∃ l r, leftHand g = Some l ∧ rightHand g = Some r ∧
             isGrabbing l = true ∧ isGrabbing r = true) ∧
     pullDistance g > 0.15).

(** Every [TwoHandGestureState] the hook holds or has passed to
    [onTwoHandGestureUpdate] satisfies the pull gate. *)
Definition pullGateEverywhere (s : Hook) : Prop :=
  pullGate (twoHandGesture s) ∧
  ∀ g, onTwoHandGestureUpdate g ∈ callbacks s → pullGate g.

(** The labels with which two hands cannot claim the same role: the first is
    labelled and the second not with the same label, or neither
    carries a label "Left" or "Right". *)
Definition distinctRoles (handedness0 handedness1 : option string) : Prop :=
  (handedness0 = Some "Left"%string ∧ handedness1 ≠ Some "Left"%string) ∨
  (handedness0 = Some "Right"%string ∧ handedness1 ≠ Some "Right"%string) ∨
  (handedness0 ≠ Some "Left"%string ∧ handedness0 ≠ Some "Right"%string ∧
   handedness1 ≠ Some "Left"%string ∧ handedness1 ≠ Some "Right"%string).

(** A landmark with normalized image coordinates. *)
Definition unitLandmark (p : HandLandmark) : Prop :=
  0 <= Point3.x p <= 1 ∧ 0 <= Point3.y p <= 1.

(** A position of the centered convention. *)
Definition inBox (p : Point3.t) : Prop :=
  -1 <= Point3.x p <= 1 ∧ -1 <= Point3.y p <= 1.

(** Gestures and emissions whose hand positions are in the box. *)
Definition boxedGesture (g : GestureState) : Prop :=
  ∀ p, handPosition g = Some p → inBox p.

Definition boxedTwoHand (t : TwoHandGestureState) : Prop :=
  (∀ g, leftHand t = Some g → boxedGesture g) ∧
  (∀ g, rightHand t = Some g → boxedGesture g).

Definition boxedEmission (e : Emission) : Prop :=
  match e with
  | onGestureUpdate g => boxedGesture g
  | onTwoHandGestureUpdate t => boxedTwoHand t
  end.

(** Every position stored in a ref or emitted so far is in the box. *)
Definition boxed (s : Hook) : Prop :=
  (∀ p, smoothedPositionRef s = Some p → inBox p) ∧
  (∀ i p, smoothedPositionsPerHand s !! i = Some (Some p) → inBox p) ∧
  boxedGesture (gesture s) ∧
  boxedTwoHand (twoHandGesture s) ∧
  Forall boxedEmission (callbacks s).

(** The positions the hook has emitted: the hand position of the
    single-hand gesture it holds or has passed to [onGestureUpdate], and the
    hand positions of the left and right hands of the two-hand gesture it
    holds or has passed to [onTwoHandGestureUpdate]. *)
Definition emittedPosition (s : Hook) (p : Point3.t) : Prop :=
  handPosition (gesture s) = Some p ∨
  (∃ g, onGestureUpdate g ∈ callbacks s ∧ handPosition g = Some p) ∨
  (∃ t g, (t = twoHandGesture s ∨ onTwoHandGestureUpdate t ∈ callbacks s) ∧
          (leftHand t = Some g ∨ rightHand t = Some g) ∧
          handPosition g = Some p).

(** ** Example inputs *)

(** The landmark at the origin of the image. *)
Definition origin : HandLandmark := Point3.mk 0 0 0.

(** A complete hand of 21 landmarks with the two finger tips at the given
    points and every other landmark at the origin of the image. *)
Definition hand (thumbTip indexTip : HandLandmark) : list HandLandmark :=
  replicate 4 origin ++ thumbTip :: replicate 3 origin ++
  indexTip :: replicate 12 origin.

(** A hand whose raw pinch distance is [d]: the thumb tip at [(d,0,0)], the
    index tip at the origin. *)
Definition pinchedHand (d : R) : list HandLandmark :=
  hand (Point3.mk d 0 0) origin.

(** The scenario: five frames of one hand with raw pinch distances
    0.2, 0.2, 0.05, 0.05, 0.2. *)
Definition scenarioFrames : list (list HandLandmark) :=
  pinchedHand <$> [0.2; 0.2; 0.05; 0.05; 0.2].

(** A hook whose slot 0 holds a committed grab with smoothed distance 0.1. *)
Definition grabbingHook : Hook :=
  storeSlot 0 (Slot.mk (Some (Point3.mk 0 0 0)) 0.1 true None 0) initialHook.

(** A frame with one complete, unlabelled hand of raw pinch distance [d]. *)
Definition oneHandFrame (d : R) : Results :=
  {| multiHandLandmarks := Some [pinchedHand d]; multiHandedness := None |}.

(** A frame in which the detector reports no hand. *)
Definition noHandsFrame : Results :=
  {| multiHandLandmarks := Some []; multiHandedness := None |}.

(** A frame with two unlabelled hands. *)
Definition twoHandsFrame : Results :=
  {| multiHandLandmarks := Some [pinchedHand 0; pinchedHand 0.3];
     multiHandedness := None |}.

(** Five frames of a fully pinched hand (raw distance 0) from the initial
    state: the smoothed distance halves on each frame and falls below the
    threshold on the fifth, which makes a grab the pending candidate. *)
Definition pinchingFrames : list Results := oneHandFrame <$> [0; 0; 0; 0; 0].

(** ** Stopping the tracking session *)

(** Calls made by [stopTracking] on the camera, the detector and the
    browser. *)
Inductive DeviceCall : Type :=
| cameraStop
| handsClose
| cancelAnimationFrame (id : nat).

(** The hook together with the refs and the state that [stopTracking]
    touches besides the gesture refs: [cameraRef] and [handsRef] tell whether
    the ref holds an object, [deviceCalls] lists the calls made, most recent
    first. *)
Record Session : Type := mkSession {
  hook : Hook;
  cameraRef : bool;
  handsRef : bool;
  animationFrameRef : option nat;
  isReady : bool;
  deviceCalls : list DeviceCall
}.

Definition stopTracking (t : Session) : Session :=
  let calls := deviceCalls t in
  (* if (cameraRef.current) { cameraRef.current.stop(); cameraRef.current = null; } *)
  let calls := if cameraRef t then cameraStop :: calls else calls in
  (* if (handsRef.current) { handsRef.current.close(); handsRef.current = null; } *)
  let calls := if handsRef t then handsClose :: calls else calls in
  (* if (animationFrameRef.current) { cancelAnimationFrame(...); ... = null; }:
     the id 0 is falsy and stays in the ref *)
  let '(calls, frame) :=
    match animationFrameRef t with
    | Some (S n) => (cancelAnimationFrame (S n) :: calls, None)
    | Some O => (calls, Some O)
    | None => (calls, None)
    end in
  let s := hook t in
  let s := setGesture noHandGesture s in
  let s := setTwoHandGesture noTwoHandGesture s in
  let s := set_wasGrabbingRef false s in
  let s := set_wasGrabbingRefsPerHand ∅ s in
  let s := set_stateChangeCountersPerHand ∅ s in
  let s := set_pendingStatesPerHand ∅ s in
  let s := set_smoothedPositionsPerHand ∅ s in
  let s := set_smoothedPinchesPerHand ∅ s in
  {| hook := s; cameraRef := false; handsRef := false;
     animationFrameRef := frame; isReady := false; deviceCalls := calls |}.

(** ** The page

    [Home] keeps the last gesture passed to each callback of the hook and
    hands them to the scene, the menu and the message window. *)

Record Home : Type := mkHome {
  latestGesture : GestureState;
  latestTwoHandGesture : TwoHandGestureState
}.

Definition initialHome : Home :=
  {| latestGesture := noHandGesture; latestTwoHandGesture := noTwoHandGesture |}.

(** [handleGestureUpdate] and [handleTwoHandGestureUpdate]. *)
Definition handleEmission (e : Emission) (h : Home) : Home :=
  match e with
  | onGestureUpdate g =>
      {| latestGesture := g; latestTwoHandGesture := latestTwoHandGesture h |}
  | onTwoHandGestureUpdate g =>
      {| latestGesture := latestGesture h; latestTwoHandGesture := g |}
  end.

(** The page after the calls recorded in the hook, oldest first. *)
Definition homeAfter (s : Hook) : Home :=
  foldr handleEmission initialHome (callbacks s).

(** ** The menu: hand position on screen and hit test *)

#[global] Instance Rle_decision : RelDecision Rle := Rle_dec.
#[global] Instance Rge_decision : RelDecision Rge := Rge_dec.

(** [getScreenPosition], for a window of the given inner size. *)
Definition getScreenPosition (gesture : GestureState) (innerWidth innerHeight : R)
    : option Point2.t :=
  match handPosition gesture with
  | None => None
  | Some position =>
      let x := ((Point3.x position + 1) / 2) * innerWidth in
      let y := ((- Point3.y position + 1) / 2) * innerHeight in
      Some (Point2.mk x y)
  end.

(** The result of [getBoundingClientRect]. *)
Record Rect : Type := mkRect { left : R; right : R; top : R; bottom : R }.

(** [isHandOver(element, padding)]; [element] is [None] for a null element. *)
Definition isHandOver (gesture : GestureState) (innerWidth innerHeight : R)
    (element : option Rect) (padding : R) : bool :=
  match element, handPosition gesture with
  | Some rect, Some _ =>
      match getScreenPosition gesture innerWidth innerHeight with
      | None => false
      | Some screenPos =>
          bool_decide (Point2.x screenPos >= left rect - padding) &&
          bool_decide (Point2.x screenPos <= right rect + padding) &&
          bool_decide (Point2.y screenPos >= top rect - padding) &&
          bool_decide (Point2.y screenPos <= bottom rect + padding)
      end
  | _, _ => false
  end.

(** ** The message window: the effect of the pull gesture *)

Module MessageWindow.

(* Constants for sizing *)
Definition MIN_WINDOW_WIDTH : R := 320.
Definition MAX_WINDOW_WIDTH : R := 720.
Definition MIN_WINDOW_HEIGHT : R := 200.
Definition MAX_WINDOW_HEIGHT : R := 480.
(* Pull distance mapped to window size (0.15 = threshold, 0.5 = full size) *)
Definition PULL_SCALE_MIN : R := 0.15.
Definition PULL_SCALE_MAX : R := 0.5.

Record Size : Type := mkSize { width : R; height : R }.

(** What the effect asks of React, of the sound effects and of the timers;
    state setters take effect on the next render. *)
Inductive Action : Type :=
| setIsOpening (b : bool)
| setEmergeProgress (r : R)
| playWindowOpen
| setIsStretching (b : bool)
| advanceJellyPhase
| setWindowSize (size : Size)
| setPulseIntensity (r : R)
| setIsOpen (b : bool)
| startVoiceInputLater
| clearActiveKeys
| playWindowClose.

Record Refs : Type := mkRefs {
  wasPullingRef : bool;
  maxPullDistanceRef : R;
  prevSizeRef : Size;
  lastStretchTimeRef : R;
  openTimeRef : R;
  wasOpenRef : bool
}.

Definition initialRefs : Refs :=
  mkRefs false 0 (mkSize MIN_WINDOW_WIDTH MIN_WINDOW_HEIGHT) 0 0 false.

(** The pull normalized to [0, 1] and the window size for a maximal pull
    distance, as computed inside the effect. *)
Definition normalizedPull (maxPullDistance : R) : R :=
  Rmin 1 (Rmax 0 ((maxPullDistance - PULL_SCALE_MIN) / (PULL_SCALE_MAX - PULL_SCALE_MIN))).

Definition sizeFor (maxPullDistance : R) : Size :=
  let normalizedPull := normalizedPull maxPullDistance in
  mkSize (MIN_WINDOW_WIDTH + (MAX_WINDOW_WIDTH - MIN_WINDOW_WIDTH) * normalizedPull)
         (MIN_WINDOW_HEIGHT + (MAX_WINDOW_HEIGHT - MIN_WINDOW_HEIGHT) * normalizedPull).

(** The effect "Handle two-hand pull gesture to open/resize window", run
    with the rendered values [isOpen] and [isOpening]; [now] is the value of
    [Date.now()].  It returns the refs it leaves and the actions it asked
    for, in order. *)
Definition pullEffect (twoHandGesture : TwoHandGestureState)
    (isOpen isOpening : bool) (now : R) (r : Refs) : Refs * list Action :=
  let justStartedPulling := isPulling twoHandGesture && negb (wasPullingRef r) in
  let justStoppedPulling := negb (isPulling twoHandGesture) && wasPullingRef r in
  let wasPulling := isPulling twoHandGesture in
  (* If started pulling and window not open, begin opening *)
  let '(maxPull, openTime, actions) :=
    if justStartedPulling && negb isOpen && negb isOpening
    then (0, now, [setIsOpening true; setEmergeProgress 0; playWindowOpen])
    else (maxPullDistanceRef r, openTimeRef r, []) in
  (* If pulling, update window size based on pull distance *)
  let '(maxPull, prevSize, lastStretchTime, actions) :=
    if isPulling twoHandGesture then
      (* Track max pull distance - window only grows, never shrinks *)
      let maxPull := Rmax maxPull (pullDistance twoHandGesture) in
      let normalizedPull := normalizedPull maxPull in
      let newWidth :=
        MIN_WINDOW_WIDTH + (MAX_WINDOW_WIDTH - MIN_WINDOW_WIDTH) * normalizedPull in
      let newHeight :=
        MIN_WINDOW_HEIGHT + (MAX_WINDOW_HEIGHT - MIN_WINDOW_HEIGHT) * normalizedPull in
      (* Calculate resize velocity for jelly effect *)
      let deltaWidth := newWidth - width (prevSizeRef r) in
      let deltaHeight := newHeight - height (prevSizeRef r) in
      let resizeVelocity := sqrt (deltaWidth * deltaWidth + deltaHeight * deltaHeight) in
      (* Trigger jelly ripple on significant resize *)
      let '(lastStretchTime, actions) :=
        if bool_decide (resizeVelocity > 2) && bool_decide (now - lastStretchTimeRef r > 50)
        then (now, actions ++ [setIsStretching true; advanceJellyPhase])
        else (lastStretchTimeRef r, actions) in
      let actions :=
        actions ++ [setWindowSize (mkSize newWidth newHeight);
                    setPulseIntensity normalizedPull] in
      let actions :=
        if isOpening && bool_decide (normalizedPull > 0.3)
        then actions ++ [setIsOpening false; setIsOpen true; startVoiceInputLater]
        else actions in
      (maxPull, mkSize newWidth newHeight, lastStretchTime, actions)
    else (maxPull, prevSizeRef r, lastStretchTimeRef r, actions) in
  (* If stopped pulling while window is open, either keep open or close *)
  let '(maxPull, actions) :=
    if justStoppedPulling then
      if isOpening then
        (* Didn't pull enough, close *)
        (0, actions ++ [setIsOpening false; setIsOpen false; clearActiveKeys;
                        playWindowClose])
      else if isOpen then
        (* Window was open, trigger settle wobble *)
        (maxPull, actions ++ [setIsStretching false; setPulseIntensity 0])
      else (maxPull, actions)
    else (maxPull, actions) in
  (mkRefs wasPulling maxPull prevSize lastStretchTime openTime isOpen, actions).

End MessageWindow.

(** ** The first release of a run *)

(** The index of the first gesture with [isGrabbing = false]. *)
Fixpoint firstReleased (gs : list GestureState) : option nat :=
  match gs with
  | [] => None
  | g :: gs => if isGrabbing g then S <$> firstReleased gs else Some 0%nat
  end.

(** The index of the first sample that is above [PINCH_RELEASE_THRESHOLD]
    and whose predecessor is above it too; [previousAbove] tells whether the
    sample before the list was above the threshold. *)
Fixpoint firstPairAbove (previousAbove : bool) (samples : list R) : option nat :=
  match samples with
  | [] => None
  | d :: samples =>
      if bool_decide (d > PINCH_RELEASE_THRESHOLD) then
        if previousAbove then Some 0%nat else S <$> firstPairAbove true samples
      else S <$> firstPairAbove false samples
  end.

(** The slots that hold a grab, with its release pending or not. *)
Definition grabbingSlot (previousAbove : bool) (p : Slot.t) : Prop :=
  Slot.wasGrabbing p = true ∧
  if previousAbove
  then Slot.pendingState p = Some false ∧ (1 ≤ Slot.stateChangeCounter p)%nat
  else Slot.pendingState p ≠ Some false.

(** ** Gestures of a detected hand *)

(** What the two filters put in the gesture of a hand they have seen. *)
Definition detectedGesture (g : GestureState) : Prop :=
  confidence g = 1%nat ∧ handPosition g ≠ None.

Definition detectedTwoHand (t : TwoHandGestureState) : Prop :=
  (∀ g, leftHand t = Some g → detectedGesture g) ∧
  (∀ g, rightHand t = Some g → detectedGesture g).

Definition detectedEmission (e : Emission) : Prop :=
  match e with
  | onGestureUpdate g => detectedGesture g
  | onTwoHandGestureUpdate t => detectedTwoHand t
  end.

(** Every gesture held or passed to a callback is the no-hand gesture or the
    gesture of a detected hand. *)
Definition wellFormed (s : Hook) : Prop :=
  (gesture s = noHandGesture ∨ detectedGesture (gesture s)) ∧
  detectedTwoHand (twoHandGesture s) ∧
  Forall detectedEmission (callbacks s).

(** ** The slot of one hand over a stream of frames *)

(** What one frame does to the slot of index [j], read off the frame alone:
    a frame without hands resets it, a frame whose hand of index [j] has both
    finger tips filters it with the raw values of that hand, any other frame
    with hands leaves it. *)
Definition slotAfterFrame (j : nat) (results : Results) (p : Slot.t) : Slot.t :=
  match multiHandLandmarks results with
  | Some (landmarks :: others) =>
      match (landmarks :: others) !! j ≫= rawInput with
      | Some (d, c) => filter d c p
      | None => p
      end
  | _ => Slot.initial
  end.

Definition slotAfter (j : nat) (frames : list Results) (p : Slot.t) : Slot.t :=
  foldl (λ p results, slotAfterFrame j results p) p frames.

(** ** A pull *)

(** A frame with two complete hands whose finger tips touch: the first is
    labelled "Right" and has its tips at x = 0.2 of the image, the second is
    labelled "Left" and has its tips at x = 0.8. *)
Definition pullingFrame : Results :=
  {| multiHandLandmarks :=
       Some [hand (Point3.mk 0.2 0.5 0) (Point3.mk 0.2 0.5 0);
             hand (Point3.mk 0.8 0.5 0) (Point3.mk 0.8 0.5 0)];
     multiHandedness := Some [{| label := "Right" |}; {| label := "Left" |}] |}.

(** ** The menu: the pinch that toggles it *)

Module HamburgerMenu.

(** The ids of [menuOptions]. *)
Definition menuOptions : list string := ["settings"; "info"; "camera"]%string.

Inductive Action : Type :=
| optionClicked (id : string)
| playOptionSelect
(* setIsOpen(prev => !prev), with the sound of the new state *)
| toggleIsOpen.

Record Refs : Type := mkRefs {
  wasGrabbingRef : bool;
  lastToggleTimeRef : R
}.

Definition initialRefs : Refs := mkRefs false 0.

(** The truth value of a [string | null]. *)
Definition truthy (o : option string) : bool :=
  match o with
  | Some s => negb (bool_decide (s = ""%string))
  | None => false
  end.

(** The effect "Handle pinch detection for menu toggle", run with the
    rendered values [isOpen], [hoveringOption] and [isHovering]; [now] is the
    value of [Date.now()]. *)
Definition pinchEffect (gesture : GestureState) (isOpen : bool)
    (hoveringOption : option string) (isHovering : bool) (now : R) (r : Refs)
    : Refs * list Action :=
  let justGrabbed := isGrabbing gesture && negb (wasGrabbingRef r) in
  let wasGrabbing := isGrabbing gesture in
  if negb justGrabbed then (mkRefs wasGrabbing (lastToggleTimeRef r), [])
  (* Shorter debounce (300ms) for responsive toggling *)
  else if bool_decide (now - lastToggleTimeRef r < 300)
  then (mkRefs wasGrabbing (lastToggleTimeRef r), [])
  (* When menu is open, options take priority over main button *)
  else if isOpen && truthy hoveringOption then
    let option := hoveringOption ≫= λ id, list_find (λ opt, opt = id) menuOptions in
    (mkRefs wasGrabbing now,
     match option with
     | Some (_, id) => [optionClicked id; playOptionSelect]
     | None => [playOptionSelect]
     end)
  (* Main button - toggle open/close *)
  else if isHovering then (mkRefs wasGrabbing now, [toggleIsOpen])
  else (mkRefs wasGrabbing (lastToggleTimeRef r), []).

End HamburgerMenu.

(** ** The sphere: picking it up, and the pieces it splits into *)

Module InteractiveSphere.

Definition DEPTH_SCALE : R := 50.
(* Depth range limits to keep sphere visible *)
Definition MIN_DEPTH : R := -8.
Definition MAX_DEPTH : R := 4.

Record Viewport : Type := mkViewport { width : R; height : R }.

Inductive Action : Type :=
| setIsHeld (b : bool)
| setGrabOffset (offset : Point3.t)
| setPosition (position : Point3.t).

(** The effect on [gesture], run with the rendered values [isHeld] and
    [grabOffset]; [spherePos] is [smoothPositionRef.current].  It returns the
    value it leaves in [wasGrabbingRef] and the state updates it asked
    for. *)
Definition gestureEffect (gesture : GestureState) (viewport : Viewport)
    (isHeld : bool) (grabOffset : Point3.t) (spherePos : Point3.t)
    (wasGrabbingRef : bool) : bool * list Action :=
  match handPosition gesture with
  | None => (wasGrabbingRef, [])
  | Some handPosition =>
      (* Convert normalized hand position to 3D world coordinates *)
      let handX := Point3.x handPosition * (width viewport / 2) * 1.2 in
      let handY := Point3.y handPosition * (height viewport / 2) * 1.2 in
      let handZ :=
        Rmax MIN_DEPTH (Rmin MAX_DEPTH (Point3.z handPosition * DEPTH_SCALE)) in
      (* Check if hand is near the sphere (for grab initiation) *)
      let distance :=
        sqrt ((handX - Point3.x spherePos) ^ 2 + (handY - Point3.y spherePos) ^ 2) in
      let grabRadius := 0.8 in
      let actions :=
        if isGrabbing gesture && negb wasGrabbingRef then
          (* Just started grabbing *)
          if bool_decide (distance < grabRadius) then
            [setIsHeld true;
             setGrabOffset {| Point3.x := Point3.x spherePos - handX;
                              Point3.y := Point3.y spherePos - handY;
                              Point3.z := Point3.z spherePos - handZ |}]
          else []
        else if negb (isGrabbing gesture) && wasGrabbingRef then
          (* Just released *)
          if isHeld then [setIsHeld false] else []
        else [] in
      (* Update position if held *)
      let actions :=
        if isHeld && isGrabbing gesture then
          let newZ := Rmax MIN_DEPTH (Rmin MAX_DEPTH (handZ + Point3.z grabOffset)) in
          actions ++ [setPosition {| Point3.x := handX + Point3.x grabOffset;
                                     Point3.y := handY + Point3.y grabOffset;
                                     Point3.z := newZ |}]
        else actions in
      (isGrabbing gesture, actions)
  end.

(** The part of the [useFrame] callback that tracks the pull: it returns the
    values left in [wasPullingRef] and [maxPullDistanceRef], and
    [pullNormalized]; [mesh] tells whether [meshRef.current] exists. *)
Definition trackPull (mesh : bool) (twoHandGesture : TwoHandGestureState)
    (isMessageWindowVisible : bool) (wasPullingRef : bool) (maxPullDistanceRef : R)
    : bool * R * option R :=
  if negb mesh then (wasPullingRef, maxPullDistanceRef, None)
  else
    let isSplitting := isPulling twoHandGesture in
    (* Track pull gesture state to reset max on new gesture *)
    let justStartedPulling := isSplitting && negb wasPullingRef in
    let wasPulling := isSplitting in
    let maxPull := if justStartedPulling then 0 else maxPullDistanceRef in
    (* Reset max pull when window is no longer visible (ensures clean state) *)
    let maxPull :=
      if negb isMessageWindowVisible && negb isSplitting then 0 else maxPull in
    (* Track max pull distance - window only grows, never shrinks *)
    let maxPull :=
      if isSplitting then Rmax maxPull (pullDistance twoHandGesture) else maxPull in
    let pullNormalized := Rmin 1 (Rmax 0 ((maxPull - 0.15) / (0.5 - 0.15))) in
    (wasPulling, maxPull, Some pullNormalized).

End InteractiveSphere.

(** ** Slots of hands that have just appeared *)

(** A slot that is at most [n] frames away from its initial state: no grab
    is committed, the smoothed pinch distance is at least [1 / 2 ^ n], and a
    grab is pending only below the threshold. *)
Definition youngSlot (n : nat) (p : Slot.t) : Prop :=
  1 / 2 ^ n <= Slot.smoothedPinch p ∧ Slot.wasGrabbing p = false ∧
  (Slot.pendingState p = Some true → Slot.smoothedPinch p < PINCH_THRESHOLD).

(** * Properties *)

(** ** The monad and the geometry helpers *)

Lemma calculatePinchDistance_defined (landmarks : list HandLandmark)
    thumbTip indexTip s :
  landmarks !! HAND_LANDMARKS.THUMB_TIP = Some thumbTip →
  landmarks !! HAND_LANDMARKS.INDEX_TIP = Some indexTip →
  calculatePinchDistance landmarks s = Returned (tipDistance thumbTip indexTip) s.
Proof.
  intros Ht Hi. unfold calculatePinchDistance. rewrite Ht, Hi. reflexivity.
Qed.

Lemma calculateHandCenter_defined (landmarks : list HandLandmark)
    thumbTip indexTip s :
  landmarks !! HAND_LANDMARKS.THUMB_TIP = Some thumbTip →
  landmarks !! HAND_LANDMARKS.INDEX_TIP = Some indexTip →
  calculateHandCenter landmarks s = Returned (tipCenter thumbTip indexTip) s.
Proof.
  intros Ht Hi. unfold calculateHandCenter. rewrite Ht, Hi. reflexivity.
Qed.

Lemma calculatePinchDistance_undefined (landmarks : list HandLandmark) s :
  landmarks !! HAND_LANDMARKS.THUMB_TIP = None ∨
  landmarks !! HAND_LANDMARKS.INDEX_TIP = None →
  calculatePinchDistance landmarks s = Thrown s.
Proof.
  intros H. unfold calculatePinchDistance.
  destruct (landmarks !! HAND_LANDMARKS.THUMB_TIP) as [t|],
    (landmarks !! HAND_LANDMARKS.INDEX_TIP) as [i|];
    try reflexivity.
  destruct H; discriminate.
Qed.

Lemma initIfUndefined_insert {A} i (d : A) (m : gmap nat A) :
  initIfUndefined i d m = <[i := default d (m !! i)]> m.
Proof.
  unfold initIfUndefined. destruct (m !! i) as [a|] eqn:E; simpl.
  - symmetry. by apply insert_id.
  - reflexivity.
Qed.

Lemma processLandmarks_throws (landmarks : list HandLandmark) s :
  landmarks !! HAND_LANDMARKS.THUMB_TIP = None ∨
  landmarks !! HAND_LANDMARKS.INDEX_TIP = None →
  processLandmarks landmarks s = Thrown s.
Proof.
  intros H. unfold processLandmarks, mbind, M_bind.
  by rewrite calculatePinchDistance_undefined.
Qed.

Lemma processHandLandmarks_throws (landmarks : list HandLandmark) handIndex s :
  landmarks !! HAND_LANDMARKS.THUMB_TIP = None ∨
  landmarks !! HAND_LANDMARKS.INDEX_TIP = None →
  processHandLandmarks landmarks handIndex s = Thrown s.
Proof.
  intros H. unfold processHandLandmarks, mbind, M_bind.
  by rewrite calculatePinchDistance_undefined.
Qed.

(** [processLandmarks] is [filter] on the single-hand refs, followed by the
    emission of the gesture read off them. *)
Lemma processLandmarks_filter (landmarks : list HandLandmark) thumbTip indexTip s :
  landmarks !! HAND_LANDMARKS.THUMB_TIP = Some thumbTip →
  landmarks !! HAND_LANDMARKS.INDEX_TIP = Some indexTip →
  let p := filter (tipDistance thumbTip indexTip) (tipCenter thumbTip indexTip)
             (singleSlot s) in
  processLandmarks landmarks s =
    Returned tt (call (onGestureUpdate (slotGesture p))
                   (setGesture (slotGesture p) (storeSingleSlot p s))).
Proof.
  intros Ht Hi p. subst p. unfold processLandmarks, mbind, M_bind.
  rewrite (calculatePinchDistance_defined _ _ _ _ Ht Hi).
  rewrite (calculateHandCenter_defined _ _ _ _ Ht Hi).
  destruct s as [g tg was cnt pend wm cm pm spm sdm ppd sp sd cb].
  unfold filter, targetState, singleSlot, smoothPinch, centered, tipCenter.
  destruct sp as [current|]; cbn;
    (match goal with |- context [bool_decide (?t ≠ was)] => generalize t end;
     intros target;
     destruct (bool_decide (target ≠ was)); cbn; [|reflexivity];
     destruct (bool_decide (pend = Some target)); cbn; [|reflexivity];
     destruct (bool_decide (STATE_CHANGE_FRAMES ≤ S cnt)%nat); reflexivity).
Qed.

Arguments initIfUndefined : simpl never.

(** [processHandLandmarks] is [filter] on the entries [handIndex] of the
    per-hand dictionaries; it returns the gesture read off them. *)
Lemma processHandLandmarks_filter (landmarks : list HandLandmark)
    thumbTip indexTip handIndex s :
  landmarks !! HAND_LANDMARKS.THUMB_TIP = Some thumbTip →
  landmarks !! HAND_LANDMARKS.INDEX_TIP = Some indexTip →
  let p := filter (tipDistance thumbTip indexTip) (tipCenter thumbTip indexTip)
             (slot handIndex s) in
  processHandLandmarks landmarks handIndex s =
    Returned (slotGesture p) (storeSlot handIndex p s).
Proof.
  intros Ht Hi p. subst p. unfold processHandLandmarks, mbind, M_bind.
  rewrite (calculatePinchDistance_defined _ _ _ _ Ht Hi).
  rewrite (calculateHandCenter_defined _ _ _ _ Ht Hi).
  destruct s as [g tg was cnt pend wm cm pm spm sdm ppd sp sd cb].
  unfold filter, targetState, slot, smoothPinch, centered, tipCenter, storeSlot.
  cbn. rewrite !initIfUndefined_insert, !lookup_insert_eq.
  generalize (default 1 (sdm !! handIndex)); intros prevPinch.
  generalize (default false (wm !! handIndex)); intros wasGrabbing.
  generalize (default None (pm !! handIndex)); intros pending.
  generalize (default 0%nat (cm !! handIndex)); intros counter.
  destruct (default None (spm !! handIndex)) as [prev|]; cbn;
    repeat (rewrite lookup_insert_eq; cbn);
    (match goal with |- context [bool_decide (?t ≠ wasGrabbing)] => generalize t end;
     intros target;
     destruct (bool_decide (target ≠ wasGrabbing)); cbn;
     repeat (rewrite lookup_insert_eq; cbn);
     [|by rewrite ?insert_insert_eq];
     destruct (decide (pending = Some target)) as [->|Hne];
     [ rewrite !bool_decide_eq_true_2 by done; cbn;
       rewrite alter_insert_eq, lookup_insert_eq; cbn;
       destruct (bool_decide (STATE_CHANGE_FRAMES ≤ S counter)%nat); cbn;
       repeat (rewrite lookup_insert_eq; cbn);
       by rewrite ?insert_insert_eq
     | rewrite !bool_decide_eq_false_2 by congruence; cbn;
       repeat (rewrite lookup_insert_eq; cbn);
       by rewrite ?insert_insert_eq ]).
Qed.

(** ** The slot view of the state *)

Lemma slot_storeSlot handIndex p s : slot handIndex (storeSlot handIndex p s) = p.
Proof.
  destruct p. unfold slot, storeSlot; cbn. by rewrite !lookup_insert_eq.
Qed.

Lemma slot_storeSlot_ne i j p s : i ≠ j → slot j (storeSlot i p s) = slot j s.
Proof.
  intros Hne. unfold slot, storeSlot; cbn. by rewrite !lookup_insert_ne.
Qed.

Lemma singleSlot_storeSlot i p s : singleSlot (storeSlot i p s) = singleSlot s.
Proof. reflexivity. Qed.

Lemma singleSlot_storeSingleSlot p s : singleSlot (storeSingleSlot p s) = p.
Proof. by destruct p. Qed.

Lemma slot_storeSingleSlot i p s : slot i (storeSingleSlot p s) = slot i s.
Proof. reflexivity. Qed.

Lemma slot_initialHook i : slot i initialHook = Slot.initial.
Proof. unfold slot; cbn. by rewrite !lookup_empty. Qed.

(** ** The transition [filter] *)

Lemma filter_smoothedPinch rawPinchDistance rawHandPosition p :
  Slot.smoothedPinch (filter rawPinchDistance rawHandPosition p) =
  smoothPinch (Slot.smoothedPinch p) rawPinchDistance.
Proof. unfold filter. by repeat case_bool_decide. Qed.

Lemma filter_smoothedPosition rawPinchDistance rawHandPosition p :
  Slot.smoothedPosition (filter rawPinchDistance rawHandPosition p) =
  Some (smoothPosition (Slot.smoothedPosition p) (centered rawHandPosition)).
Proof. unfold filter. by repeat case_bool_decide. Qed.

(** The debounce part of [filter], by cases on the target computed for the
    frame. *)
Lemma filter_debounce rawPinchDistance rawHandPosition p :
  let p' := filter rawPinchDistance rawHandPosition p in
  let target := targetState (Slot.wasGrabbing p) (Slot.smoothedPinch p') in
  (target = Slot.wasGrabbing p ∧
     Slot.wasGrabbing p' = Slot.wasGrabbing p ∧
     Slot.pendingState p' = None ∧ Slot.stateChangeCounter p' = 0%nat) ∨
  (target ≠ Slot.wasGrabbing p ∧ Slot.pendingState p ≠ Some target ∧
     Slot.wasGrabbing p' = Slot.wasGrabbing p ∧
     Slot.pendingState p' = Some target ∧ Slot.stateChangeCounter p' = 1%nat) ∨
  (target ≠ Slot.wasGrabbing p ∧ Slot.pendingState p = Some target ∧
     (STATE_CHANGE_FRAMES ≤ S (Slot.stateChangeCounter p))%nat ∧
     Slot.wasGrabbing p' = target ∧
     Slot.pendingState p' = None ∧ Slot.stateChangeCounter p' = 0%nat) ∨
  (target ≠ Slot.wasGrabbing p ∧ Slot.pendingState p = Some target ∧
     (S (Slot.stateChangeCounter p) < STATE_CHANGE_FRAMES)%nat ∧
     Slot.wasGrabbing p' = Slot.wasGrabbing p ∧
     Slot.pendingState p' = Slot.pendingState p ∧
     Slot.stateChangeCounter p' = S (Slot.stateChangeCounter p)).
Proof.
  intros p' target. subst target p'. rewrite filter_smoothedPinch.
  unfold filter.
  set (target := targetState (Slot.wasGrabbing p)
                  (smoothPinch (Slot.smoothedPinch p) rawPinchDistance)).
  repeat case_bool_decide; cbn;
    first [ tauto
          | right; right; right; repeat split; first [done | lia]
          | left; repeat split; try done;
            by destruct (decide (target = Slot.wasGrabbing p)) ].
Qed.

(** Hysteresis: the target leaves the committed state only across the
    threshold on the other side. *)
Lemma targetState_true_stays pinchDistance :
  ¬ pinchDistance > PINCH_RELEASE_THRESHOLD → targetState true pinchDistance = true.
Proof. intros H. unfold targetState; cbn. by rewrite bool_decide_eq_false_2. Qed.

Lemma targetState_false_stays pinchDistance :
  ¬ pinchDistance < PINCH_THRESHOLD → targetState false pinchDistance = false.
Proof. intros H. unfold targetState; cbn. by rewrite bool_decide_eq_false_2. Qed.

Lemma targetState_false pinchDistance :
  targetState false pinchDistance = bool_decide (pinchDistance < PINCH_THRESHOLD).
Proof. unfold targetState; cbn. by case_bool_decide. Qed.

Lemma targetState_true pinchDistance :
  targetState true pinchDistance =
  negb (bool_decide (pinchDistance > PINCH_RELEASE_THRESHOLD)).
Proof. unfold targetState; cbn. by case_bool_decide. Qed.

(** ** Example hands *)

Lemma tipDistance_pinched d : 0 <= d → tipDistance (Point3.mk d 0 0) origin = d.
Proof.
  intros Hd. unfold tipDistance, origin; cbn.
  replace ((d - 0) * (d - 0) + (0 - 0) * (0 - 0) + (0 - 0) * (0 - 0))
    with (d * d) by ring.
  by apply sqrt_square.
Qed.

(** ** Smoothing *)

(** C7. On every frame where the hand of a slot is present, the smoothed
    values are updated by [smoothed + 0.4 * (raw - smoothed)], componentwise,
    for the position and by [smoothed + 0.5 * (raw - smoothed)] for the pinch
    distance (a slot not seen before starts from pinch distance 1); when the
    smoothed position is still null it is seeded with the raw transformed
    position.  This holds for the per-hand filter and for the single-hand
    path. *)
Theorem smoothing_update (landmarks : list HandLandmark) thumbTip indexTip
    handIndex s :
  landmarks !! HAND_LANDMARKS.THUMB_TIP = Some thumbTip →
  landmarks !! HAND_LANDMARKS.INDEX_TIP = Some indexTip →
  let raw := centered (tipCenter thumbTip indexTip) in
  let rawPinch := tipDistance thumbTip indexTip in
  let smoothed (prev : option Point3.t) : Point3.t :=
    match prev with
    | None => raw
    | Some prev =>
        Point3.mk (Point3.x prev + 0.4 * (Point3.x raw - Point3.x prev))
                  (Point3.y prev + 0.4 * (Point3.y raw - Point3.y prev))
                  (Point3.z prev + 0.4 * (Point3.z raw - Point3.z prev))
    end in
  (∃ g s', processHandLandmarks landmarks handIndex s = Returned g s' ∧
     handPosition g = Some (smoothed (Slot.smoothedPosition (slot handIndex s))) ∧
     pinchDistance g =
       Slot.smoothedPinch (slot handIndex s) +
       0.5 * (rawPinch - Slot.smoothedPinch (slot handIndex s)) ∧
     smoothedPositionsPerHand s' !! handIndex = Some (handPosition g) ∧
     smoothedPinchesPerHand s' !! handIndex = Some (pinchDistance g)) ∧
  (∃ s', processLandmarks landmarks s = Returned tt s' ∧
     smoothedPositionRef s' = Some (smoothed (smoothedPositionRef s)) ∧
     smoothedPinchRef s' = smoothedPinchRef s + 0.5 * (rawPinch - smoothedPinchRef s) ∧
     handPosition (gesture s') = smoothedPositionRef s' ∧
     pinchDistance (gesture s') = smoothedPinchRef s').
Proof.
  intros Ht Hi raw rawPinch smoothed. split.
  - eexists _, _. split; [by apply processHandLandmarks_filter|].
    cbn. rewrite !lookup_insert_eq.
    rewrite filter_smoothedPosition, filter_smoothedPinch. done.
  - eexists. split; [by apply processLandmarks_filter|].
    cbn. rewrite filter_smoothedPosition, filter_smoothedPinch. done.
Qed.

Lemma smoothing_update_witness :
  ∃ g s',
    processHandLandmarks (pinchedHand 0.2) 0 initialHook = Returned g s' ∧
    handPosition g = Some (Point3.mk (- ((0.2 + 0) / 2 * 2 - 1)) (- ((0 + 0) / 2 * 2 - 1)) ((0 + 0) / 2)) ∧
    pinchDistance g = 1 + 0.5 * (tipDistance (Point3.mk 0.2 0 0) origin - 1).
Proof.
  destruct (smoothing_update (pinchedHand 0.2) (Point3.mk 0.2 0 0) origin 0
              initialHook eq_refl eq_refl) as [(g & s' & Hrun & Hpos & Hpinch & _) _].
  exists g, s'. rewrite slot_initialHook in Hpos, Hpinch. auto.
Defined.

(** ** Hands with missing landmarks *)

Lemma lookup_tip_short (landmarks : list HandLandmark) :
  (length landmarks ≤ 8)%nat → landmarks !! HAND_LANDMARKS.INDEX_TIP = None.
Proof. intros H. apply lookup_ge_None. unfold HAND_LANDMARKS.INDEX_TIP. lia. Qed.

Lemma lookup_tips_long (landmarks : list HandLandmark) :
  (9 ≤ length landmarks)%nat →
  ∃ thumbTip indexTip,
    landmarks !! HAND_LANDMARKS.THUMB_TIP = Some thumbTip ∧
    landmarks !! HAND_LANDMARKS.INDEX_TIP = Some indexTip.
Proof.
  intros H.
  destruct (lookup_lt_is_Some_2 landmarks HAND_LANDMARKS.THUMB_TIP) as [t Ht];
    [unfold HAND_LANDMARKS.THUMB_TIP; lia|].
  destruct (lookup_lt_is_Some_2 landmarks HAND_LANDMARKS.INDEX_TIP) as [i Hi];
    [unfold HAND_LANDMARKS.INDEX_TIP; lia|].
  eauto.
Qed.

(** C2, as the code has it.  A hand that lacks THUMB_TIP (index 4) or
    INDEX_TIP (index 8), that is a list of fewer than 9 landmarks, makes the
    per-hand filter raise an exception before it writes any ref: no
    [GestureState] is returned and the whole state of the hook, the slot
    included, is unchanged.  A hand of 9 landmarks or more (so also one of
    9 to 20 landmarks) has both tips and is filtered as a complete hand is:
    its slot is updated. *)
Theorem short_hand_throws_or_is_filtered (landmarks : list HandLandmark)
    handIndex s :
  ((length landmarks ≤ 8)%nat →
     processHandLandmarks landmarks handIndex s = Thrown s) ∧
  ((9 ≤ length landmarks)%nat →
     ∃ thumbTip indexTip,
       landmarks !! HAND_LANDMARKS.THUMB_TIP = Some thumbTip ∧
       landmarks !! HAND_LANDMARKS.INDEX_TIP = Some indexTip ∧
       let p := filter (tipDistance thumbTip indexTip)
                  (tipCenter thumbTip indexTip) (slot handIndex s) in
       processHandLandmarks landmarks handIndex s =
         Returned (slotGesture p) (storeSlot handIndex p s)).
Proof.
  split; intros Hlen.
  - apply processHandLandmarks_throws. right. by apply lookup_tip_short.
  - destruct (lookup_tips_long landmarks Hlen) as (t & i & Ht & Hi).
    exists t, i. repeat split; try done. by apply processHandLandmarks_filter.
Qed.

Lemma short_hand_throws_or_is_filtered_witness :
  processHandLandmarks (replicate 8 origin) 1 initialHook = Thrown initialHook ∧
  ∃ g s', processHandLandmarks (replicate 9 origin) 1 initialHook = Returned g s'.
Proof.
  split.
  - apply (proj1 (short_hand_throws_or_is_filtered (replicate 8 origin) 1 initialHook)).
    cbn. lia.
  - destruct (proj2 (short_hand_throws_or_is_filtered (replicate 9 origin) 1 initialHook))
      as (t & i & _ & _ & Hrun); [cbn; lia|].
    eauto.
Defined.

(** C2, as the specification states it, fails on the code: a hand of 8 landmarks (fewer than 21,
    INDEX_TIP missing) makes the filter throw instead of being skipped, and
    a hand of 9 landmarks (fewer than 21) is not treated as absent: the
    filter returns a gesture for it and writes the smoothed pinch distance of
    its slot. *)
Lemma short_hand_not_treated_as_absent :
  (length (replicate 8 origin) < 21)%nat ∧
  processHandLandmarks (replicate 8 origin) 0 initialHook = Thrown initialHook ∧
  (length (replicate 9 origin) < 21)%nat ∧
  ∃ g s', processHandLandmarks (replicate 9 origin) 0 initialHook = Returned g s' ∧
          confidence g = 1%nat ∧
          smoothedPinchesPerHand initialHook !! 0%nat = None ∧
          smoothedPinchesPerHand s' !! 0%nat = Some (1 + 0.5 * (0 - 1)).
Proof.
  split; [cbn; lia|]. split.
  - apply processHandLandmarks_throws. by right.
  - split; [cbn; lia|]. eexists _, _. split.
    + by apply (processHandLandmarks_filter _ origin origin).
    + split; [done|]. split; [done|]. cbn. rewrite lookup_insert_eq.
      rewrite filter_smoothedPinch, slot_initialHook. cbn.
      unfold smoothPinch, tipDistance, origin; cbn.
      replace ((0 - 0) * (0 - 0) + (0 - 0) * (0 - 0) + (0 - 0) * (0 - 0)) with 0 by ring.
      by rewrite sqrt_0.
Qed.

(** ** The two-hand aggregator *)

Lemma processTwoHandGesture_returns hand0 hand1 handedness0 handedness1 s :
  let g := newTwoHandGesture hand0 hand1 handedness0 handedness1 in
  processTwoHandGesture hand0 hand1 handedness0 handedness1 s =
    Returned g (call (onTwoHandGestureUpdate g)
                  (setTwoHandGesture g (set_prevPullDistanceRef (pullDistance g) s))).
Proof. reflexivity. Qed.

Lemma newTwoHandGesture_derived hand0 hand1 handedness0 handedness1 :
  let g := newTwoHandGesture hand0 hand1 handedness0 handedness1 in
  g = derivedGesture (leftHand g) (rightHand g) ∧
  (∀ h, leftHand g = Some h → hand0 = Some h ∨ hand1 = Some h) ∧
  (∀ h, rightHand g = Some h → hand0 = Some h ∨ hand1 = Some h).
Proof.
  unfold newTwoHandGesture, derivedGesture.
  destruct hand0 as [[g0 [p0|] d0 c0]|], hand1 as [[g1 [p1|] d1 c1]|]; cbn;
    repeat case_bool_decide; cbn;
    (split; [reflexivity|]); split; intros h Hh; simplify_eq; auto.
Qed.

Lemma pullGate_derivedGesture leftHand rightHand :
  pullGate (derivedGesture leftHand rightHand).
Proof.
  unfold pullGate, derivedGesture.
  destruct leftHand as [[gl [pl|] dl cl]|], rightHand as [[gr [pr|] dr cr]|];
    cbn; (split; [reflexivity|]);
    rewrite ?andb_true_iff, ?bool_decide_eq_true; unfold MIN_PULL_DISTANCE;
    (split;
     [ intros H; destruct_and?; try discriminate; eauto 10
     | intros [(l' & r' & Hl & Hr & Hgl & Hgr) Hd]; simplify_eq; cbn in *; auto ]).
Qed.

Lemma pullGate_newTwoHandGesture hand0 hand1 handedness0 handedness1 :
  pullGate (newTwoHandGesture hand0 hand1 handedness0 handedness1).
Proof.
  destruct (newTwoHandGesture_derived hand0 hand1 handedness0 handedness1)
    as (-> & _).
  apply pullGate_derivedGesture.
Qed.

Lemma pullGate_noTwoHandGesture : pullGate noTwoHandGesture.
Proof.
  split; [reflexivity|]. cbn. split; [discriminate|].
  intros [(l & r & Hl & _) _]. discriminate.
Qed.

(** C10. When both detected hands carry the same handedness label, the
    second hand overwrites the first in that role: the emitted
    [TwoHandGestureState] holds the second hand in the role of the label and
    null in the other role (the gesture of the first hand is in neither
    role), so [bothPinching] and [isPulling] are false whatever the pinch
    states of the two hands. *)
Theorem same_label_second_hand_overwrites (h0 h1 : GestureState)
    (handedness : string) s :
  handedness = "Left"%string ∨ handedness = "Right"%string →
  ∃ g s',
    processTwoHandGesture (Some h0) (Some h1) (Some handedness) (Some handedness) s
      = Returned g s' ∧
    twoHandGesture s' = g ∧
    (handedness = "Left"%string → leftHand g = Some h1 ∧ rightHand g = None) ∧
    (handedness = "Right"%string → rightHand g = Some h1 ∧ leftHand g = None) ∧
    bothPinching g = false ∧ isPulling g = false ∧ pullDistance g = 0.
Proof.
  intros H. eexists _, _. split; [apply processTwoHandGesture_returns|].
  split; [reflexivity|].
  unfold newTwoHandGesture.
  destruct H as [-> | ->].
  - rewrite !(bool_decide_eq_true_2 (Some "Left"%string = Some "Left"%string)) by done.
    destruct h1 as [g1 [p1|] d1 c1]; cbn; rewrite ?andb_false_r; repeat split; done.
  - rewrite !(bool_decide_eq_false_2 (Some "Right"%string = Some "Left"%string)) by done.
    rewrite !(bool_decide_eq_true_2 (Some "Right"%string = Some "Right"%string)) by done.
    destruct h1 as [g1 [p1|] d1 c1]; cbn; repeat split; done.
Qed.

Lemma same_label_second_hand_overwrites_witness :
  ∃ g s',
    processTwoHandGesture
      (Some (mkGesture true (Some (Point3.mk (-0.5) 0 0)) 0.01 1))
      (Some (mkGesture true (Some (Point3.mk 0.5 0 0)) 0.02 1))
      (Some "Left"%string) (Some "Left"%string) initialHook = Returned g s' ∧
    leftHand g = Some (mkGesture true (Some (Point3.mk 0.5 0 0)) 0.02 1) ∧
    rightHand g = None ∧ isPulling g = false.
Proof.
  destruct (same_label_second_hand_overwrites
              (mkGesture true (Some (Point3.mk (-0.5) 0 0)) 0.01 1)
              (mkGesture true (Some (Point3.mk 0.5 0 0)) 0.02 1)
              "Left"%string initialHook (or_introl eq_refl))
    as (g & s' & Hrun & _ & Hl & _ & _ & Hp & _).
  exists g, s'. destruct (Hl eq_refl). auto.
Defined.

(** ** Runs of the per-hand filter *)

Lemma processHandLandmarks_rawInput (landmarks : list HandLandmark) handIndex s :
  match rawInput landmarks with
  | Some (d, c) =>
      processHandLandmarks landmarks handIndex s =
        Returned (slotGesture (filter d c (slot handIndex s)))
          (storeSlot handIndex (filter d c (slot handIndex s)) s)
  | None => processHandLandmarks landmarks handIndex s = Thrown s
  end.
Proof.
  unfold rawInput.
  destruct (landmarks !! HAND_LANDMARKS.THUMB_TIP) as [t|] eqn:Ht; cbn.
  - destruct (landmarks !! HAND_LANDMARKS.INDEX_TIP) as [i|] eqn:Hi; cbn.
    + by apply processHandLandmarks_filter.
    + apply processHandLandmarks_throws. by right.
  - apply processHandLandmarks_throws. by left.
Qed.

Lemma processHandFrames_returned handIndex frames s gs s' :
  processHandFrames handIndex frames s = Returned gs s' →
  ∃ inputs,
    mapM rawInput frames = Some inputs ∧
    gs = slotGesture <$> filterFrames inputs (slot handIndex s) ∧
    slot handIndex s' =
      default (slot handIndex s) (last (filterFrames inputs (slot handIndex s))).
Proof.
  revert s gs s'. induction frames as [|landmarks frames IH]; intros s gs s' Hrun.
  - cbn in Hrun. injection Hrun as <- <-. by exists [].
  - cbn in Hrun. unfold mbind, M_bind in Hrun.
    pose proof (processHandLandmarks_rawInput landmarks handIndex s) as Hstep.
    destruct (rawInput landmarks) as [[d c]|] eqn:Hraw;
      rewrite Hstep in Hrun; [|discriminate].
    destruct (processHandFrames handIndex frames _) as [gs' s''|] eqn:Hrest;
      [|discriminate].
    cbn in Hrun. injection Hrun as <- <-.
    destruct (IH _ _ _ Hrest) as (inputs & Hin & -> & Hlast).
    exists ((d, c) :: inputs). rewrite slot_storeSlot in *.
    cbn. rewrite Hraw, Hin. cbn. split; [done|]. split; [done|].
    rewrite Hlast, last_cons. by destruct (last (filterFrames inputs _)).
Qed.

Lemma processHandFrames_inputs handIndex frames inputs s :
  mapM rawInput frames = Some inputs →
  ∃ s', processHandFrames handIndex frames s =
          Returned (slotGesture <$> filterFrames inputs (slot handIndex s)) s'.
Proof.
  revert inputs s. induction frames as [|landmarks frames IH]; intros inputs s Hin.
  - cbn in Hin. injection Hin as <-. by exists s.
  - cbn in Hin.
    destruct (rawInput landmarks) as [[d c]|] eqn:Hraw; [|discriminate].
    destruct (mapM rawInput frames) as [inputs'|] eqn:Hrest; [|discriminate].
    cbn in Hin. injection Hin as <-.
    pose proof (processHandLandmarks_rawInput landmarks handIndex s) as Hstep.
    rewrite Hraw in Hstep.
    destruct (IH inputs' (storeSlot handIndex (filter d c (slot handIndex s)) s) eq_refl)
      as [s' Hs'].
    exists s'. cbn. unfold mbind, M_bind. rewrite Hstep, Hs'.
    by rewrite slot_storeSlot.
Qed.

(** ** Hysteresis *)

Lemma filter_stays_grabbing d c p :
  Slot.wasGrabbing p = true →
  ¬ Slot.smoothedPinch (filter d c p) > PINCH_RELEASE_THRESHOLD →
  Slot.wasGrabbing (filter d c p) = true.
Proof.
  intros Hwas Hle.
  pose proof (targetState_true_stays _ Hle) as Ht.
  destruct (filter_debounce d c p) as [H|[H|[H|H]]]; rewrite Hwas in H;
    destruct_and?; congruence.
Qed.

Lemma filter_stays_open d c p :
  Slot.wasGrabbing p = false →
  ¬ Slot.smoothedPinch (filter d c p) < PINCH_THRESHOLD →
  Slot.wasGrabbing (filter d c p) = false.
Proof.
  intros Hwas Hge.
  pose proof (targetState_false_stays _ Hge) as Ht.
  destruct (filter_debounce d c p) as [H|[H|[H|H]]]; rewrite Hwas in H;
    destruct_and?; congruence.
Qed.

Lemma filterFrames_stays_grabbing inputs p :
  Slot.wasGrabbing p = true →
  Forall (λ q, ¬ Slot.smoothedPinch q > PINCH_RELEASE_THRESHOLD) (filterFrames inputs p) →
  Forall (λ q, Slot.wasGrabbing q = true) (filterFrames inputs p).
Proof.
  revert p. induction inputs as [|[d c] inputs IH]; intros p Hwas Hall; cbn in *.
  - constructor.
  - inversion Hall as [|q qs Hq Hqs]; subst.
    pose proof (filter_stays_grabbing d c p Hwas Hq). constructor; auto.
Qed.

Lemma filterFrames_stays_open inputs p :
  Slot.wasGrabbing p = false →
  Forall (λ q, ¬ Slot.smoothedPinch q < PINCH_THRESHOLD) (filterFrames inputs p) →
  Forall (λ q, Slot.wasGrabbing q = false) (filterFrames inputs p).
Proof.
  revert p. induction inputs as [|[d c] inputs IH]; intros p Hwas Hall; cbn in *.
  - constructor.
  - inversion Hall as [|q qs Hq Hqs]; subst.
    pose proof (filter_stays_open d c p Hwas Hq). constructor; auto.
Qed.

(** C3. Hysteresis.  Over any run of the per-hand filter on the frames of
    one hand: once [isGrabbing] is committed to true it stays true as long as
    no smoothed pinch distance exceeds 0.16, and once committed to false it
    stays false as long as no smoothed pinch distance falls below 0.055; in
    particular, while all smoothed samples lie strictly between 0.055 and
    0.16 the committed value never changes. *)
Theorem hysteresis_gap handIndex (frames : list (list HandLandmark)) s gs s' :
  processHandFrames handIndex frames s = Returned gs s' →
  (Slot.wasGrabbing (slot handIndex s) = true →
     (∀ g, g ∈ gs → ¬ pinchDistance g > 0.16) →
     ∀ g, g ∈ gs → isGrabbing g = true) ∧
  (Slot.wasGrabbing (slot handIndex s) = false →
     (∀ g, g ∈ gs → ¬ pinchDistance g < 0.055) →
     ∀ g, g ∈ gs → isGrabbing g = false) ∧
  ((∀ g, g ∈ gs → 0.055 < pinchDistance g < 0.16) →
     ∀ g, g ∈ gs → isGrabbing g = Slot.wasGrabbing (slot handIndex s)).
Proof.
  intros Hrun.
  destruct (processHandFrames_returned _ _ _ _ _ Hrun) as (inputs & _ & -> & _).
  assert (Hgrab : Slot.wasGrabbing (slot handIndex s) = true →
     (∀ g, g ∈ slotGesture <$> filterFrames inputs (slot handIndex s) →
           ¬ pinchDistance g > 0.16) →
     ∀ g, g ∈ slotGesture <$> filterFrames inputs (slot handIndex s) →
          isGrabbing g = true).
  { intros Hwas Hall g Hg. apply list_elem_of_fmap in Hg as (q & -> & Hq).
    pose proof (filterFrames_stays_grabbing inputs _ Hwas) as HF.
    rewrite !Forall_forall in HF. apply HF; [|done].
    intros q' Hq'. apply (Hall (slotGesture q')).
    apply list_elem_of_fmap. eauto. }
  assert (Hopen : Slot.wasGrabbing (slot handIndex s) = false →
     (∀ g, g ∈ slotGesture <$> filterFrames inputs (slot handIndex s) →
           ¬ pinchDistance g < 0.055) →
     ∀ g, g ∈ slotGesture <$> filterFrames inputs (slot handIndex s) →
          isGrabbing g = false).
  { intros Hwas Hall g Hg. apply list_elem_of_fmap in Hg as (q & -> & Hq).
    pose proof (filterFrames_stays_open inputs _ Hwas) as HF.
    rewrite !Forall_forall in HF. apply HF; [|done].
    intros q' Hq'. apply (Hall (slotGesture q')).
    apply list_elem_of_fmap. eauto. }
  split; [done|]. split; [done|].
  intros Hband g Hg.
  destruct (Slot.wasGrabbing (slot handIndex s)) eqn:Hwas.
  - apply Hgrab; [done| |done]. intros g' Hg'. specialize (Hband g' Hg'). lra.
  - apply Hopen; [done| |done]. intros g' Hg'. specialize (Hband g' Hg'). lra.
Qed.

Lemma filterFrames_smoothedPinch inputs p :
  Slot.smoothedPinch <$> filterFrames inputs p =
  smoothedPinches (Slot.smoothedPinch p) (inputs.*1).
Proof.
  revert p. induction inputs as [|[d c] inputs IH]; intros p; cbn; [done|].
  by rewrite IH, filter_smoothedPinch.
Qed.

Lemma pinchDistance_slotGesture (qs : list Slot.t) :
  pinchDistance <$> (slotGesture <$> qs) = Slot.smoothedPinch <$> qs.
Proof. by rewrite <- list_fmap_compose. Qed.

Lemma isGrabbing_slotGesture (qs : list Slot.t) :
  isGrabbing <$> (slotGesture <$> qs) = Slot.wasGrabbing <$> qs.
Proof. by rewrite <- list_fmap_compose. Qed.

Lemma rawInput_pinchedHand d :
  0 <= d →
  rawInput (pinchedHand d) = Some (d, tipCenter (Point3.mk d 0 0) origin).
Proof.
  intros Hd. unfold rawInput, pinchedHand, hand; cbn.
  by rewrite tipDistance_pinched.
Qed.

Arguments rawInput : simpl never.
Arguments pinchedHand : simpl never.

Lemma mapM_rawInput_pinchedHand (ds : list R) :
  Forall (λ d, 0 <= d) ds →
  mapM rawInput (pinchedHand <$> ds) =
  Some ((λ d, (d, tipCenter (Point3.mk d 0 0) origin)) <$> ds).
Proof.
  induction 1 as [|d ds Hd _ IH]; cbn; [done|].
  by rewrite rawInput_pinchedHand, IH.
Qed.

(** A run on hands given by their raw pinch distances. *)
Lemma processHandFrames_pinchedHands handIndex (ds : list R) s :
  Forall (λ d, 0 <= d) ds →
  ∃ gs s',
    processHandFrames handIndex (pinchedHand <$> ds) s = Returned gs s' ∧
    pinchDistance <$> gs =
      smoothedPinches (Slot.smoothedPinch (slot handIndex s)) ds ∧
    ∃ qs, gs = slotGesture <$> qs ∧
          qs = filterFrames ((λ d, (d, tipCenter (Point3.mk d 0 0) origin)) <$> ds)
                 (slot handIndex s).
Proof.
  intros Hds.
  destruct (processHandFrames_inputs handIndex _ _ s (mapM_rawInput_pinchedHand ds Hds))
    as [s' Hrun].
  eexists _, s'. split; [exact Hrun|]. split; [|eauto].
  rewrite pinchDistance_slotGesture, filterFrames_smoothedPinch.
  f_equal. rewrite <- list_fmap_compose. clear. induction ds; cbn; congruence.
Qed.

Lemma hysteresis_gap_witness :
  ∃ gs s',
    processHandFrames 0 [pinchedHand 0.1; pinchedHand 0.12] grabbingHook
      = Returned gs s' ∧
    (∀ g, g ∈ gs → 0.055 < pinchDistance g < 0.16) ∧
    (∀ g, g ∈ gs → isGrabbing g = true).
Proof.
  destruct (processHandFrames_pinchedHands 0 [0.1; 0.12] grabbingHook)
    as (gs & s' & Hrun & Hpinch & _).
  { repeat constructor; lra. }
  assert (Hband : ∀ g, g ∈ gs → 0.055 < pinchDistance g < 0.16).
  { intros g Hg.
    assert (Hin : pinchDistance g ∈ pinchDistance <$> gs)
      by (apply list_elem_of_fmap; eauto).
    rewrite Hpinch in Hin. unfold grabbingHook in Hin.
    rewrite slot_storeSlot in Hin. cbn in Hin. unfold smoothPinch, PINCH_SMOOTHING in Hin.
    rewrite !elem_of_cons in Hin. rewrite elem_of_nil in Hin.
    destruct Hin as [->|[->|[]]]; lra. }
  exists gs, s'. split; [done|]. split; [done|].
  intros g Hg.
  rewrite (proj2 (proj2 (hysteresis_gap 0 _ grabbingHook gs s' Hrun)) Hband g Hg).
  unfold grabbingHook. by rewrite slot_storeSlot.
Defined.

(** ** Debounce *)

(** A commit on the second of two consecutive frames needs both frames to
    compute the committed value as their target. *)
Lemma filter_commit_needs_two d1 c1 d2 c2 p0 :
  let p1 := filter d1 c1 p0 in
  let p2 := filter d2 c2 p1 in
  Slot.wasGrabbing p2 ≠ Slot.wasGrabbing p1 →
  Slot.wasGrabbing p1 = Slot.wasGrabbing p0 ∧
  targetState (Slot.wasGrabbing p0) (Slot.smoothedPinch p1) = Slot.wasGrabbing p2 ∧
  targetState (Slot.wasGrabbing p1) (Slot.smoothedPinch p2) = Slot.wasGrabbing p2 ∧
  Slot.stateChangeCounter p1 = 1%nat.
Proof.
  intros p1 p2 Hchange.
  destruct (filter_debounce d2 c2 p1) as [Hb|[Hb|[Hb|Hb]]];
    fold p2 in Hb; destruct_and?; try congruence.
  destruct (filter_debounce d1 c1 p0) as [Ha|[Ha|[Ha|Ha]]];
    fold p1 in Ha; destruct_and?; try congruence.
  - repeat split; congruence.
  - repeat split; try congruence.
    unfold STATE_CHANGE_FRAMES in *. lia.
Qed.

(** ** The first commit of a grab *)

Lemma filterFrames_firstGrabbing inputs previousBelow p :
  openSlot previousBelow p →
  firstGrabbing (slotGesture <$> filterFrames inputs p) =
  firstPairBelow previousBelow (Slot.smoothedPinch <$> filterFrames inputs p).
Proof.
  revert previousBelow p.
  induction inputs as [|[d c] inputs IH]; intros previousBelow p [Hwas Hpend];
    cbn -[filter]; [done|].
  set (p' := filter d c p).
  pose proof (filter_debounce d c p) as Hstep. cbn zeta in Hstep. fold p' in Hstep.
  rewrite Hwas, targetState_false in Hstep.
  case_bool_decide as Hbelow.
  - (* the sample is below the threshold: the target is a grab *)
    destruct Hstep as [Hs|[Hs|[Hs|Hs]]]; destruct_and?; try done.
    + destruct previousBelow; [by destruct Hpend|].
      replace (Slot.wasGrabbing p') with false by done.
      rewrite (IH true p'); [done|]. split; [done|]. split; [done|]. lia.
    + destruct previousBelow; [|done].
      by replace (Slot.wasGrabbing p') with true by done.
    + destruct previousBelow; [|done].
      destruct Hpend as [_ Hcount]. unfold STATE_CHANGE_FRAMES in *. lia.
  - (* the sample is not below the threshold: the target is the open state *)
    destruct Hstep as [Hs|[Hs|[Hs|Hs]]]; destruct_and?; try done.
    replace (Slot.wasGrabbing p') with false by done.
    rewrite (IH false p'); [done|]. split; [done|]. cbn. congruence.
Qed.

Lemma openSlot_initial : openSlot false Slot.initial.
Proof. split; [done|]. cbn. discriminate. Qed.

Lemma smoothedPinches_scenario :
  smoothedPinches 1 [0.2; 0.2; 0.05; 0.05; 0.2] = [0.6; 0.4; 0.225; 0.1375; 0.16875].
Proof.
  cbn. unfold smoothPinch, PINCH_SMOOTHING.
  repeat (apply (f_equal2 cons); [lra|]). done.
Qed.

Lemma scenario_run :
  ∃ gs s',
    processHandFrames 0 scenarioFrames initialHook = Returned gs s' ∧
    pinchDistance <$> gs = [0.6; 0.4; 0.225; 0.1375; 0.16875] ∧
    firstGrabbing gs = firstPairBelow false (pinchDistance <$> gs).
Proof.
  destruct (processHandFrames_pinchedHands 0 [0.2; 0.2; 0.05; 0.05; 0.2] initialHook)
    as (gs & s' & Hrun & Hpinch & qs & -> & Hqs).
  { repeat constructor; lra. }
  exists (slotGesture <$> qs), s'. split; [done|].
  rewrite slot_initialHook in Hpinch, Hqs. cbn [Slot.smoothedPinch Slot.initial] in Hpinch.
  rewrite smoothedPinches_scenario in Hpinch. split; [done|].
  rewrite pinchDistance_slotGesture. subst qs.
  apply filterFrames_firstGrabbing, openSlot_initial.
Qed.

Lemma firstPairBelow_scenario :
  firstPairBelow false [0.6; 0.4; 0.225; 0.1375; 0.16875] = None.
Proof.
  cbn. unfold PINCH_THRESHOLD.
  rewrite !bool_decide_eq_false_2 by lra. done.
Qed.

Lemma firstGrabbing_None gs :
  firstGrabbing gs = None → Forall (λ g, isGrabbing g = false) gs.
Proof.
  induction gs as [|g gs IH]; cbn; [constructor|].
  destruct (isGrabbing g) eqn:Hg; [discriminate|].
  destruct (firstGrabbing gs); [discriminate|]. intros _. constructor; auto.
Qed.

Lemma isGrabbing_all_false gs :
  Forall (λ g, isGrabbing g = false) gs →
  isGrabbing <$> gs = replicate (length gs) false.
Proof. induction 1 as [|g gs Hg _ IH]; cbn; [done|]. by rewrite Hg, IH. Qed.

(** C9, as the code has it.  For a hand whose slot is in its initial state
    (smoothed pinch distance 1, nothing pending), [isGrabbing] is first
    committed to true at the first frame at which two consecutive smoothed
    samples are both below 0.055.  On the raw sequence
    0.2, 0.2, 0.05, 0.05, 0.2 the smoothed samples are
    0.6, 0.4, 0.225, 0.1375, 0.16875: none is below 0.055, so no grab is
    committed in these five frames and [isGrabbing] is false in all of
    them. *)
Theorem grab_committed_at_first_pair_below handIndex
    (frames : list (list HandLandmark)) s gs s' :
  slot handIndex s = Slot.initial →
  processHandFrames handIndex frames s = Returned gs s' →
  firstGrabbing gs = firstPairBelow false (pinchDistance <$> gs) ∧
  (frames = scenarioFrames →
     pinchDistance <$> gs = [0.6; 0.4; 0.225; 0.1375; 0.16875] ∧
     firstGrabbing gs = None ∧
     isGrabbing <$> gs = [false; false; false; false; false]).
Proof.
  intros Hinit Hrun.
  destruct (processHandFrames_returned _ _ _ _ _ Hrun) as (inputs & Hin & -> & _).
  rewrite Hinit in *.
  assert (Hfirst : firstGrabbing (slotGesture <$> filterFrames inputs Slot.initial) =
                   firstPairBelow false
                     (pinchDistance <$> (slotGesture <$> filterFrames inputs Slot.initial))).
  { rewrite pinchDistance_slotGesture.
    apply filterFrames_firstGrabbing, openSlot_initial. }
  split; [done|]. intros ->.
  unfold scenarioFrames in Hin.
  rewrite mapM_rawInput_pinchedHand in Hin by (repeat constructor; lra).
  assert (Hpinch : pinchDistance <$> (slotGesture <$> filterFrames inputs Slot.initial) =
          [0.6; 0.4; 0.225; 0.1375; 0.16875]).
  { injection Hin as <-.
    rewrite pinchDistance_slotGesture, filterFrames_smoothedPinch.
    apply smoothedPinches_scenario. }
  split; [done|].
  rewrite Hpinch, firstPairBelow_scenario in Hfirst. split; [done|].
  rewrite (isGrabbing_all_false _ (firstGrabbing_None _ Hfirst)).
  by rewrite <- (length_fmap pinchDistance), Hpinch.
Qed.

Lemma grab_committed_at_first_pair_below_witness :
  ∃ gs s',
    slot 0 initialHook = Slot.initial ∧
    processHandFrames 0 scenarioFrames initialHook = Returned gs s' ∧
    firstGrabbing gs = firstPairBelow false (pinchDistance <$> gs) ∧
    isGrabbing <$> gs = [false; false; false; false; false].
Proof.
  destruct scenario_run as (gs & s' & Hrun & _).
  exists gs, s'. split; [apply slot_initialHook|]. split; [done|].
  destruct (grab_committed_at_first_pair_below 0 scenarioFrames initialHook gs s'
              (slot_initialHook 0) Hrun) as [Hfirst Hscenario].
  split; [done|]. by destruct (Hscenario eq_refl) as (_ & _ & ?).
Defined.

(** C9, as the specification states it, fails on the code: in the scenario the raw distance
    crosses the threshold at the third frame (0.05 < 0.055), but no grab is
    committed at the fourth frame, nor at any of the five: no smoothed sample
    is below 0.055 and [isGrabbing] is false throughout. *)
Lemma scenario_commits_no_grab :
  ∃ gs s',
    processHandFrames 0 scenarioFrames initialHook = Returned gs s' ∧
    scenarioFrames !! 2%nat = Some (pinchedHand 0.05) ∧ 0.05 < PINCH_THRESHOLD ∧
    (isGrabbing <$> gs) !! 3%nat = Some false ∧
    (∀ g, g ∈ gs → isGrabbing g = false ∧ ¬ pinchDistance g < 0.055).
Proof.
  destruct scenario_run as (gs & s' & Hrun & Hpinch & Hfirst).
  exists gs, s'. split; [done|]. split; [done|].
  split; [unfold PINCH_THRESHOLD; lra|].
  rewrite Hpinch, firstPairBelow_scenario in Hfirst.
  pose proof (firstGrabbing_None _ Hfirst) as Hall.
  split.
  - rewrite (isGrabbing_all_false _ Hall).
    by rewrite <- (length_fmap pinchDistance), Hpinch.
  - intros g Hg. split; [by rewrite Forall_forall in Hall; apply Hall|].
    assert (Hin : pinchDistance g ∈ pinchDistance <$> gs)
      by (apply list_elem_of_fmap; eauto).
    rewrite Hpinch in Hin. rewrite !elem_of_cons in Hin. rewrite elem_of_nil in Hin.
    destruct Hin as [->|[->|[->|[->|[->|[]]]]]]; lra.
Qed.

(** ** Reasoning about calls: weakest preconditions *)

Lemma wp_ret {A} (a : A) Q E s : Q a s → wp (mret a) Q E s.
Proof. done. Qed.

Lemma wp_throw {A} (Q : A → Hook → Prop) E s : E s → wp throw Q E s.
Proof. done. Qed.

Lemma wp_modify f Q E s : Q tt (f s) → wp (modify f) Q E s.
Proof. done. Qed.

Lemma wp_bind {A B} (m : M A) (f : A → M B) Q E s :
  wp m (λ a, wp (f a) Q E) E s → wp (m ≫= f) Q E s.
Proof. unfold wp, mbind, M_bind. by destruct (m s). Qed.

Lemma wp_stateAfter {A} (m : M A) (I : Hook → Prop) s :
  wp m (λ _, I) I s → I (stateAfter (m s)).
Proof. unfold wp. by destruct (m s). Qed.

Lemma processLandmarks_rawInput (landmarks : list HandLandmark) s :
  match rawInput landmarks with
  | Some (d, c) =>
      let p := filter d c (singleSlot s) in
      processLandmarks landmarks s =
        Returned tt (call (onGestureUpdate (slotGesture p))
                       (setGesture (slotGesture p) (storeSingleSlot p s)))
  | None => processLandmarks landmarks s = Thrown s
  end.
Proof.
  unfold rawInput.
  destruct (landmarks !! HAND_LANDMARKS.THUMB_TIP) as [t|] eqn:Ht; cbn.
  - destruct (landmarks !! HAND_LANDMARKS.INDEX_TIP) as [i|] eqn:Hi; cbn.
    + by apply processLandmarks_filter.
    + apply processLandmarks_throws. by right.
  - apply processLandmarks_throws. by left.
Qed.

Lemma onResults_no_hands results s :
  multiHandLandmarks results = None ∨ multiHandLandmarks results = Some [] →
  onResults true results s = Returned tt (resetHook s).
Proof. unfold onResults. by intros [-> | ->]. Qed.

Lemma onResults_no_canvas results s : onResults false results s = Returned tt s.
Proof. done. Qed.

(** *** Invariants of the stream of frames *)

Section Invariants.
(** [I] is a property of the state, [G] of the gestures returned by the
    per-hand filter, [L] of the hands the detector delivers. *)
Variable I : Hook → Prop.
Variable G : GestureState → Prop.
Variable L : list HandLandmark → Prop.

Hypothesis I_single : ∀ landmarks d c s,
  L landmarks → rawInput landmarks = Some (d, c) → I s →
  let p := filter d c (singleSlot s) in
  I (call (onGestureUpdate (slotGesture p))
       (setGesture (slotGesture p) (storeSingleSlot p s))).

Hypothesis I_hand : ∀ landmarks d c handIndex s,
  L landmarks → rawInput landmarks = Some (d, c) → I s →
  let p := filter d c (slot handIndex s) in
  I (storeSlot handIndex p s) ∧ G (slotGesture p).

Hypothesis I_two : ∀ hand0 hand1 handedness0 handedness1 s,
  I s → (∀ h, hand0 = Some h → G h) → (∀ h, hand1 = Some h → G h) →
  let g := newTwoHandGesture hand0 hand1 handedness0 handedness1 in
  I (call (onTwoHandGestureUpdate g)
       (setTwoHandGesture g (set_prevPullDistanceRef (pullDistance g) s))).

Hypothesis I_reset : ∀ s, I s → I (resetHook s).

Lemma wp_processAllHands results hands i handGestures handednessLabels s :
  Forall L hands → Forall G handGestures → I s →
  wp (processAllHands results hands i handGestures handednessLabels)
     (λ r s', I s' ∧ Forall G r.1) I s.
Proof.
  revert i handGestures handednessLabels s.
  induction hands as [|landmarks hands IH];
    intros i handGestures handednessLabels s HL HG HI.
  - by apply wp_ret.
  - inversion HL as [|? ? Hl Hhands]; subst.
    cbn [processAllHands]. apply wp_bind. unfold wp at 1.
    pose proof (processHandLandmarks_rawInput landmarks i s) as Hstep.
    destruct (rawInput landmarks) as [[d c]|] eqn:Hraw; rewrite Hstep; [|done].
    destruct (I_hand landmarks d c i s Hl Hraw HI) as [HI' HG'].
    apply wp_bind.
    assert (Hdraw : wp (if bool_decide (0 < i)%nat then drawLandmarks landmarks
                        else mret tt)
              (λ _ s', s' = storeSlot i (filter d c (slot i s)) s)
              I (storeSlot i (filter d c (slot i s)) s)).
    { unfold drawLandmarks. repeat case_bool_decide; done. }
    unfold wp in Hdraw |- *.
    destruct ((if bool_decide (0 < i)%nat then drawLandmarks landmarks else mret tt) _)
      as [[] s1|s1]; [subst s1|done].
    apply IH; [done| |done]. apply Forall_app. split; [done|]. by constructor.
Qed.

Lemma onResults_invariant canvas results s :
  (∀ hands, multiHandLandmarks results = Some hands → Forall L hands) →
  I s → I (stateAfter (onResults canvas results s)).
Proof.
  intros HL HI. destruct canvas; [|done].
  destruct (multiHandLandmarks results) as [[|landmarks others]|] eqn:Hhands.
  - rewrite onResults_no_hands by auto. by apply I_reset.
  - specialize (HL _ eq_refl).
    assert (Hl : L landmarks) by (by inversion HL).
    apply wp_stateAfter. unfold onResults. rewrite Hhands. cbn [negb].
    apply wp_bind. unfold wp at 1.
    pose proof (processLandmarks_rawInput landmarks s) as Hstep.
    destruct (rawInput landmarks) as [[d c]|] eqn:Hraw; rewrite Hstep; [|done].
    pose proof (I_single landmarks d c s Hl Hraw HI) as HI1. cbn zeta in HI1.
    apply wp_bind. unfold drawLandmarks. case_bool_decide; [done|].
    apply wp_ret. apply wp_bind.
    pose proof (wp_processAllHands results (landmarks :: others) 0 [] [] _ HL
                  (Forall_nil_2 _) HI1) as Hall.
    unfold wp in Hall |- *.
    destruct (processAllHands results (landmarks :: others) 0 [] [] _)
      as [[handGestures handednessLabels] s2|s2]; [|done].
    destruct Hall as [HI2 HG]. cbn [fst] in HG.
    unfold mbind, M_bind. rewrite processTwoHandGesture_returns. cbn [mret M_ret].
    apply I_two; [done| |]; intros h Hh;
      by eapply (Forall_lookup_1 G handGestures).
  - rewrite onResults_no_hands by auto. by apply I_reset.
Qed.

Lemma afterFrames_invariant canvas frames s :
  (∀ results hands, results ∈ frames →
     multiHandLandmarks results = Some hands → Forall L hands) →
  I s → I (afterFrames canvas frames s).
Proof.
  revert s. induction frames as [|results frames IH]; intros s HL HI; [done|].
  cbn. apply IH.
  - intros r hands Hr. apply HL. by right.
  - apply onResults_invariant; [|done]. intros hands. apply HL. by left.
Qed.
End Invariants.

(** ** The pull gate on every emitted two-hand gesture *)

Lemma pullGateEverywhere_afterFrames canvas frames :
  pullGateEverywhere (afterFrames canvas frames initialHook).
Proof.
  apply (afterFrames_invariant pullGateEverywhere (λ _, True) (λ _, True)).
  - intros landmarks d c s _ _ [Hstate Hcalls]. split; [done|].
    intros g Hg. cbn in Hg. apply elem_of_cons in Hg as [Hg|Hg]; [discriminate|auto].
  - intros landmarks d c handIndex s _ _ [Hstate Hcalls]. done.
  - intros hand0 hand1 handedness0 handedness1 s [Hstate Hcalls] _ _. split.
    + apply pullGate_newTwoHandGesture.
    + intros g Hg. cbn in Hg. apply elem_of_cons in Hg as [Hg|Hg]; [|auto].
      injection Hg as ->. apply pullGate_newTwoHandGesture.
  - intros s [Hstate Hcalls]. split; [apply pullGate_noTwoHandGesture|done].
  - intros results hands _ _. by apply Forall_forall.
  - split; [apply pullGate_noTwoHandGesture|].
    intros g Hg. cbn in Hg. by apply elem_of_nil in Hg.
Qed.

(** ** The coordinate convention *)

Lemma rawInput_unit (landmarks : list HandLandmark) d c :
  Forall unitLandmark landmarks → rawInput landmarks = Some (d, c) →
  inBox (centered c).
Proof.
  intros Hunit Hraw. unfold rawInput in Hraw.
  destruct (landmarks !! HAND_LANDMARKS.THUMB_TIP) as [t|] eqn:Ht; [|done].
  destruct (landmarks !! HAND_LANDMARKS.INDEX_TIP) as [i|] eqn:Hi; [|done].
  cbn in Hraw. injection Hraw as <- <-.
  destruct (Forall_lookup_1 _ _ _ _ Hunit Ht) as [[? ?] [? ?]].
  destruct (Forall_lookup_1 _ _ _ _ Hunit Hi) as [[? ?] [? ?]].
  unfold inBox, centered, tipCenter; cbn. lra.
Qed.

Lemma smoothPosition_inBox prev raw :
  (∀ p, prev = Some p → inBox p) → inBox raw → inBox (smoothPosition prev raw).
Proof.
  intros Hprev Hraw. destruct prev as [p|]; cbn; [|done].
  destruct (Hprev p eq_refl) as [[? ?] [? ?]]. destruct Hraw as [[? ?] [? ?]].
  unfold inBox, POSITION_SMOOTHING; cbn. lra.
Qed.

Lemma filter_boxed d c p :
  (∀ q, Slot.smoothedPosition p = Some q → inBox q) → inBox (centered c) →
  boxedGesture (slotGesture (filter d c p)).
Proof.
  intros Hprev Hraw q. cbn. rewrite filter_smoothedPosition.
  intros [= <-]. by apply smoothPosition_inBox.
Qed.

Lemma boxedTwoHand_newTwoHandGesture hand0 hand1 handedness0 handedness1 :
  (∀ h, hand0 = Some h → boxedGesture h) →
  (∀ h, hand1 = Some h → boxedGesture h) →
  boxedTwoHand (newTwoHandGesture hand0 hand1 handedness0 handedness1).
Proof.
  intros H0 H1.
  destruct (newTwoHandGesture_derived hand0 hand1 handedness0 handedness1)
    as (_ & Hl & Hr).
  split; intros g Hg; [destruct (Hl g Hg)|destruct (Hr g Hg)]; auto.
Qed.

Ltac split_boxed := split; [|split; [|split; [|split]]].

Lemma boxed_initialHook : boxed initialHook.
Proof.
  split_boxed; done.
Qed.

Lemma boxed_afterFrames canvas frames :
  (∀ results hands, results ∈ frames →
     multiHandLandmarks results = Some hands →
     Forall (Forall unitLandmark) hands) →
  boxed (afterFrames canvas frames initialHook).
Proof.
  intros Hunit.
  apply (afterFrames_invariant boxed boxedGesture (Forall unitLandmark));
    [| | | |done|apply boxed_initialHook].
  - intros landmarks d c s Hl Hraw (Href & Hmap & Hg & Ht & Hcalls) p.
    assert (Hboxed : boxedGesture (slotGesture p)).
    { apply filter_boxed; [done|]. by eapply rawInput_unit. }
    split_boxed; try done. by constructor.
  - intros landmarks d c handIndex s Hl Hraw (Href & Hmap & Hg & Ht & Hcalls) p.
    assert (Hboxed : boxedGesture (slotGesture p)).
    { apply filter_boxed; [|by eapply rawInput_unit].
      intros q Hq. apply (Hmap handIndex). unfold slot in Hq; cbn in Hq.
      destruct (smoothedPositionsPerHand s !! handIndex) as [o|]; cbn in Hq;
        by subst. }
    split; [|done]. split_boxed; try done.
    intros i q. cbn. destruct (decide (handIndex = i)) as [->|Hne].
    + rewrite lookup_insert_eq. intros [= Hq]. by apply Hboxed.
    + rewrite lookup_insert_ne by done. apply Hmap.
  - intros hand0 hand1 handedness0 handedness1 s (Href & Hmap & Hg & Ht & Hcalls)
      H0 H1 g.
    assert (Hboxed : boxedTwoHand g) by by apply boxedTwoHand_newTwoHandGesture.
    split_boxed; try done. by constructor.
  - intros s (Href & Hmap & Hg & Ht & Hcalls).
    split_boxed; done.
Qed.

(** C8. Coordinate contract.  The anchor fed to the position smoothing is
    [(-(2x - 1), -(2y - 1), z)] where [(x, y, z)] is the midpoint of
    THUMB_TIP and INDEX_TIP, z passing through unchanged; and over every
    stream of frames whose landmarks all have x and y in [0, 1], every
    position emitted by the hook has x and y in [-1, 1]. *)
Theorem coordinate_contract :
  (∀ (landmarks : list HandLandmark) thumbTip indexTip handIndex s,
     landmarks !! HAND_LANDMARKS.THUMB_TIP = Some thumbTip →
     landmarks !! HAND_LANDMARKS.INDEX_TIP = Some indexTip →
     let x := (Point3.x thumbTip + Point3.x indexTip) / 2 in
     let y := (Point3.y thumbTip + Point3.y indexTip) / 2 in
     let z := (Point3.z thumbTip + Point3.z indexTip) / 2 in
     let anchor := Point3.mk (- (2 * x - 1)) (- (2 * y - 1)) z in
     ∃ g s',
       processHandLandmarks landmarks handIndex s = Returned g s' ∧
       handPosition g =
         Some (smoothPosition (Slot.smoothedPosition (slot handIndex s)) anchor) ∧
       (Slot.smoothedPosition (slot handIndex s) = None →
          handPosition g = Some anchor)) ∧
  (∀ canvas (frames : list Results),
     (∀ results hands landmarks p,
        results ∈ frames → multiHandLandmarks results = Some hands →
        landmarks ∈ hands → p ∈ landmarks →
        0 <= Point3.x p <= 1 ∧ 0 <= Point3.y p <= 1) →
     ∀ p, emittedPosition (afterFrames canvas frames initialHook) p →
          -1 <= Point3.x p <= 1 ∧ -1 <= Point3.y p <= 1).
Proof.
  split.
  - intros landmarks t i handIndex s Ht Hi x y z anchor.
    assert (Hanchor : centered (tipCenter t i) = anchor).
    { unfold centered, tipCenter, anchor, x, y, z; cbn. f_equal; lra. }
    eexists _, _. split; [by apply processHandLandmarks_filter|].
    cbn. rewrite filter_smoothedPosition, Hanchor. split; [done|].
    unfold slot; cbn. by intros ->.
  - intros canvas frames Hunit p Hp.
    assert (Hboxed : boxed (afterFrames canvas frames initialHook)).
    { apply boxed_afterFrames. intros results hands Hr Hhands.
      apply Forall_forall. intros landmarks Hl.
      apply Forall_forall. intros q Hq. by eapply Hunit. }
    destruct Hboxed as (_ & _ & Hg & [Htl Htr] & Hcalls).
    rewrite Forall_forall in Hcalls.
    destruct Hp as [Hp|[(g & Hin & Hp)|(t & g & Ht & Hside & Hp)]].
    + by apply Hg.
    + by apply (Hcalls _ Hin).
    + assert (Hbt : boxedTwoHand t).
      { destruct Ht as [->|Ht]; [by split|]. apply (Hcalls _ Ht). }
      destruct Hbt as [Hl Hr]. destruct Hside; [by eapply Hl|by eapply Hr].
Qed.

Lemma coordinate_contract_witness :
  (∃ g s', processHandLandmarks (pinchedHand 0.3) 0 initialHook = Returned g s' ∧
           handPosition g =
             Some (Point3.mk (- (2 * ((0.3 + 0) / 2) - 1)) (- (2 * ((0 + 0) / 2) - 1))
                     ((0 + 0) / 2))) ∧
  ∀ p, emittedPosition (afterFrames true [twoHandsFrame] initialHook) p →
       -1 <= Point3.x p <= 1 ∧ -1 <= Point3.y p <= 1.
Proof.
  destruct coordinate_contract as [Hanchor Hbox]. split.
  - destruct (Hanchor (pinchedHand 0.3) (Point3.mk 0.3 0 0) origin 0%nat initialHook
                eq_refl eq_refl) as (g & s' & Hrun & _ & Hseed).
    exists g, s'. split; [done|]. apply Hseed. by rewrite slot_initialHook.
  - apply Hbox. intros results hands landmarks p Hr Hhands Hl Hp.
    apply list_elem_of_singleton in Hr as ->. injection Hhands as <-.
    unfold pinchedHand, hand, origin in Hl.
    repeat (apply elem_of_cons in Hl as [->|Hl]);
      try (by apply elem_of_nil in Hl);
      cbn in Hp;
      repeat (apply elem_of_cons in Hp as [->|Hp]);
      try (by apply elem_of_nil in Hp); cbn; lra.
Defined.

(** ** Frames with one hand, frames without hands *)

(** The effect of [onResults] on a frame with one complete hand, on the
    single-hand refs and on slot 0. *)
Lemma onResults_one_hand results (landmarks : list HandLandmark) d c s :
  multiHandLandmarks results = Some [landmarks] →
  rawInput landmarks = Some (d, c) →
  (21 ≤ length landmarks)%nat →
  ∃ s',
    onResults true results s = Returned tt s' ∧
    singleSlot s' = filter d c (singleSlot s) ∧
    slot 0 s' = filter d c (slot 0 s) ∧
    gesture s' = slotGesture (filter d c (singleSlot s)) ∧
    twoHandGesture s' =
      newTwoHandGesture (Some (slotGesture (filter d c (slot 0 s)))) None
        (label <$> (multiHandedness results ≫= (.!! 0%nat))) None.
Proof.
  intros Hhands Hraw Hlen. unfold onResults. rewrite Hhands. cbn [negb].
  unfold mbind at 1, M_bind at 1.
  pose proof (processLandmarks_rawInput landmarks s) as Hsingle.
  rewrite Hraw in Hsingle. rewrite Hsingle.
  set (p := filter d c (singleSlot s)).
  set (s1 := call _ _).
  unfold mbind at 1, M_bind at 1. unfold drawLandmarks.
  rewrite bool_decide_eq_false_2 by lia. cbn [mret M_ret].
  unfold mbind at 1, M_bind at 1. cbn [processAllHands].
  unfold mbind at 1, M_bind at 1.
  pose proof (processHandLandmarks_rawInput landmarks 0 s1) as Hhand.
  rewrite Hraw in Hhand. rewrite Hhand.
  assert (Hslot : slot 0 s1 = slot 0 s) by done. rewrite Hslot.
  set (q := filter d c (slot 0 s)).
  rewrite bool_decide_eq_false_2 by lia.
  unfold mbind at 1, M_bind at 1. cbn [mret M_ret app lookup list_lookup mjoin].
  unfold mbind, M_bind. rewrite processTwoHandGesture_returns.
  eexists. split; [reflexivity|].
  split; [by destruct p|]. split; [|done].
  change (slot 0 (storeSlot 0 q s1) = q). apply slot_storeSlot.
Qed.

Lemma singleSlot_resetHook s :
  singleSlot (resetHook s) =
  Slot.mk (smoothedPositionRef s) (smoothedPinchRef s) false
    (pendingStateRef s) (stateChangeCounterRef s).
Proof. reflexivity. Qed.

Lemma slot_resetHook i s : slot i (resetHook s) = Slot.initial.
Proof. unfold slot; cbn. by rewrite !lookup_empty. Qed.

(** [filter] from the open state, on the values that decide the debounce. *)
Lemma filter_open d c p :
  Slot.wasGrabbing p = false →
  let p' := filter d c p in
  Slot.smoothedPinch p' = smoothPinch (Slot.smoothedPinch p) d ∧
  (¬ Slot.smoothedPinch p' < PINCH_THRESHOLD →
     Slot.wasGrabbing p' = false ∧ Slot.pendingState p' = None ∧
     Slot.stateChangeCounter p' = 0%nat) ∧
  (Slot.smoothedPinch p' < PINCH_THRESHOLD → Slot.pendingState p ≠ Some true →
     Slot.wasGrabbing p' = false ∧ Slot.pendingState p' = Some true ∧
     Slot.stateChangeCounter p' = 1%nat) ∧
  (Slot.smoothedPinch p' < PINCH_THRESHOLD → Slot.pendingState p = Some true →
   (1 ≤ Slot.stateChangeCounter p)%nat →
     Slot.wasGrabbing p' = true ∧ Slot.pendingState p' = None ∧
     Slot.stateChangeCounter p' = 0%nat).
Proof.
  intros Hwas p'. split; [apply filter_smoothedPinch|].
  pose proof (filter_debounce d c p) as Hstep. cbn zeta in Hstep. fold p' in Hstep.
  rewrite Hwas, targetState_false in Hstep.
  split; [|split].
  - intros Habove. rewrite bool_decide_eq_false_2 in Hstep by done.
    destruct Hstep as [Hs|[Hs|[Hs|Hs]]]; destruct_and?; done.
  - intros Hbelow Hpending. rewrite bool_decide_eq_true_2 in Hstep by done.
    destruct Hstep as [Hs|[Hs|[Hs|Hs]]]; destruct_and?; done.
  - intros Hbelow Hpending Hcount. rewrite bool_decide_eq_true_2 in Hstep by done.
    destruct Hstep as [Hs|[Hs|[Hs|Hs]]]; destruct_and?; try done.
    unfold STATE_CHANGE_FRAMES in *. lia.
Qed.

Lemma leftHand_one_unlabelled_hand d c p :
  leftHand (newTwoHandGesture (Some (slotGesture (filter d c p))) None None None) =
  Some (slotGesture (filter d c p)).
Proof.
  assert (Hleft : ∀ g position, handPosition g = Some position →
            leftHand (newTwoHandGesture (Some g) None None None) = Some g).
  { intros [b [pos|] pd cf] position Hpos; [|done].
    unfold newTwoHandGesture.
    rewrite !(bool_decide_eq_false_2 (None = Some _)) by done. reflexivity. }
  eapply Hleft. cbn. apply filter_smoothedPosition.
Qed.

Lemma oneHandFrame_step d s :
  0 <= d →
  let c := tipCenter (Point3.mk d 0 0) origin in
  let s' := stateAfter (onResults true (oneHandFrame d) s) in
  singleSlot s' = filter d c (singleSlot s) ∧
  slot 0 s' = filter d c (slot 0 s) ∧
  gesture s' = slotGesture (singleSlot s') ∧
  leftHand (twoHandGesture s') = Some (slotGesture (slot 0 s')).
Proof.
  intros Hd c s'.
  destruct (onResults_one_hand (oneHandFrame d) (pinchedHand d) d c s eq_refl
              (rawInput_pinchedHand d Hd))
    as (s1 & Hrun & Hsingle & Hslot & Hgesture & Htwo);
    [unfold pinchedHand, hand; cbn; lia|].
  subst s'. rewrite Hrun. cbn [stateAfter].
  rewrite Hsingle, Hslot, Hgesture, Htwo.
  split; [done|]. split; [done|]. split; [done|].
  apply leftHand_one_unlabelled_hand.
Qed.

Lemma noHandsFrame_step s :
  stateAfter (onResults true noHandsFrame s) = resetHook s.
Proof. by rewrite onResults_no_hands by (by right). Qed.

(** While every frame shows one complete hand, the single-hand path and
    slot 0 of the per-hand path hold the same values, and the gesture given
    to single-hand consumers is the one computed for slot 0. *)
Lemma single_hand_path_agrees_without_reset (ds : list R) s :
  Forall (λ d, 0 <= d) ds → singleSlot s = slot 0 s →
  let s' := afterFrames true (oneHandFrame <$> ds) s in
  singleSlot s' = slot 0 s' ∧
  (ds ≠ [] → leftHand (twoHandGesture s') = Some (gesture s')).
Proof.
  intros Hds. revert s. induction Hds as [|d ds Hd _ IH]; intros s Heq; [done|].
  cbn [fmap list_fmap afterFrames].
  destruct (oneHandFrame_step d s Hd) as (Hsingle & Hslot & Hgesture & Hleft).
  set (s1 := stateAfter (onResults true (oneHandFrame d) s)) in *.
  assert (Heq1 : singleSlot s1 = slot 0 s1) by (by rewrite Hsingle, Hslot, Heq).
  destruct (IH s1 Heq1) as [Hagree Hrest]. split; [done|]. intros _.
  destruct ds as [|d' ds]; [|by apply Hrest].
  cbn. by rewrite Hleft, Hgesture, Heq1.
Qed.

(** *** Tracking the debounce values of a slot *)

Lemma slotIs_above d c p pinch pinch' pending counter :
  slotIs p pinch false pending counter →
  pinch' = pinch + 0.5 * (d - pinch) → ¬ pinch' < 0.055 →
  slotIs (filter d c p) pinch' false None 0.
Proof.
  intros (Hp & Hw & _ & _) -> Habove.
  destruct (filter_open d c p Hw) as (Hpinch & Hstep & _).
  unfold smoothPinch, PINCH_SMOOTHING in Hpinch. rewrite Hp in Hpinch.
  destruct Hstep as (? & ? & ?); [by rewrite Hpinch|]. by repeat split.
Qed.

Lemma slotIs_below_first d c p pinch pinch' pending counter :
  slotIs p pinch false pending counter →
  pinch' = pinch + 0.5 * (d - pinch) → pinch' < 0.055 → pending ≠ Some true →
  slotIs (filter d c p) pinch' false (Some true) 1.
Proof.
  intros (Hp & Hw & Hpend & _) -> Hbelow Hne.
  destruct (filter_open d c p Hw) as (Hpinch & _ & Hstep & _).
  unfold smoothPinch, PINCH_SMOOTHING in Hpinch. rewrite Hp in Hpinch.
  destruct Hstep as (? & ? & ?); [by rewrite Hpinch|by rewrite Hpend|].
  by repeat split.
Qed.

Lemma slotIs_below_commit d c p pinch pinch' counter :
  slotIs p pinch false (Some true) counter → (1 ≤ counter)%nat →
  pinch' = pinch + 0.5 * (d - pinch) → pinch' < 0.055 →
  slotIs (filter d c p) pinch' true None 0.
Proof.
  intros (Hp & Hw & Hpend & Hcount) Hone -> Hbelow.
  destruct (filter_open d c p Hw) as (Hpinch & _ & _ & Hstep).
  unfold smoothPinch, PINCH_SMOOTHING in Hpinch. rewrite Hp in Hpinch.
  destruct Hstep as (? & ? & ?); [by rewrite Hpinch|done|by rewrite Hcount|].
  by repeat split.
Qed.

Lemma afterFrames_app canvas frames1 frames2 s :
  afterFrames canvas (frames1 ++ frames2) s =
  afterFrames canvas frames2 (afterFrames canvas frames1 s).
Proof. revert s. induction frames1 as [|r frames1 IH]; intros s; cbn; auto. Qed.

Lemma slotIs_initial : slotIs Slot.initial 1 false None 0.
Proof. done. Qed.

(** ** The debounce over two frames *)

(** C4. Debounce invariant, over two consecutive frames of one hand, from
    any state.  The smoothed distance of each frame is computed from the raw
    distance of its own finger tips, and the target of the frame from that
    smoothed distance and the committed value.  The committed value changes
    on a frame only if the target of the frame is the pending candidate and
    the counter reaches [STATE_CHANGE_FRAMES = 2] on it; a change on the
    second frame needs both frames to agree on the target (the counter is 1
    after the first, which did not commit).  A frame whose target differs
    from the committed state and from the pending candidate sets the
    candidate with counter 1; a frame whose target is the committed state
    clears the candidate.  Hence a one-frame spike (no candidate for its
    target before it) followed by a reverting frame leaves the committed
    value unchanged, whereas a second frame with the same target commits
    it, as does one frame that confirms a pending candidate. *)
Theorem debounce_invariant (landmarks1 landmarks2 : list HandLandmark)
    thumbTip1 indexTip1 thumbTip2 indexTip2 handIndex s :
  landmarks1 !! HAND_LANDMARKS.THUMB_TIP = Some thumbTip1 →
  landmarks1 !! HAND_LANDMARKS.INDEX_TIP = Some indexTip1 →
  landmarks2 !! HAND_LANDMARKS.THUMB_TIP = Some thumbTip2 →
  landmarks2 !! HAND_LANDMARKS.INDEX_TIP = Some indexTip2 →
  ∃ g1 s1 g2 s2,
    processHandLandmarks landmarks1 handIndex s = Returned g1 s1 ∧
    processHandLandmarks landmarks2 handIndex s1 = Returned g2 s2 ∧
    let p0 := slot handIndex s in
    let p1 := slot handIndex s1 in
    let p2 := slot handIndex s2 in
    (* the smoothed distances of the two frames, from their raw distances *)
    let pinch1 :=
      Slot.smoothedPinch p0 +
      0.5 * (tipDistance thumbTip1 indexTip1 - Slot.smoothedPinch p0) in
    let pinch2 := pinch1 + 0.5 * (tipDistance thumbTip2 indexTip2 - pinch1) in
    let target1 := targetState (Slot.wasGrabbing p0) pinch1 in
    let target2 := targetState (isGrabbing g1) pinch2 in
    pinchDistance g1 = pinch1 ∧ pinchDistance g2 = pinch2 ∧
    isGrabbing g1 = Slot.wasGrabbing p1 ∧ isGrabbing g2 = Slot.wasGrabbing p2 ∧
    (* a change on a frame *)
    (isGrabbing g1 ≠ Slot.wasGrabbing p0 →
       Slot.pendingState p0 = Some target1 ∧ isGrabbing g1 = target1 ∧
       (2 ≤ S (Slot.stateChangeCounter p0))%nat ∧
       Slot.pendingState p1 = None ∧ Slot.stateChangeCounter p1 = 0%nat) ∧
    (* a change on the second frame *)
    (isGrabbing g2 ≠ isGrabbing g1 →
       isGrabbing g1 = Slot.wasGrabbing p0 ∧
       target1 = isGrabbing g2 ∧ target2 = isGrabbing g2 ∧
       Slot.stateChangeCounter p1 = 1%nat) ∧
    (* a new candidate *)
    (target1 ≠ Slot.wasGrabbing p0 → Slot.pendingState p0 ≠ Some target1 →
       isGrabbing g1 = Slot.wasGrabbing p0 ∧
       Slot.pendingState p1 = Some target1 ∧ Slot.stateChangeCounter p1 = 1%nat) ∧
    (* the target is the committed state *)
    (target1 = Slot.wasGrabbing p0 →
       isGrabbing g1 = Slot.wasGrabbing p0 ∧
       Slot.pendingState p1 = None ∧ Slot.stateChangeCounter p1 = 0%nat) ∧
    (* a one-frame spike, then a reverting frame *)
    (target1 ≠ Slot.wasGrabbing p0 → Slot.pendingState p0 ≠ Some target1 →
     target2 = isGrabbing g1 →
       isGrabbing g1 = Slot.wasGrabbing p0 ∧ isGrabbing g2 = Slot.wasGrabbing p0 ∧
       Slot.pendingState p2 = None ∧ Slot.stateChangeCounter p2 = 0%nat) ∧
    (* a new candidate, then a frame that agrees with it *)
    (target1 ≠ Slot.wasGrabbing p0 → Slot.pendingState p0 ≠ Some target1 →
     target2 = target1 →
       isGrabbing g1 = Slot.wasGrabbing p0 ∧ isGrabbing g2 = target1 ∧
       isGrabbing g2 ≠ Slot.wasGrabbing p0 ∧
       Slot.pendingState p2 = None ∧ Slot.stateChangeCounter p2 = 0%nat) ∧
    (* a frame that confirms the pending candidate *)
    (target1 ≠ Slot.wasGrabbing p0 → Slot.pendingState p0 = Some target1 →
     (1 ≤ Slot.stateChangeCounter p0)%nat →
       isGrabbing g1 = target1 ∧
       Slot.pendingState p1 = None ∧ Slot.stateChangeCounter p1 = 0%nat).
Proof.
  intros Ht1 Hi1 Ht2 Hi2.
  eexists _, _, _, _.
  split; [by apply processHandLandmarks_filter|].
  split; [by apply processHandLandmarks_filter|].
  rewrite !slot_storeSlot. set (p0 := slot handIndex s).
  cbv zeta. cbn [slotGesture isGrabbing pinchDistance].
  set (p1 := filter (tipDistance thumbTip1 indexTip1) (tipCenter thumbTip1 indexTip1) p0).
  set (p2 := filter (tipDistance thumbTip2 indexTip2) (tipCenter thumbTip2 indexTip2) p1).
  assert (Hpinch1 : Slot.smoothedPinch p0 +
                    0.5 * (tipDistance thumbTip1 indexTip1 - Slot.smoothedPinch p0) =
                    Slot.smoothedPinch p1) by (subst p1; by rewrite filter_smoothedPinch).
  assert (Hpinch2 : Slot.smoothedPinch p1 +
                    0.5 * (tipDistance thumbTip2 indexTip2 - Slot.smoothedPinch p1) =
                    Slot.smoothedPinch p2) by (subst p2; by rewrite filter_smoothedPinch).
  rewrite !Hpinch1, !Hpinch2.
  pose proof (filter_debounce (tipDistance thumbTip1 indexTip1)
                (tipCenter thumbTip1 indexTip1) p0) as Ha.
  pose proof (filter_debounce (tipDistance thumbTip2 indexTip2)
                (tipCenter thumbTip2 indexTip2) p1) as Hb.
  pose proof (filter_commit_needs_two (tipDistance thumbTip1 indexTip1)
                (tipCenter thumbTip1 indexTip1) (tipDistance thumbTip2 indexTip2)
                (tipCenter thumbTip2 indexTip2) p0) as Hab.
  cbn zeta in Ha, Hb, Hab. fold p1 in Ha, Hb, Hab. fold p2 in Hb, Hab.
  split; [done|]. split; [done|]. split; [done|]. split; [done|].
  split; [|split; [|split; [|split; [|split; [|split]]]]].
  - intros Hchange.
    destruct Ha as [Ha|[Ha|[Ha|Ha]]]; destruct_and?; try congruence.
    repeat split; first [congruence | assumption].
  - intros Hchange. destruct (Hab Hchange) as (? & ? & ? & ?). auto.
  - intros Hne Hpend.
    destruct Ha as [Ha|[Ha|[Ha|Ha]]]; destruct_and?; try congruence. auto.
  - intros Heq.
    destruct Ha as [Ha|[Ha|[Ha|Ha]]]; destruct_and?; try congruence. auto.
  - intros Hne Hpend Hrevert.
    destruct Ha as [Ha|[Ha|[Ha|Ha]]]; destruct_and?; try congruence.
    destruct Hb as [Hb|[Hb|[Hb|Hb]]]; destruct_and?; try congruence.
    repeat split; congruence.
  - intros Hne Hpend Hagree.
    destruct Ha as [Ha|[Ha|[Ha|Ha]]]; destruct_and?; try congruence.
    destruct Hb as [Hb|[Hb|[Hb|Hb]]]; destruct_and?; try congruence.
    + repeat split; congruence.
    + unfold STATE_CHANGE_FRAMES in *. lia.
  - intros Hne Hpend Hcount.
    destruct Ha as [Ha|[Ha|[Ha|Ha]]]; destruct_and?; try congruence.
    + repeat split; congruence.
    + unfold STATE_CHANGE_FRAMES in *. lia.
Qed.

(** A hand whose finger tips touch for four frames reaches the smoothed
    distance 0.0625.  A fifth such frame crosses the threshold and sets the
    candidate; a sixth commits the grab, whereas a sixth frame with the tips
    0.2 apart reverts and leaves the hand open. *)
Lemma debounce_invariant_witness :
  ∃ gs s g1 s1 g2 s2 g2' s2',
    processHandFrames 0 (pinchedHand <$> [0; 0; 0; 0]) initialHook = Returned gs s ∧
    processHandLandmarks (pinchedHand 0) 0 s = Returned g1 s1 ∧
    isGrabbing g1 = false ∧ pinchDistance g1 = 0.03125 ∧
    Slot.pendingState (slot 0 s1) = Some true ∧
    Slot.stateChangeCounter (slot 0 s1) = 1%nat ∧
    processHandLandmarks (pinchedHand 0) 0 s1 = Returned g2 s2 ∧
    isGrabbing g2 = true ∧
    processHandLandmarks (pinchedHand 0.2) 0 s1 = Returned g2' s2' ∧
    isGrabbing g2' = false ∧ Slot.pendingState (slot 0 s2') = None.
Proof.
  destruct (processHandFrames_pinchedHands 0 [0; 0; 0; 0] initialHook)
    as (gs & s & Hrun & _).
  { repeat constructor; lra. }
  assert (Hs : slotIs (slot 0 s) 0.0625 false None 0).
  { destruct (processHandFrames_returned _ _ _ _ _ Hrun) as (inputs & Hin & _ & ->).
    rewrite mapM_rawInput_pinchedHand in Hin by (repeat constructor; lra).
    injection Hin as <-. rewrite slot_initialHook.
    cbn -[filter].
    apply (slotIs_above _ _ _ 0.125 _ None 0%nat); [|lra|lra].
    apply (slotIs_above _ _ _ 0.25 _ None 0%nat); [|lra|lra].
    apply (slotIs_above _ _ _ 0.5 _ None 0%nat); [|lra|lra].
    apply (slotIs_above _ _ _ 1 _ None 0%nat); [|lra|lra].
    apply slotIs_initial. }
  destruct Hs as (Hpinch & Hwas & Hpending & Hcounter).
  assert (Htips : tipDistance (Point3.mk 0 0 0) origin = 0)
    by (apply tipDistance_pinched; lra).
  assert (Htips' : tipDistance (Point3.mk 0.2 0 0) origin = 0.2)
    by (apply tipDistance_pinched; lra).
  (* the fifth and sixth frames with touching tips: candidate, then commit *)
  destruct (debounce_invariant (pinchedHand 0) (pinchedHand 0)
              (Point3.mk 0 0 0) origin (Point3.mk 0 0 0) origin 0 s
              eq_refl eq_refl eq_refl eq_refl)
    as (g1 & s1 & g2 & s2 & Hrun1 & Hrun2 & Hgate).
  cbv zeta in Hgate.
  rewrite Hpinch, Hwas, Hpending, Htips in Hgate.
  destruct Hgate as (Hp1 & _ & _ & _ & _ & _ & Hcandidate & _ & _ & Hcommit & _).
  assert (Htarget1 : targetState false (0.0625 + 0.5 * (0 - 0.0625)) = true).
  { rewrite targetState_false. apply bool_decide_eq_true_2.
    unfold PINCH_THRESHOLD. lra. }
  rewrite Htarget1 in Hcandidate, Hcommit.
  destruct Hcandidate as (Hg1 & Hpending1 & Hcounter1); [done|done|].
  assert (Htarget2 : targetState (isGrabbing g1)
            (0.0625 + 0.5 * (0 - 0.0625) + 0.5 * (0 - (0.0625 + 0.5 * (0 - 0.0625)))) =
            true).
  { rewrite Hg1, targetState_false. apply bool_decide_eq_true_2.
    unfold PINCH_THRESHOLD. lra. }
  destruct Hcommit as (_ & Hg2 & _); [done|done|done|].
  (* the fifth frame again, then a frame with the tips 0.2 apart: a spike *)
  destruct (debounce_invariant (pinchedHand 0) (pinchedHand 0.2)
              (Point3.mk 0 0 0) origin (Point3.mk 0.2 0 0) origin 0 s
              eq_refl eq_refl eq_refl eq_refl)
    as (g1' & s1' & g2' & s2' & Hrun1' & Hrun2' & Hgate').
  rewrite Hrun1 in Hrun1'. injection Hrun1' as <- <-.
  cbv zeta in Hgate'.
  rewrite Hpinch, Hwas, Hpending, Htips, Htips' in Hgate'.
  destruct Hgate' as (_ & _ & _ & _ & _ & _ & _ & _ & Hspike & _).
  rewrite Htarget1 in Hspike.
  assert (Htarget2' : targetState (isGrabbing g1)
            (0.0625 + 0.5 * (0 - 0.0625) + 0.5 * (0.2 - (0.0625 + 0.5 * (0 - 0.0625)))) =
            isGrabbing g1).
  { rewrite Hg1. apply targetState_false_stays. unfold PINCH_THRESHOLD. lra. }
  destruct Hspike as (_ & Hg2' & Hpending2' & _); [done|done|done|].
  exists gs, s, g1, s1, g2, s2, g2', s2'.
  split; [done|]. split; [done|]. split; [done|].
  split; [rewrite Hp1; lra|]. split; [done|]. split; [done|].
  split; [done|]. split; [done|]. split; [done|]. split; [done|]. done.
Defined.

Lemma afterFrames_cons canvas results frames s :
  afterFrames canvas (results :: frames) s =
  afterFrames canvas frames (stateAfter (onResults canvas results s)).
Proof. reflexivity. Qed.

Lemma afterFrames_nil canvas s : afterFrames canvas [] s = s.
Proof. reflexivity. Qed.

(** One frame of a hand not yet pinched below the threshold, on the
    single-hand path. *)
Lemma oneHandFrame_above d s pinch pinch' pending counter :
  0 <= d →
  slotIs (singleSlot s) pinch false pending counter →
  pinch' = pinch + 0.5 * (d - pinch) → ¬ pinch' < 0.055 →
  slotIs (singleSlot (stateAfter (onResults true (oneHandFrame d) s)))
    pinch' false None 0.
Proof.
  intros Hd Hs Hpinch Habove.
  destruct (oneHandFrame_step d s Hd) as (-> & _). by eapply slotIs_above.
Qed.

Lemma pinchingFrames_state :
  let s := afterFrames true pinchingFrames initialHook in
  slotIs (singleSlot s) 0.03125 false (Some true) 1 ∧
  Slot.smoothedPosition (singleSlot s) ≠ None ∧
  singleSlot s = slot 0 s.
Proof.
  cbv zeta.
  assert (Hds : Forall (λ d, 0 <= d) [0; 0; 0; 0; 0]) by (repeat constructor; lra).
  assert (Hinit : singleSlot initialHook = slot 0 initialHook)
    by (by rewrite slot_initialHook).
  pose proof (single_hand_path_agrees_without_reset [0; 0; 0; 0; 0] initialHook
                Hds Hinit) as [Hagree _].
  unfold pinchingFrames in *.
  rewrite !fmap_cons, fmap_nil, !afterFrames_cons, afterFrames_nil in *.
  split; [|split; [|done]].
  - clear Hagree.
    match goal with
    | |- slotIs (singleSlot (stateAfter (onResults true (oneHandFrame 0) ?s4))) _ _ _ _ =>
        destruct (oneHandFrame_step 0 s4 (Rle_refl 0)) as (-> & _);
        apply (slotIs_below_first _ _ _ 0.0625 _ None 0%nat); [|lra|lra|done]
    end.
    apply (oneHandFrame_above _ _ 0.125 _ None 0%nat); [lra| |lra|lra].
    apply (oneHandFrame_above _ _ 0.25 _ None 0%nat); [lra| |lra|lra].
    apply (oneHandFrame_above _ _ 0.5 _ None 0%nat); [lra| |lra|lra].
    apply (oneHandFrame_above _ _ 1 _ None 0%nat); [lra| |lra|lra].
    apply slotIs_initial.
  - match goal with
    | |- context [stateAfter (onResults true (oneHandFrame 0) ?s4)] =>
        destruct (oneHandFrame_step 0 s4 (Rle_refl 0)) as (-> & _)
    end.
    by rewrite filter_smoothedPosition.
Qed.

(** ** The reset on a frame without hands *)

(** What the reset branch of [onResults] writes: the emitted single-hand
    gesture, the two-hand gesture, the committed flag of the single-hand
    path and every per-hand dictionary; the other four single-hand refs keep
    their values. *)
Lemma onResults_no_hands_state results s :
  multiHandLandmarks results = None ∨ multiHandLandmarks results = Some [] →
  let s' := stateAfter (onResults true results s) in
  gesture s' = noHandGesture ∧
  twoHandGesture s' = noTwoHandGesture ∧
  (∀ handIndex, slot handIndex s' = Slot.initial) ∧
  wasGrabbingRef s' = false ∧
  smoothedPositionRef s' = smoothedPositionRef s ∧
  smoothedPinchRef s' = smoothedPinchRef s ∧
  pendingStateRef s' = pendingStateRef s ∧
  stateChangeCounterRef s' = stateChangeCounterRef s ∧
  callbacks s' = callbacks s.
Proof.
  intros Hnone s'. subst s'. rewrite onResults_no_hands by done.
  cbn [stateAfter]. repeat split; try done; apply slot_resetHook.
Qed.

Lemma slotIs_singleSlot_resetHook s pinch pending counter :
  slotIs (singleSlot s) pinch false pending counter →
  slotIs (singleSlot (resetHook s)) pinch false pending counter.
Proof. by intros (? & ? & ? & ?). Qed.

(** C1 at a failing input: five frames of a pinched hand, then a frame
    without hands.  The emitted gesture is the "no hand" gesture and every
    per-hand slot is back to its initial values, but of the single-hand
    filter state only the committed flag is reset: its smoothed position is
    still non-null, its smoothed pinch distance still 0.03125 (not 1), its
    pending candidate still [true] and its counter still 1. *)
Theorem reset_keeps_single_hand_filter_state :
  let s := afterFrames true (pinchingFrames ++ [noHandsFrame]) initialHook in
  gesture s = noHandGesture ∧
  (∀ handIndex, slot handIndex s = Slot.initial) ∧
  wasGrabbingRef s = false ∧
  smoothedPositionRef s ≠ None ∧
  smoothedPinchRef s = 0.03125 ∧
  pendingStateRef s = Some true ∧
  stateChangeCounterRef s = 1%nat.
Proof.
  cbv zeta. rewrite afterFrames_app, afterFrames_cons, afterFrames_nil.
  destruct pinchingFrames_state as ((Hpinch & _ & Hpending & Hcounter) & Hposition & _).
  set (s5 := afterFrames true pinchingFrames initialHook) in *. clearbody s5.
  destruct (onResults_no_hands_state noHandsFrame s5 (or_intror eq_refl))
    as (Hg & _ & Hslots & Hwas & Hpos' & Hpinch' & Hpending' & Hcounter' & _).
  set (s6 := stateAfter (onResults true noHandsFrame s5)) in *. clearbody s6.
  split; [done|]. split; [done|]. split; [done|].
  split; [by rewrite Hpos'|]. split; [by rewrite Hpinch'|].
  split; [by rewrite Hpending'|by rewrite Hcounter'].
Qed.

(** C6 at a failing input: the frames above followed by one more frame of
    the pinched hand.  The per-hand filter restarts slot 0 from its initial
    values (smoothed distance 0.5, no grab), while the single-hand path
    resumes from the values it kept (smoothed distance 0.015625 and a
    pending candidate that this frame confirms): the gesture given to
    single-hand consumers reports a grab that the gesture of slot 0, emitted
    as the left hand of the same frame, does not. *)
Theorem single_hand_gesture_differs_from_slot_0 :
  let s := afterFrames true (pinchingFrames ++ [noHandsFrame; oneHandFrame 0])
             initialHook in
  leftHand (twoHandGesture s) = Some (slotGesture (slot 0 s)) ∧
  isGrabbing (slotGesture (slot 0 s)) = false ∧
  pinchDistance (slotGesture (slot 0 s)) = 0.5 ∧
  isGrabbing (gesture s) = true ∧
  pinchDistance (gesture s) = 0.015625 ∧
  gesture s ≠ slotGesture (slot 0 s).
Proof.
  cbv zeta. rewrite afterFrames_app, !afterFrames_cons, afterFrames_nil.
  destruct pinchingFrames_state as (Hsingle & _ & _).
  set (s5 := afterFrames true pinchingFrames initialHook) in *. clearbody s5.
  rewrite noHandsFrame_step.
  apply slotIs_singleSlot_resetHook in Hsingle.
  pose proof (slot_resetHook 0 s5) as Hslot.
  set (s6 := resetHook s5) in *. clearbody s6.
  destruct (oneHandFrame_step 0 s6 (Rle_refl 0)) as (Hsingle7 & Hslot7 & Hgesture & Hleft).
  set (s7 := stateAfter (onResults true (oneHandFrame 0) s6)) in *. clearbody s7.
  assert (Hs : slotIs (singleSlot s7) 0.015625 true None 0).
  { rewrite Hsingle7.
    apply (slotIs_below_commit _ _ _ 0.03125 _ 1%nat); [done|lia|lra|lra]. }
  assert (Hp : slotIs (slot 0 s7) 0.5 false None 0).
  { rewrite Hslot7, Hslot.
    apply (slotIs_above _ _ _ 1 _ None 0%nat); [apply slotIs_initial|lra|lra]. }
  destruct Hs as (Hspinch & Hswas & _). destruct Hp as (Hppinch & Hpwas & _).
  split; [done|]. cbn [slotGesture isGrabbing pinchDistance].
  split; [done|]. split; [done|]. rewrite Hgesture.
  cbn [slotGesture isGrabbing pinchDistance].
  split; [done|]. split; [done|].
  intros Heq. apply (f_equal isGrabbing) in Heq.
  cbn [slotGesture isGrabbing] in Heq. congruence.
Qed.

(** * Further properties of the hook and of its consumers *)

(** ** What the two filters leave alone *)

(** The per-hand filter writes the entries [handIndex] of the five
    dictionaries and nothing else: the entries of every other hand, the
    single-hand refs, both published gestures and the calls of the callbacks
    are as before, whether it returns or throws. *)
Theorem processHandLandmarks_writes_only_its_slot
    (landmarks : list HandLandmark) handIndex s :
  let s' := stateAfter (processHandLandmarks landmarks handIndex s) in
  (∀ j, j ≠ handIndex →
     wasGrabbingRefsPerHand s' !! j = wasGrabbingRefsPerHand s !! j ∧
     stateChangeCountersPerHand s' !! j = stateChangeCountersPerHand s !! j ∧
     pendingStatesPerHand s' !! j = pendingStatesPerHand s !! j ∧
     smoothedPositionsPerHand s' !! j = smoothedPositionsPerHand s !! j ∧
     smoothedPinchesPerHand s' !! j = smoothedPinchesPerHand s !! j) ∧
  singleSlot s' = singleSlot s ∧
  gesture s' = gesture s ∧
  twoHandGesture s' = twoHandGesture s ∧
  prevPullDistanceRef s' = prevPullDistanceRef s ∧
  callbacks s' = callbacks s.
Proof.
  intros s'. subst s'.
  pose proof (processHandLandmarks_rawInput landmarks handIndex s) as Hstep.
  destruct (rawInput landmarks) as [[d c]|]; rewrite Hstep; [|done].
  cbn [stateAfter]. split; [|done].
  intros j Hj. unfold storeSlot; cbn. by rewrite !lookup_insert_ne.
Qed.

(** The single-hand path writes its own five refs and the published
    single-hand gesture, and calls [onGestureUpdate] once with that gesture;
    it never touches the per-hand dictionaries nor the two-hand gesture.
    When it throws, nothing at all has changed. *)
Theorem processLandmarks_writes_only_the_single_hand_state
    (landmarks : list HandLandmark) s :
  match processLandmarks landmarks s with
  | Returned _ s' =>
      callbacks s' = onGestureUpdate (gesture s') :: callbacks s ∧
      gesture s' = slotGesture (singleSlot s') ∧
      wasGrabbingRefsPerHand s' = wasGrabbingRefsPerHand s ∧
      stateChangeCountersPerHand s' = stateChangeCountersPerHand s ∧
      pendingStatesPerHand s' = pendingStatesPerHand s ∧
      smoothedPositionsPerHand s' = smoothedPositionsPerHand s ∧
      smoothedPinchesPerHand s' = smoothedPinchesPerHand s ∧
      twoHandGesture s' = twoHandGesture s ∧
      prevPullDistanceRef s' = prevPullDistanceRef s
  | Thrown s' => s' = s
  end.
Proof.
  pose proof (processLandmarks_rawInput landmarks s) as Hstep.
  destruct (rawInput landmarks) as [[d c]|]; cbv zeta in Hstep; rewrite Hstep;
    [|done].
  repeat split; done.
Qed.

(** ** Role assignment *)

(** Reduces the tests of [newTwoHandGesture] on the handedness labels. *)
Ltac decide_labels :=
  repeat match goal with
         | |- context [bool_decide (Some ?a = Some ?a)] =>
             rewrite (bool_decide_eq_true_2 (Some a = Some a)) by reflexivity
         | H : ?l ≠ ?r |- context [bool_decide (?l = ?r)] =>
             rewrite (bool_decide_eq_false_2 (l = r)) by exact H
         | |- context [bool_decide (Some "Right"%string = Some "Left"%string)] =>
             rewrite (bool_decide_eq_false_2 (Some "Right"%string = Some "Left"%string))
               by discriminate
         | |- context [bool_decide (Some "Left"%string = Some "Right"%string)] =>
             rewrite (bool_decide_eq_false_2 (Some "Left"%string = Some "Right"%string))
               by discriminate
         end.

(** When the two hands carry the two different labels, the roles follow the
    labels whatever the positions of the hands, and the order in which the
    detector reports the hands does not matter. *)
Theorem labels_decide_the_roles (h0 h1 : GestureState) :
  let g := newTwoHandGesture (Some h0) (Some h1)
             (Some "Right"%string) (Some "Left"%string) in
  leftHand g = Some h1 ∧ rightHand g = Some h0 ∧
  bothPinching g = isGrabbing h1 && isGrabbing h0 ∧
  g = newTwoHandGesture (Some h1) (Some h0) (Some "Left"%string) (Some "Right"%string).
Proof.
  unfold newTwoHandGesture. decide_labels.
  destruct h0 as [b0 [p0|] d0 c0], h1 as [b1 [p1|] d1 c1]; cbn; done.
Qed.

(** When neither hand carries a label "Left" or "Right" and both have a
    position, the hand with the smaller x takes the left role and the other
    the right role; on equal x the second hand is the left one.  So the left
    hand is never to the right of the right hand, and when the x differ the
    order in which the detector reports the hands does not matter. *)
Theorem unlabelled_hands_are_ordered_by_x (h0 h1 : GestureState) p0 p1
    (handedness0 handedness1 : option string) :
  handedness0 ≠ Some "Left"%string → handedness0 ≠ Some "Right"%string →
  handedness1 ≠ Some "Left"%string → handedness1 ≠ Some "Right"%string →
  handPosition h0 = Some p0 → handPosition h1 = Some p1 →
  let g := newTwoHandGesture (Some h0) (Some h1) handedness0 handedness1 in
  (Point3.x p0 < Point3.x p1 → leftHand g = Some h0 ∧ rightHand g = Some h1) ∧
  (Point3.x p1 <= Point3.x p0 → leftHand g = Some h1 ∧ rightHand g = Some h0) ∧
  (∃ l r pl pr, leftHand g = Some l ∧ rightHand g = Some r ∧
                handPosition l = Some pl ∧ handPosition r = Some pr ∧
                Point3.x pl <= Point3.x pr) ∧
  (Point3.x p0 ≠ Point3.x p1 →
     g = newTwoHandGesture (Some h1) (Some h0) handedness1 handedness0).
Proof.
  intros HL0 HR0 HL1 HR1 Hp0 Hp1.
  unfold newTwoHandGesture. decide_labels.
  destruct h0 as [b0 o0 d0 c0], h1 as [b1 o1 d1 c1]. cbn in Hp0, Hp1. subst.
  cbn. repeat case_bool_decide; cbn; try (exfalso; lra);
    (split; [intros Hlt; first [done | exfalso; lra]|]);
    (split; [intros Hle; first [done | exfalso; lra]|]);
    (split; [|intros Hne; first [reflexivity | exfalso; lra]]);
    eexists _, _, _, _; (repeat split; try reflexivity); cbn; lra.
Qed.

Lemma unlabelled_hands_are_ordered_by_x_witness :
  let h0 := mkGesture true (Some (Point3.mk 0.5 0 0)) 0.01 1 in
  let h1 := mkGesture false (Some (Point3.mk (-0.5) 0 0)) 0.3 1 in
  let g := newTwoHandGesture (Some h0) (Some h1) None None in
  leftHand g = Some h1 ∧ rightHand g = Some h0.
Proof.
  intros h0 h1 g.
  destruct (unlabelled_hands_are_ordered_by_x h0 h1 (Point3.mk 0.5 0 0)
              (Point3.mk (-0.5) 0 0) None None) as (_ & Hge & _); try done.
  apply Hge. cbn. lra.
Defined.

(** A hand without label loses its role to a labelled hand that claims the
    same role: when the first hand has no label and falls on the left (its
    x is smaller, or the second hand has no position) and the second hand is
    labelled "Left", the second hand is the left hand and no hand is the
    right hand, the first hand having lost its role; likewise on the right.
    No pull can then be detected. *)
Theorem unlabelled_hand_dropped_by_labelled_hand (h0 h1 : GestureState)
    (handedness0 : option string) :
  handedness0 ≠ Some "Left"%string → handedness0 ≠ Some "Right"%string →
  let fallsLeft :=
    match handPosition h0, handPosition h1 with
    | Some p0, Some p1 => Point3.x p0 < Point3.x p1
    | Some p0, None => True
    | None, _ => False
    end in
  (fallsLeft →
     let g := newTwoHandGesture (Some h0) (Some h1) handedness0 (Some "Left"%string) in
     leftHand g = Some h1 ∧ rightHand g = None ∧
     bothPinching g = false ∧ isPulling g = false ∧
     pullDistance g = 0 ∧ centerPosition g = None) ∧
  (¬ fallsLeft →
     let g := newTwoHandGesture (Some h0) (Some h1) handedness0 (Some "Right"%string) in
     rightHand g = Some h1 ∧ leftHand g = None ∧
     bothPinching g = false ∧ isPulling g = false ∧
     pullDistance g = 0 ∧ centerPosition g = None).
Proof.
  intros HL0 HR0 fallsLeft. subst fallsLeft.
  unfold newTwoHandGesture. decide_labels.
  destruct h0 as [b0 [p0|] d0 c0], h1 as [b1 [p1|] d1 c1]; cbn;
    repeat case_bool_decide; cbn; rewrite ?andb_false_r;
    (split; intros Hside; first [done | exfalso; tauto | exfalso; lra]).
Qed.

Lemma unlabelled_hand_dropped_by_labelled_hand_witness :
  let h0 := mkGesture true (Some (Point3.mk (-0.5) 0 0)) 0.01 1 in
  let h1 := mkGesture true (Some (Point3.mk 0.5 0 0)) 0.01 1 in
  let g := newTwoHandGesture (Some h0) (Some h1) None (Some "Left"%string) in
  leftHand g = Some h1 ∧ rightHand g = None ∧ isPulling g = false.
Proof.
  intros h0 h1 g.
  destruct (unlabelled_hand_dropped_by_labelled_hand h0 h1 None) as [Hleft _];
    try done.
  destruct Hleft as (? & ? & _ & ? & _); [cbn; lra|]. done.
Defined.

(** ** Values derived by the aggregator *)

Lemma derivedGesture_values leftHand rightHand :
  let g := derivedGesture leftHand rightHand in
  (bothPinching g = true →
     ∃ l r, leftHand = Some l ∧ rightHand = Some r ∧
            isGrabbing l = true ∧ isGrabbing r = true) ∧
  (isPulling g = true → bothPinching g = true ∧ centerPosition g ≠ None) ∧
  centerPosition g =
    match leftHand ≫= handPosition, rightHand ≫= handPosition with
    | Some l, Some r =>
        Some (Point2.mk ((Point3.x l + Point3.x r) / 2) ((Point3.y l + Point3.y r) / 2))
    | _, _ => None
    end ∧
  0 <= pullDistance g.
Proof.
  unfold derivedGesture.
  destruct leftHand as [[bl [pl|] dl cl]|], rightHand as [[br [pr|] dr cr]|]; cbn;
    rewrite ?andb_true_iff, ?bool_decide_eq_true; unfold MIN_PULL_DISTANCE;
    (split; [intros H; destruct_and?; try discriminate; eauto 10|]);
    (split; [intros H; destruct_and?; try discriminate;
             first [done | exfalso; lra]|]);
    (split; [reflexivity|]);
    first [apply sqrt_pos | lra].
Qed.

(** Whatever the hands and labels: [bothPinching] needs both roles filled
    with grabbing hands; [isPulling] needs [bothPinching] and comes with a
    non-null [centerPosition]; [centerPosition] is the midpoint of the two
    positions when both roles have one and null otherwise; [pullDistance] is
    never negative; the roles are filled with the given hands only, and one
    hand alone never fills both roles. *)
Theorem two_hand_gesture_is_consistent (hand0 hand1 : option GestureState)
    (handedness0 handedness1 : option string) :
  let g := newTwoHandGesture hand0 hand1 handedness0 handedness1 in
  (bothPinching g = true →
     ∃ l r, leftHand g = Some l ∧ rightHand g = Some r ∧
            isGrabbing l = true ∧ isGrabbing r = true) ∧
  (isPulling g = true → bothPinching g = true ∧ centerPosition g ≠ None) ∧
  centerPosition g =
    match leftHand g ≫= handPosition, rightHand g ≫= handPosition with
    | Some l, Some r =>
        Some (Point2.mk ((Point3.x l + Point3.x r) / 2) ((Point3.y l + Point3.y r) / 2))
    | _, _ => None
    end ∧
  0 <= pullDistance g ∧
  (∀ h, leftHand g = Some h ∨ rightHand g = Some h → hand0 = Some h ∨ hand1 = Some h) ∧
  (hand0 = None ∨ hand1 = None →
     (leftHand g = None ∨ rightHand g = None) ∧
     bothPinching g = false ∧ isPulling g = false ∧
     pullDistance g = 0 ∧ centerPosition g = None).
Proof.
  intros g.
  destruct (newTwoHandGesture_derived hand0 hand1 handedness0 handedness1)
    as (Hg & Hl & Hr). fold g in Hg, Hl, Hr.
  pose proof (derivedGesture_values (leftHand g) (rightHand g)) as Hvalues.
  cbv zeta in Hvalues. rewrite <- Hg in Hvalues.
  destruct Hvalues as (Hboth & Hpull & Hcenter & Hdist).
  split; [done|]. split; [done|]. split; [done|]. split; [done|].
  split; [intros h [Hh|Hh]; auto|].
  intros Hnone. subst g. unfold newTwoHandGesture.
  destruct Hnone as [-> | ->].
  - destruct hand1 as [[b1 [p1|] d1 c1]|]; cbn; repeat case_bool_decide; cbn;
      rewrite ?andb_false_r; auto 10.
  - destruct hand0 as [[b0 [p0|] d0 c0]|]; cbn; repeat case_bool_decide; cbn;
      rewrite ?andb_false_r; auto 10.
Qed.


(** ** Stopping the session *)

Lemma hook_stopTracking (t : Session) : hook (stopTracking t) = resetHook (hook t).
Proof. destruct t as [s camera hands [[|n]|] ready calls]; reflexivity. Qed.

(** [stopTracking] leaves the gesture refs exactly as a frame without hands
    does: the published gestures, the committed flag of the single-hand path
    and the per-hand dictionaries are reset, the smoothed position, smoothed
    pinch distance, pending candidate and counter of the single-hand path
    survive the stop.  It stops the camera and closes the detector only when
    their refs hold one, cancels only a non-zero animation frame id, and a
    second call changes nothing and makes no further call. *)
Theorem stopTracking_resets_like_a_frame_without_hands (t : Session) :
  hook (stopTracking t) = stateAfter (onResults true noHandsFrame (hook t)) ∧
  singleSlot (hook (stopTracking t)) =
    Slot.mk (smoothedPositionRef (hook t)) (smoothedPinchRef (hook t)) false
      (pendingStateRef (hook t)) (stateChangeCounterRef (hook t)) ∧
  isReady (stopTracking t) = false ∧
  deviceCalls (stopTracking t) =
    match animationFrameRef t with
    | Some (S n) => [cancelAnimationFrame (S n)]
    | _ => []
    end ++ (if handsRef t then [handsClose] else []) ++
    (if cameraRef t then [cameraStop] else []) ++ deviceCalls t ∧
  stopTracking (stopTracking t) = stopTracking t.
Proof.
  rewrite noHandsFrame_step, hook_stopTracking.
  split; [reflexivity|]. split; [reflexivity|].
  destruct t as [[] camera hands [[|n]|] ready calls]; destruct hands, camera;
    vm_compute; repeat split; reflexivity.
Qed.
(** ** Frames that end in an exception *)

Lemma rawInput_short (landmarks : list HandLandmark) :
  (length landmarks ≤ 8)%nat → rawInput landmarks = None.
Proof.
  intros Hlen. unfold rawInput. rewrite (lookup_tip_short landmarks Hlen).
  by destruct (landmarks !! HAND_LANDMARKS.THUMB_TIP).
Qed.

(** When the second hand of a frame lacks a finger tip (fewer than 9
    landmarks) and the first hand is complete, [onResults] throws after it
    has published the single-hand gesture and filtered slot 0: the two-hand
    gesture of the frame is never computed, the one held by the hook is the
    one of an earlier frame, [onTwoHandGestureUpdate] is not called and
    slot 1 is untouched. *)
Theorem malformed_second_hand_aborts_the_frame results
    (landmarks0 landmarks1 : list HandLandmark) d c s :
  multiHandLandmarks results = Some [landmarks0; landmarks1] →
  rawInput landmarks0 = Some (d, c) → (21 ≤ length landmarks0)%nat →
  (length landmarks1 ≤ 8)%nat →
  ∃ s',
    onResults true results s = Thrown s' ∧
    singleSlot s' = filter d c (singleSlot s) ∧
    gesture s' = slotGesture (filter d c (singleSlot s)) ∧
    slot 0 s' = filter d c (slot 0 s) ∧
    slot 1 s' = slot 1 s ∧
    twoHandGesture s' = twoHandGesture s ∧
    callbacks s' = onGestureUpdate (gesture s') :: callbacks s.
Proof.
  intros Hhands Hraw Hlen Hshort. unfold onResults. rewrite Hhands. cbn [negb].
  unfold mbind at 1, M_bind at 1.
  pose proof (processLandmarks_rawInput landmarks0 s) as Hsingle.
  rewrite Hraw in Hsingle. rewrite Hsingle.
  set (p := filter d c (singleSlot s)).
  set (s1 := call _ _).
  unfold mbind at 1, M_bind at 1. unfold drawLandmarks.
  rewrite bool_decide_eq_false_2 by lia. cbn [mret M_ret].
  unfold mbind at 1, M_bind at 1. cbn [processAllHands].
  unfold mbind at 1, M_bind at 1.
  pose proof (processHandLandmarks_rawInput landmarks0 0 s1) as Hhand.
  rewrite Hraw in Hhand. rewrite Hhand.
  assert (Hslot : slot 0 s1 = slot 0 s) by done. rewrite Hslot.
  set (q := filter d c (slot 0 s)).
  rewrite (bool_decide_eq_false_2 (0 < 0)%nat) by lia.
  unfold mbind at 1, M_bind at 1. cbn [mret M_ret].
  unfold mbind at 1, M_bind at 1.
  pose proof (processHandLandmarks_rawInput landmarks1 1 (storeSlot 0 q s1)) as Hhand1.
  rewrite (rawInput_short landmarks1 Hshort) in Hhand1. rewrite Hhand1.
  eexists. split; [reflexivity|].
  split; [by destruct p|]. split; [done|].
  split; [apply slot_storeSlot|].
  split; [by rewrite slot_storeSlot_ne by done|]. done.
Qed.

Lemma malformed_second_hand_aborts_the_frame_witness :
  ∃ s',
    onResults true
      {| multiHandLandmarks := Some [pinchedHand 0.2; replicate 8 origin];
         multiHandedness := None |} initialHook = Thrown s' ∧
    twoHandGesture s' = noTwoHandGesture ∧
    callbacks s' = [onGestureUpdate (gesture s')].
Proof.
  destruct (malformed_second_hand_aborts_the_frame
              {| multiHandLandmarks := Some [pinchedHand 0.2; replicate 8 origin];
                 multiHandedness := None |}
              (pinchedHand 0.2) (replicate 8 origin) 0.2
              (tipCenter (Point3.mk 0.2 0 0) origin) initialHook eq_refl)
    as (s' & Hrun & _ & _ & _ & _ & Htwo & Hcalls).
  - apply rawInput_pinchedHand. lra.
  - unfold pinchedHand, hand. cbn. lia.
  - cbn. lia.
  - exists s'. auto.
Defined.

(** When the first hand of a frame has both finger tips but fewer than 21
    landmarks, the single-hand path filters it and publishes its gesture,
    then drawing the hand throws: the per-hand dictionaries and the two-hand
    gesture are left as they were, so the single-hand state runs one frame
    ahead of slot 0. *)
Theorem incomplete_first_hand_updates_only_the_single_hand_path results
    (landmarks : list HandLandmark) (others : list (list HandLandmark)) s :
  multiHandLandmarks results = Some (landmarks :: others) →
  (9 ≤ length landmarks < 21)%nat →
  ∃ d c s',
    rawInput landmarks = Some (d, c) ∧
    onResults true results s = Thrown s' ∧
    singleSlot s' = filter d c (singleSlot s) ∧
    gesture s' = slotGesture (filter d c (singleSlot s)) ∧
    callbacks s' = onGestureUpdate (gesture s') :: callbacks s ∧
    (∀ handIndex, slot handIndex s' = slot handIndex s) ∧
    twoHandGesture s' = twoHandGesture s.
Proof.
  intros Hhands [Hge Hlt].
  destruct (lookup_tips_long landmarks Hge) as (t & i & Ht & Hi).
  exists (tipDistance t i), (tipCenter t i).
  assert (Hraw : rawInput landmarks = Some (tipDistance t i, tipCenter t i)).
  { unfold rawInput. by rewrite Ht, Hi. }
  unfold onResults. rewrite Hhands. cbn [negb].
  unfold mbind at 1, M_bind at 1.
  pose proof (processLandmarks_rawInput landmarks s) as Hsingle.
  rewrite Hraw in Hsingle. rewrite Hsingle.
  set (p := filter _ _ (singleSlot s)).
  unfold mbind at 1, M_bind at 1. unfold drawLandmarks.
  rewrite bool_decide_eq_true_2 by lia.
  eexists. split; [done|]. split; [reflexivity|].
  split; [by destruct p|]. done.
Qed.

Lemma incomplete_first_hand_updates_only_the_single_hand_path_witness :
  ∃ d c s',
    rawInput (replicate 9 origin) = Some (d, c) ∧
    onResults true
      {| multiHandLandmarks := Some [replicate 9 origin]; multiHandedness := None |}
      initialHook = Thrown s' ∧
    slot 0 s' = Slot.initial ∧
    Slot.smoothedPosition (singleSlot s') ≠ None.
Proof.
  destruct (incomplete_first_hand_updates_only_the_single_hand_path
              {| multiHandLandmarks := Some [replicate 9 origin];
                 multiHandedness := None |}
              (replicate 9 origin) [] initialHook eq_refl)
    as (d & c & s' & Hraw & Hrun & Hsingle & _ & _ & Hslots & _).
  - cbn. lia.
  - exists d, c, s'. split; [done|]. split; [done|].
    split; [by rewrite Hslots, slot_initialHook|].
    by rewrite Hsingle, filter_smoothedPosition.
Defined.

(** ** The earliest grab of a new hand *)

Lemma rawInput_nonneg (landmarks : list HandLandmark) d c :
  rawInput landmarks = Some (d, c) → 0 <= d.
Proof.
  unfold rawInput.
  destruct (landmarks !! HAND_LANDMARKS.THUMB_TIP) as [t|]; [|done].
  destruct (landmarks !! HAND_LANDMARKS.INDEX_TIP) as [i|]; [|done].
  cbn. intros [= <- <-]. apply sqrt_pos.
Qed.

Lemma mapM_rawInput_nonneg (frames : list (list HandLandmark)) inputs :
  mapM rawInput frames = Some inputs → Forall (λ d, 0 <= d) (inputs.*1).
Proof.
  revert inputs. induction frames as [|landmarks frames IH]; intros inputs Hin.
  - cbn in Hin. injection Hin as <-. constructor.
  - cbn in Hin.
    destruct (rawInput landmarks) as [[d c]|] eqn:Hraw; [|discriminate].
    destruct (mapM rawInput frames) as [inputs'|] eqn:Hrest; [|discriminate].
    cbn in Hin. injection Hin as <-. cbn.
    constructor; [by eapply rawInput_nonneg|by apply IH].
Qed.

(** Each frame at most halves the smoothed pinch distance. *)
Lemma smoothedPinches_lower prev (ds : list R) k x :
  0 <= prev → Forall (λ d, 0 <= d) ds →
  smoothedPinches prev ds !! k = Some x → prev / 2 ^ S k <= x.
Proof.
  revert prev k. induction ds as [|d ds IH]; intros prev k Hprev Hds Hk; [done|].
  inversion Hds as [|? ? Hd Hds']; subst. cbn [smoothedPinches] in Hk.
  assert (Hhalf : prev / 2 <= smoothPinch prev d)
    by (unfold smoothPinch, PINCH_SMOOTHING; lra).
  destruct k as [|k].
  - cbn in Hk. injection Hk as <-. cbn [pow]. lra.
  - cbn in Hk. apply IH in Hk; [|lra|done].
    assert (Hpow : 0 < 2 ^ S k) by (apply pow_lt; lra).
    eapply Rle_trans; [|exact Hk].
    replace (prev / 2 ^ S (S k)) with (prev / 2 / 2 ^ S k)
      by (cbn [pow] in *; field; lra).
    apply Rmult_le_compat_r; [|done]. left. by apply Rinv_0_lt_compat.
Qed.

Lemma firstPairBelow_Some previousBelow (samples : list R) k :
  firstPairBelow previousBelow samples = Some k →
  match k with
  | O => previousBelow = true
  | S k' => ∃ d, samples !! k' = Some d ∧ d < PINCH_THRESHOLD
  end.
Proof.
  revert previousBelow k.
  induction samples as [|d samples IH]; intros previousBelow k; cbn; [done|].
  case_bool_decide as Hbelow.
  - destruct previousBelow; [by intros [= <-]|].
    destruct (firstPairBelow true samples) as [j|] eqn:Hrest; [|done].
    cbn. intros [= <-]. apply IH in Hrest.
    destruct j as [|j]; [by exists d|].
    destruct Hrest as (d' & Hd' & Hlt). by exists d'.
  - destruct (firstPairBelow false samples) as [j|] eqn:Hrest; [|done].
    cbn. intros [= <-]. apply IH in Hrest.
    destruct j as [|j]; [done|].
    destruct Hrest as (d' & Hd' & Hlt). by exists d'.
Qed.

Lemma smoothedPinches_closing_hand :
  smoothedPinches 1 [0; 0; 0; 0; 0; 0] =
  [0.5; 0.25; 0.125; 0.0625; 0.03125; 0.015625].
Proof.
  cbn. unfold smoothPinch, PINCH_SMOOTHING.
  repeat (apply (f_equal2 cons); [lra|]). done.
Qed.

Lemma firstPairBelow_closing_hand :
  firstPairBelow false [0.5; 0.25; 0.125; 0.0625; 0.03125; 0.015625] = Some 5%nat.
Proof.
  cbn. unfold PINCH_THRESHOLD.
  rewrite !(bool_decide_eq_false_2 (_ < _)) by lra.
  rewrite !bool_decide_eq_true_2 by lra. done.
Qed.

(** A hand whose slot is new (or was reset by a frame without hands) cannot
    be reported as grabbing before its sixth frame, whatever its landmarks:
    the smoothed pinch distance starts at 1 and a frame at most halves it, so
    the fifth sample is the first that can be below 0.055 and the sixth the
    first that can confirm it. *)
Theorem new_hand_cannot_grab_before_sixth_frame handIndex
    (frames : list (list HandLandmark)) s gs s' k :
  slot handIndex s = Slot.initial →
  processHandFrames handIndex frames s = Returned gs s' →
  firstGrabbing gs = Some k → (5 ≤ k)%nat.
Proof.
  intros Hinit Hrun Hfirst.
  destruct (processHandFrames_returned _ _ _ _ _ Hrun) as (inputs & Hin & -> & _).
  rewrite Hinit in Hfirst.
  rewrite (filterFrames_firstGrabbing inputs false) in Hfirst by apply openSlot_initial.
  rewrite filterFrames_smoothedPinch in Hfirst.
  cbn [Slot.smoothedPinch Slot.initial] in Hfirst.
  apply firstPairBelow_Some in Hfirst. destruct k as [|k]; [done|].
  destruct Hfirst as (d & Hd & Hbelow).
  apply smoothedPinches_lower in Hd; [|lra|by eapply mapM_rawInput_nonneg].
  unfold PINCH_THRESHOLD in Hbelow.
  destruct k as [|[|[|[|k]]]]; [| | | |lia]; exfalso; cbn [pow] in Hd; lra.
Qed.

(** The bound is reached: a hand whose finger tips touch from its first
    frame on is reported as grabbing at its sixth frame. *)
Lemma new_hand_cannot_grab_before_sixth_frame_witness :
  ∃ gs s',
    processHandFrames 0 (pinchedHand <$> [0; 0; 0; 0; 0; 0]) initialHook =
      Returned gs s' ∧
    firstGrabbing gs = Some 5%nat ∧ (5 ≤ 5)%nat.
Proof.
  destruct (processHandFrames_pinchedHands 0 [0; 0; 0; 0; 0; 0] initialHook)
    as (gs & s' & Hrun & Hpinch & qs & Hgs & Hqs).
  { repeat constructor; lra. }
  exists gs, s'. split; [done|].
  rewrite slot_initialHook in Hpinch, Hqs.
  cbn [Slot.smoothedPinch Slot.initial] in Hpinch.
  rewrite smoothedPinches_closing_hand in Hpinch.
  assert (Hfirst : firstGrabbing gs = Some 5%nat).
  { rewrite <- firstPairBelow_closing_hand, <- Hpinch, Hgs, pinchDistance_slotGesture.
    rewrite Hqs. apply filterFrames_firstGrabbing, openSlot_initial. }
  split; [done|].
  exact (new_hand_cannot_grab_before_sixth_frame 0 _ initialHook gs s' 5
           (slot_initialHook 0) Hrun Hfirst).
Defined.

(** ** The first release of a grab *)

Lemma filterFrames_firstReleased inputs previousAbove p :
  grabbingSlot previousAbove p →
  firstReleased (slotGesture <$> filterFrames inputs p) =
  firstPairAbove previousAbove (Slot.smoothedPinch <$> filterFrames inputs p).
Proof.
  revert previousAbove p.
  induction inputs as [|[d c] inputs IH]; intros previousAbove p [Hwas Hpend];
    cbn -[filter]; [done|].
  set (p' := filter d c p).
  pose proof (filter_debounce d c p) as Hstep. cbn zeta in Hstep. fold p' in Hstep.
  rewrite Hwas, targetState_true in Hstep.
  case_bool_decide as Habove; cbn [negb] in Hstep.
  - (* the sample is above the release threshold: the target is a release *)
    destruct Hstep as [Hs|[Hs|[Hs|Hs]]]; destruct_and?; try done.
    + destruct previousAbove; [by destruct Hpend|].
      replace (Slot.wasGrabbing p') with true by done.
      rewrite (IH true p'); [done|]. split; [done|]. split; [done|]. lia.
    + destruct previousAbove; [|done].
      by replace (Slot.wasGrabbing p') with false by done.
    + destruct previousAbove; [|done].
      destruct Hpend as [_ Hcount]. unfold STATE_CHANGE_FRAMES in *. lia.
  - (* the sample is not above it: the target is the grab *)
    destruct Hstep as [Hs|[Hs|[Hs|Hs]]]; destruct_and?; try done.
    replace (Slot.wasGrabbing p') with true by done.
    rewrite (IH false p'); [done|]. split; [done|]. cbn. congruence.
Qed.

(** For a hand whose slot holds a committed grab with no release pending,
    [isGrabbing] first turns false at the first frame at which two
    consecutive smoothed samples are both above 0.16; in particular a grab
    outlives any single frame, however far the fingers are apart in it. *)
Theorem release_committed_at_first_pair_above handIndex
    (frames : list (list HandLandmark)) s gs s' :
  grabbingSlot false (slot handIndex s) →
  processHandFrames handIndex frames s = Returned gs s' →
  firstReleased gs = firstPairAbove false (pinchDistance <$> gs) ∧
  firstReleased gs ≠ Some 0%nat.
Proof.
  intros Hgrab Hrun.
  destruct (processHandFrames_returned _ _ _ _ _ Hrun) as (inputs & Hin & -> & _).
  assert (Hfirst : firstReleased (slotGesture <$> filterFrames inputs (slot handIndex s)) =
                   firstPairAbove false
                     (pinchDistance <$>
                        (slotGesture <$> filterFrames inputs (slot handIndex s)))).
  { rewrite pinchDistance_slotGesture. by apply filterFrames_firstReleased. }
  split; [done|]. rewrite Hfirst.
  destruct (pinchDistance <$> _) as [|d ds]; cbn; [done|].
  case_bool_decide; by destruct (firstPairAbove _ ds).
Qed.

Lemma release_committed_at_first_pair_above_witness :
  ∃ gs s',
    processHandFrames 0 (pinchedHand <$> [1; 1])
      (storeSlot 0 (Slot.mk None 0.05 true None 0) initialHook) = Returned gs s' ∧
    firstReleased gs = firstPairAbove false (pinchDistance <$> gs) ∧
    firstReleased gs ≠ Some 0%nat.
Proof.
  destruct (processHandFrames_pinchedHands 0 [1; 1]
              (storeSlot 0 (Slot.mk None 0.05 true None 0) initialHook))
    as (gs & s' & Hrun & _).
  { repeat constructor; lra. }
  exists gs, s'. split; [done|].
  apply (release_committed_at_first_pair_above 0 (pinchedHand <$> [1; 1])
           (storeSlot 0 (Slot.mk None 0.05 true None 0) initialHook) gs s'); [|done].
  rewrite slot_storeSlot. split; [done|]. cbn. discriminate.
Defined.

(** ** The calls made by a frame, and what the page keeps of them *)

Lemma wp_processAllHands_callbacks results hands i handGestures handednessLabels s :
  wp (processAllHands results hands i handGestures handednessLabels)
     (λ _ s', callbacks s' = callbacks s ∧ gesture s' = gesture s)
     (λ s', callbacks s' = callbacks s ∧ gesture s' = gesture s) s.
Proof.
  revert i handGestures handednessLabels s.
  induction hands as [|landmarks hands IH]; intros i handGestures handednessLabels s.
  - done.
  - cbn [processAllHands]. apply wp_bind. unfold wp at 1.
    pose proof (processHandLandmarks_rawInput landmarks i s) as Hstep.
    destruct (rawInput landmarks) as [[d c]|] eqn:Hraw; rewrite Hstep; [|done].
    apply wp_bind. unfold drawLandmarks.
    repeat case_bool_decide; try done; apply wp_ret;
      apply (IH _ _ _ (storeSlot i (filter d c (slot i s)) s)).
Qed.

(** A frame with hands that is processed to its end calls each callback
    once, [onGestureUpdate] first, with the gestures the hook holds
    afterwards, so the page then shows what the hook holds.  A frame without
    hands resets the gestures of the hook and calls nothing: the page is not
    told and keeps the last gestures it was given.  A frame that ends in an
    exception never calls [onTwoHandGestureUpdate]. *)
Theorem page_is_not_told_when_hands_leave results s :
  match onResults true results s with
  | Returned _ s' =>
      match multiHandLandmarks results with
      | Some (_ :: _) =>
          callbacks s' = onTwoHandGestureUpdate (twoHandGesture s') ::
                         onGestureUpdate (gesture s') :: callbacks s ∧
          latestGesture (homeAfter s') = gesture s' ∧
          latestTwoHandGesture (homeAfter s') = twoHandGesture s'
      | _ =>
          callbacks s' = callbacks s ∧ homeAfter s' = homeAfter s ∧
          gesture s' = noHandGesture ∧ twoHandGesture s' = noTwoHandGesture
      end
  | Thrown s' =>
      (callbacks s' = callbacks s ∨
       callbacks s' = onGestureUpdate (gesture s') :: callbacks s) ∧
      latestTwoHandGesture (homeAfter s') = latestTwoHandGesture (homeAfter s)
  end.
Proof.
  destruct (multiHandLandmarks results) as [[|landmarks others]|] eqn:Hhands.
  - by rewrite onResults_no_hands by auto.
  - unfold onResults. rewrite Hhands. cbn [negb].
    unfold mbind at 1, M_bind at 1.
    pose proof (processLandmarks_rawInput landmarks s) as Hsingle.
    destruct (rawInput landmarks) as [[d c]|] eqn:Hraw; rewrite Hsingle; [|by split; [left|]].
    set (p := filter d c (singleSlot s)).
    set (s1 := call _ _).
    unfold mbind at 1, M_bind at 1. unfold drawLandmarks.
    case_bool_decide; [by split; [right|]|]. cbn [mret M_ret].
    unfold mbind at 1, M_bind at 1.
    pose proof (wp_processAllHands_callbacks results (landmarks :: others) 0 [] [] s1)
      as Hall.
    unfold wp in Hall.
    destruct (processAllHands results (landmarks :: others) 0 [] [] s1)
      as [[handGestures handednessLabels] s2|s2]; destruct Hall as [Hcalls Hgesture].
    + unfold mbind, M_bind. rewrite processTwoHandGesture_returns. cbn [mret M_ret].
      unfold homeAfter. cbn. by rewrite Hcalls, Hgesture.
    + unfold homeAfter. rewrite Hcalls, Hgesture. by split; [right|].
  - by rewrite onResults_no_hands by auto.
Qed.

(** ** Gestures of detected hands *)

Lemma filter_detected d c p : detectedGesture (slotGesture (filter d c p)).
Proof. split; [done|]. cbn. by rewrite filter_smoothedPosition. Qed.

Lemma detectedTwoHand_newTwoHandGesture hand0 hand1 handedness0 handedness1 :
  (∀ h, hand0 = Some h → detectedGesture h) →
  (∀ h, hand1 = Some h → detectedGesture h) →
  detectedTwoHand (newTwoHandGesture hand0 hand1 handedness0 handedness1).
Proof.
  intros H0 H1.
  destruct (newTwoHandGesture_derived hand0 hand1 handedness0 handedness1)
    as (_ & Hl & Hr).
  split; intros g Hg; [destruct (Hl g Hg)|destruct (Hr g Hg)]; auto.
Qed.

Lemma wellFormed_afterFrames canvas frames :
  wellFormed (afterFrames canvas frames initialHook).
Proof.
  apply (afterFrames_invariant wellFormed detectedGesture (λ _, True)).
  - intros landmarks d c s _ Hraw (Hg & Ht & Hcalls) p.
    pose proof (filter_detected d c (singleSlot s)) as Hdetected.
    split; [by right|]. split; [done|]. by constructor.
  - intros landmarks d c handIndex s _ Hraw (Hg & Ht & Hcalls) p.
    split; [done|]. apply filter_detected.
  - intros hand0 hand1 handedness0 handedness1 s (Hg & Ht & Hcalls) H0 H1 g.
    assert (Hdetected : detectedTwoHand g) by by apply detectedTwoHand_newTwoHandGesture.
    split; [done|]. split; [done|]. by constructor.
  - intros s (Hg & Ht & Hcalls).
    split; [by left|]. split; [by split|done].
  - intros results hands _ _. by apply Forall_forall.
  - split; [by left|]. split; [by split|done].
Qed.

(** Over every stream of frames, whatever the landmarks, every gesture of a
    hand that the hook holds or has passed to a callback has confidence 1
    and a non-null position; the single-hand gesture it holds is such a
    gesture or the no-hand gesture, so a grab is never reported without a
    position and a null position means the no-hand gesture; the gesture kept
    by the page is of the same two kinds. *)
Theorem published_gestures_are_of_detected_hands canvas (frames : list Results) :
  let s := afterFrames canvas frames initialHook in
  (gesture s = noHandGesture ∨ detectedGesture (gesture s)) ∧
  (isGrabbing (gesture s) = true → handPosition (gesture s) ≠ None) ∧
  (handPosition (gesture s) = None → gesture s = noHandGesture) ∧
  (∀ g, onGestureUpdate g ∈ callbacks s → detectedGesture g) ∧
  (∀ t g, t = twoHandGesture s ∨ onTwoHandGestureUpdate t ∈ callbacks s →
          leftHand t = Some g ∨ rightHand t = Some g → detectedGesture g) ∧
  (latestGesture (homeAfter s) = noHandGesture ∨
   detectedGesture (latestGesture (homeAfter s))).
Proof.
  cbv zeta.
  destruct (wellFormed_afterFrames canvas frames) as (Hg & Ht & Hcalls).
  set (s := afterFrames canvas frames initialHook) in *. clearbody s.
  rewrite Forall_forall in Hcalls.
  split; [done|]. split.
  { destruct Hg as [->|(_ & Hposition)]; [discriminate|done]. }
  split.
  { intros Hnone. by destruct Hg as [Hg|(_ & Hposition)]. }
  split; [intros g Hin; apply (Hcalls _ Hin)|]. split.
  - intros t g [->|Hin] Hside.
    + destruct Ht as [Hl Hr]. destruct Hside; [by apply Hl|by apply Hr].
    + destruct (Hcalls _ Hin) as [Hl Hr]. destruct Hside; [by apply Hl|by apply Hr].
  - unfold homeAfter.
    assert (Hall : Forall detectedEmission (callbacks s)) by by apply Forall_forall.
    clear Hcalls. revert Hall. generalize (callbacks s). intros calls Hall.
    induction Hall as [|e calls He _ IH]; [by left|].
    destruct e as [g|t]; cbn; [by right|apply IH].
Qed.

(** ** The menu: where the pointer is *)

Lemma latestGesture_homeAfter (calls : list Emission) :
  latestGesture (foldr handleEmission initialHome calls) = noHandGesture ∨
  onGestureUpdate (latestGesture (foldr handleEmission initialHome calls)) ∈ calls.
Proof.
  induction calls as [|e calls IH]; [by left|].
  destruct e as [g|t]; cbn.
  - right. left.
  - destruct IH as [IH|IH]; [by left|]. right. by right.
Qed.

(** The gesture the page hands to the menu, over every stream of frames whose
    landmarks have x and y in [0, 1]: when it has a position, the pointer
    computed by [getScreenPosition] lies inside the window; when it has
    none, it is the no-hand gesture and [isHandOver] is false for every
    element and padding. *)
Theorem menu_pointer_stays_in_the_window canvas (frames : list Results)
    innerWidth innerHeight :
  0 <= innerWidth → 0 <= innerHeight →
  (∀ results hands (landmarks : list HandLandmark) p,
     results ∈ frames → multiHandLandmarks results = Some hands →
     landmarks ∈ hands → p ∈ landmarks → unitLandmark p) →
  let g := latestGesture (homeAfter (afterFrames canvas frames initialHook)) in
  match getScreenPosition g innerWidth innerHeight with
  | Some screenPos =>
      0 <= Point2.x screenPos <= innerWidth ∧
      0 <= Point2.y screenPos <= innerHeight
  | None =>
      g = noHandGesture ∧
      ∀ element padding, isHandOver g innerWidth innerHeight element padding = false
  end.
Proof.
  intros HW HH Hunit g.
  assert (Hboxed : boxed (afterFrames canvas frames initialHook)).
  { apply boxed_afterFrames. intros results hands Hr Hhands.
    apply Forall_forall. intros landmarks Hl.
    apply Forall_forall. intros q Hq. by eapply Hunit. }
  pose proof (wellFormed_afterFrames canvas frames) as Hwell.
  destruct Hboxed as (_ & _ & _ & _ & Hbox).
  destruct Hwell as (_ & _ & Hdetected).
  rewrite Forall_forall in Hbox, Hdetected.
  subst g. unfold homeAfter.
  destruct (latestGesture_homeAfter (callbacks (afterFrames canvas frames initialHook)))
    as [Hnone|Hin].
  - rewrite Hnone. split; [done|]. by intros [rect|] padding.
  - set (g := latestGesture _) in *. clearbody g.
    pose proof (Hbox _ Hin) as Hg. pose proof (Hdetected _ Hin) as (_ & Hposition).
    unfold getScreenPosition.
    destruct (handPosition g) as [p|] eqn:Hp; [|done].
    destruct (Hg p Hp) as [[Hx0 Hx1] [Hy0 Hy1]]. cbn [Point2.x Point2.y].
    split; split; try (apply Rmult_le_pos; lra).
    + rewrite <- (Rmult_1_l innerWidth) at 2. apply Rmult_le_compat_r; lra.
    + rewrite <- (Rmult_1_l innerHeight) at 2. apply Rmult_le_compat_r; lra.
Qed.

Lemma menu_pointer_stays_in_the_window_witness :
  match getScreenPosition
          (latestGesture (homeAfter (afterFrames true [twoHandsFrame] initialHook)))
          1920 1080 with
  | Some screenPos =>
      0 <= Point2.x screenPos <= 1920 ∧ 0 <= Point2.y screenPos <= 1080
  | None =>
      latestGesture (homeAfter (afterFrames true [twoHandsFrame] initialHook)) =
        noHandGesture ∧
      ∀ element padding,
        isHandOver
          (latestGesture (homeAfter (afterFrames true [twoHandsFrame] initialHook)))
          1920 1080 element padding = false
  end.
Proof.
  apply (menu_pointer_stays_in_the_window true [twoHandsFrame] 1920 1080); [lra|lra|].
  intros results hands landmarks p Hr Hhands Hl Hp.
  apply list_elem_of_singleton in Hr as ->. injection Hhands as <-.
  unfold pinchedHand, hand, origin in Hl.
  repeat (apply elem_of_cons in Hl as [->|Hl]);
    try (by apply elem_of_nil in Hl);
    cbn in Hp;
    repeat (apply elem_of_cons in Hp as [->|Hp]);
    try (by apply elem_of_nil in Hp); unfold unitLandmark; cbn; lra.
Defined.

(** [isHandOver] tests the pointer against the rectangle of the element
    widened by the padding on each side, so an element hit with one padding
    is hit with every larger one (the options use 35, the menu button 130);
    without an element or without a hand position nothing is hit. *)
Theorem hit_area_grows_with_padding gesture innerWidth innerHeight element
    padding padding' :
  padding <= padding' →
  (isHandOver gesture innerWidth innerHeight element padding = true →
   isHandOver gesture innerWidth innerHeight element padding' = true) ∧
  (isHandOver gesture innerWidth innerHeight element padding = true →
   ∃ rect position,
     element = Some rect ∧ handPosition gesture = Some position ∧
     left rect - padding <= (Point3.x position + 1) / 2 * innerWidth
       <= right rect + padding ∧
     top rect - padding <= (- Point3.y position + 1) / 2 * innerHeight
       <= bottom rect + padding).
Proof.
  intros Hpadding. unfold isHandOver, getScreenPosition.
  destruct element as [rect|]; [|done].
  destruct (handPosition gesture) as [position|]; [|done].
  cbn [Point2.x Point2.y]. split.
  - rewrite !andb_true_iff, !bool_decide_eq_true. intros [[[? ?] ?] ?].
    repeat split; lra.
  - rewrite !andb_true_iff, !bool_decide_eq_true. intros [[[? ?] ?] ?].
    exists rect, position. repeat split; lra.
Qed.

Lemma hit_area_grows_with_padding_witness :
  isHandOver (mkGesture false (Some (Point3.mk 0 0 0)) 1 1) 1000 1000
    (Some (mkRect 600 700 400 450)) 130 = true.
Proof.
  assert (Hsmall : isHandOver (mkGesture false (Some (Point3.mk 0 0 0)) 1 1) 1000 1000
                     (Some (mkRect 600 700 400 450)) 100 = true).
  { unfold isHandOver, getScreenPosition. cbn.
    rewrite !bool_decide_eq_true_2 by lra. done. }
  assert (Hle : 100 <= 130) by lra.
  exact (proj1 (hit_area_grows_with_padding _ 1000 1000 _ 100 130 Hle) Hsmall).
Defined.

(** ** Frames of complete hands *)

Lemma rawInput_complete (landmarks : list HandLandmark) :
  (21 ≤ length landmarks)%nat → ∃ d c, rawInput landmarks = Some (d, c).
Proof.
  intros Hlen. destruct (lookup_tips_long landmarks) as (t & i & Ht & Hi); [lia|].
  exists (tipDistance t i), (tipCenter t i). unfold rawInput. by rewrite Ht, Hi.
Qed.

(** The loop of [onResults] over complete hands: hand [j] of the list is
    filtered in slot [i + j], nothing else is written. *)
Lemma processAllHands_complete results (hands : list (list HandLandmark)) i
    handGestures handednessLabels s :
  Forall (λ landmarks, (21 ≤ length landmarks)%nat) hands →
  ∃ gs s',
    processAllHands results hands i handGestures handednessLabels s =
      Returned (handGestures ++ gs,
                handednessLabels ++
                  ((λ j, label <$> (multiHandedness results ≫= (.!! j))) <$>
                     seq i (length hands))) s' ∧
    length gs = length hands ∧
    (∀ j (landmarks : list HandLandmark) d c,
       hands !! j = Some landmarks → rawInput landmarks = Some (d, c) →
       slot (i + j) s' = filter d c (slot (i + j) s) ∧
       gs !! j = Some (slotGesture (filter d c (slot (i + j) s)))) ∧
    (∀ k, (k < i ∨ i + length hands ≤ k)%nat → slot k s' = slot k s) ∧
    singleSlot s' = singleSlot s ∧ gesture s' = gesture s ∧
    twoHandGesture s' = twoHandGesture s ∧ callbacks s' = callbacks s.
Proof.
  revert i handGestures handednessLabels s.
  induction hands as [|landmarks hands IH];
    intros i handGestures handednessLabels s Hcomplete.
  - exists [], s. cbn. rewrite !app_nil_r. repeat split; done.
  - inversion Hcomplete as [|? ? Hlen Hrest]; subst.
    destruct (rawInput_complete landmarks Hlen) as (d & c & Hraw).
    pose proof (processHandLandmarks_rawInput landmarks i s) as Hstep.
    rewrite Hraw in Hstep.
    set (p := filter d c (slot i s)) in *.
    destruct (IH (S i) (handGestures ++ [slotGesture p])
                (handednessLabels ++ [label <$> (multiHandedness results ≫= (.!! i))])
                (storeSlot i p s) Hrest)
      as (gs & s' & Hrun & Hgs & Hslots & Hother & Hsingle & Hgesture & Htwo & Hcalls).
    exists (slotGesture p :: gs), s'. split.
    { cbn [processAllHands]. unfold mbind at 1, M_bind at 1. rewrite Hstep.
      unfold mbind at 1, M_bind at 1. unfold drawLandmarks.
      rewrite (bool_decide_eq_false_2 (length landmarks < 21)%nat) by lia.
      destruct (bool_decide (0 < i)%nat); cbn [mret M_ret];
        rewrite Hrun; cbn [length seq fmap list_fmap]; by rewrite <- !app_assoc. }
    split; [cbn; by rewrite Hgs|]. split; [|split].
    + intros j l d' c' Hl Hraw'. destruct j as [|j].
      * cbn in Hl. injection Hl as <-. rewrite Hraw in Hraw'. injection Hraw' as <- <-.
        rewrite Nat.add_0_r. split; [|done].
        rewrite Hother by lia. apply slot_storeSlot.
      * cbn in Hl. destruct (Hslots j l d' c' Hl Hraw') as [Hslot Hg].
        rewrite slot_storeSlot_ne in Hslot, Hg by lia.
        replace (i + S j)%nat with (S i + j)%nat by lia. done.
    + intros k Hk. cbn [length] in Hk. rewrite Hother by lia.
      apply slot_storeSlot_ne. lia.
    + done.
Qed.

(** [onResults] on a frame of complete hands. *)
Lemma onResults_complete_hands results (landmarks : list HandLandmark) others s :
  multiHandLandmarks results = Some (landmarks :: others) →
  Forall (λ landmarks, (21 ≤ length landmarks)%nat) (landmarks :: others) →
  ∃ s',
    onResults true results s = Returned tt s' ∧
    (∀ j (l : list HandLandmark) d c,
       (landmarks :: others) !! j = Some l → rawInput l = Some (d, c) →
       slot j s' = filter d c (slot j s)) ∧
    (∀ k, (length (landmarks :: others) ≤ k)%nat → slot k s' = slot k s) ∧
    (∀ d c, rawInput landmarks = Some (d, c) →
       singleSlot s' = filter d c (singleSlot s)) ∧
    gesture s' = slotGesture (singleSlot s') ∧
    twoHandGesture s' =
      newTwoHandGesture (Some (slotGesture (slot 0 s')))
        ((λ _, slotGesture (slot 1 s')) <$> others !! 0%nat)
        (label <$> (multiHandedness results ≫= (.!! 0%nat)))
        (others !! 0%nat ≫= λ _, label <$> (multiHandedness results ≫= (.!! 1%nat))) ∧
    callbacks s' = onTwoHandGestureUpdate (twoHandGesture s') ::
                   onGestureUpdate (gesture s') :: callbacks s.
Proof.
  intros Hhands Hcomplete.
  assert (Hlen : (21 ≤ length landmarks)%nat) by (by inversion Hcomplete).
  destruct (rawInput_complete landmarks Hlen) as (d0 & c0 & Hraw0).
  unfold onResults. rewrite Hhands. cbn [negb].
  unfold mbind at 1, M_bind at 1.
  pose proof (processLandmarks_rawInput landmarks s) as Hsingle.
  rewrite Hraw0 in Hsingle. rewrite Hsingle.
  set (p := filter d0 c0 (singleSlot s)).
  set (s1 := call _ _).
  unfold mbind at 1, M_bind at 1. unfold drawLandmarks.
  rewrite bool_decide_eq_false_2 by lia. cbn [mret M_ret].
  unfold mbind at 1, M_bind at 1.
  destruct (processAllHands_complete results (landmarks :: others) 0 [] [] s1 Hcomplete)
    as (gs & s2 & Hrun & Hgs & Hslots & Hother & Hsingle2 & Hgesture & Htwo & Hcalls).
  rewrite Hrun. cbn [app].
  unfold mbind, M_bind. rewrite processTwoHandGesture_returns. cbn [mret M_ret].
  eexists. split; [reflexivity|].
  set (g := newTwoHandGesture _ _ _ _).
  assert (Hslot : ∀ j, slot j (call (onTwoHandGestureUpdate g)
                    (setTwoHandGesture g (set_prevPullDistanceRef (pullDistance g) s2))) =
                  slot j s2) by done.
  assert (Hslots' : ∀ j (l : list HandLandmark) d c,
            (landmarks :: others) !! j = Some l → rawInput l = Some (d, c) →
            slot j s2 = filter d c (slot j s) ∧
            gs !! j = Some (slotGesture (filter d c (slot j s)))).
  { intros j l d c Hl Hraw. by destruct (Hslots j l d c Hl Hraw). }
  split; [intros j l d c Hl Hraw; rewrite Hslot; by apply (Hslots' j l d c)|].
  split; [intros k Hk; rewrite Hslot; apply Hother; lia|].
  assert (Hp : singleSlot s2 = p) by (rewrite Hsingle2; by destruct p).
  split; [intros d c Hraw; rewrite Hraw0 in Hraw; by injection Hraw as <- <-|].
  split; [change (gesture s2 = slotGesture (singleSlot s2)); by rewrite Hgesture, Hp|].
  split; [|cbn; by rewrite Hcalls, Hgesture].
  cbn [twoHandGesture call setTwoHandGesture]. subst g. rewrite !Hslot.
  destruct (Hslots' 0%nat landmarks d0 c0 eq_refl Hraw0) as [Hs0 Hg0].
  rewrite Hg0, Hs0. cbn [mjoin option_join lookup list_lookup length seq fmap list_fmap].
  destruct others as [|landmarks1 others'].
  { rewrite (lookup_ge_None_2 gs 1) by (rewrite Hgs; cbn; lia). done. }
  inversion Hcomplete as [|? ? _ Hrest]; subst.
  assert (Hlen1 : (21 ≤ length landmarks1)%nat) by (by inversion Hrest).
  destruct (rawInput_complete landmarks1 Hlen1) as (d1 & c1 & Hraw1).
  destruct (Hslots' 1%nat landmarks1 d1 c1 eq_refl Hraw1) as [Hs1 Hg1].
  rewrite Hg1, Hs1. done.
Qed.

Lemma slotAfter_cons j results frames p :
  slotAfter j (results :: frames) p = slotAfter j frames (slotAfterFrame j results p).
Proof. reflexivity. Qed.

(** Over a stream of frames in which every hand has 21 landmarks, the slot
    of index [j] is decided by the hands of index [j] and by the frames
    without hands alone: a frame without hands resets it, a frame with a
    hand of index [j] filters it with that hand, a frame with fewer hands
    leaves it.  What the other hands of a frame do does not change it. *)
Theorem hands_are_filtered_independently j (frames : list Results) s :
  (∀ results hands, results ∈ frames → multiHandLandmarks results = Some hands →
     Forall (λ landmarks : list HandLandmark, (21 ≤ length landmarks)%nat) hands) →
  slot j (afterFrames true frames s) = slotAfter j frames (slot j s).
Proof.
  revert s. induction frames as [|results frames IH]; intros s Hall; [done|].
  rewrite afterFrames_cons, slotAfter_cons.
  rewrite IH by (intros r hands Hr; apply Hall; by right). f_equal.
  unfold slotAfterFrame.
  destruct (multiHandLandmarks results) as [[|landmarks others]|] eqn:Hhands.
  - rewrite onResults_no_hands by auto. apply slot_resetHook.
  - assert (Hcomplete : Forall (λ landmarks : list HandLandmark,
                                  (21 ≤ length landmarks)%nat) (landmarks :: others))
      by (apply (Hall results); [by left|done]).
    destruct (onResults_complete_hands results landmarks others s Hhands Hcomplete)
      as (s' & Hrun & Hslots & Hother & _).
    rewrite Hrun. cbn [stateAfter].
    destruct ((landmarks :: others) !! j) as [l|] eqn:Hl; cbn [mbind option_bind].
    + assert (Hlen : (21 ≤ length l)%nat)
        by (by eapply (Forall_lookup_1 _ _ _ _ Hcomplete)).
      destruct (rawInput_complete l Hlen) as (d & c & Hraw).
      rewrite Hraw. by apply (Hslots j l d c).
    + apply Hother. by apply lookup_ge_None_1.
  - rewrite onResults_no_hands by auto. apply slot_resetHook.
Qed.

(** Two frames of two hands with a frame without hands between them: the
    slot of the second hand restarts from 1 after the reset and ends at
    0.65. *)
Lemma hands_are_filtered_independently_witness :
  slot 1 (afterFrames true [twoHandsFrame; noHandsFrame; twoHandsFrame] initialHook) =
    slotAfter 1 [twoHandsFrame; noHandsFrame; twoHandsFrame] (slot 1 initialHook) ∧
  Slot.smoothedPinch
    (slot 1 (afterFrames true [twoHandsFrame; noHandsFrame; twoHandsFrame] initialHook)) =
    0.65.
Proof.
  assert (Hslot : slot 1 (afterFrames true [twoHandsFrame; noHandsFrame; twoHandsFrame]
                            initialHook) =
                  slotAfter 1 [twoHandsFrame; noHandsFrame; twoHandsFrame]
                    (slot 1 initialHook)).
  { apply (hands_are_filtered_independently 1
             [twoHandsFrame; noHandsFrame; twoHandsFrame]).
    intros results hands Hr Hhands.
    assert (Hframe : results = twoHandsFrame ∨ results = noHandsFrame).
    { repeat (apply elem_of_cons in Hr as [Hr|Hr]; [auto|]). by apply elem_of_nil in Hr. }
    destruct Hframe as [-> | ->]; injection Hhands as <-;
      repeat constructor; unfold pinchedHand, hand; cbn; lia. }
  split; [exact Hslot|]. rewrite Hslot.
  rewrite !slotAfter_cons. unfold slotAfter. cbn [foldl].
  unfold slotAfterFrame at 1.
  cbn [twoHandsFrame multiHandLandmarks lookup list_lookup mbind option_bind].
  rewrite (rawInput_pinchedHand 0.3) by lra.
  rewrite filter_smoothedPinch.
  unfold slotAfterFrame at 1. cbn [noHandsFrame multiHandLandmarks Slot.initial
                                   Slot.smoothedPinch].
  unfold smoothPinch, PINCH_SMOOTHING. lra.
Defined.

(** ** The message window: the pull effect *)

Lemma normalizedPull_bounds m : 0 <= MessageWindow.normalizedPull m <= 1.
Proof.
  unfold MessageWindow.normalizedPull, Rmin, Rmax.
  repeat destruct (Rle_dec _ _); lra.
Qed.

Lemma normalizedPull_mono m m' :
  m <= m' → MessageWindow.normalizedPull m <= MessageWindow.normalizedPull m'.
Proof.
  intros Hle. unfold MessageWindow.normalizedPull.
  unfold MessageWindow.PULL_SCALE_MAX, MessageWindow.PULL_SCALE_MIN.
  assert (Hx : (m - 0.15) / (0.5 - 0.15) <= (m' - 0.15) / (0.5 - 0.15))
    by (apply Rmult_le_compat_r; [|lra]; left; apply Rinv_0_lt_compat; lra).
  unfold Rmin, Rmax. repeat destruct (Rle_dec _ _); lra.
Qed.

(** The normalized pull exceeds 0.3, the point at which an opening window
    becomes open, exactly when the pull exceeds 0.255. *)
Lemma normalizedPull_opens m : MessageWindow.normalizedPull m > 0.3 ↔ m > 0.255.
Proof.
  unfold MessageWindow.normalizedPull.
  unfold MessageWindow.PULL_SCALE_MAX, MessageWindow.PULL_SCALE_MIN.
  assert (Hx : (m - 0.15) / (0.5 - 0.15) > 0.3 ↔ m > 0.255).
  { split; intros H.
    - apply (Rmult_lt_compat_r (0.5 - 0.15)) in H; [|lra].
      unfold Rdiv in H. rewrite Rmult_assoc, Rinv_l in H by lra. lra.
    - apply (Rmult_lt_reg_r (0.5 - 0.15)); [lra|].
      unfold Rdiv. rewrite Rmult_assoc, Rinv_l by lra. lra. }
  unfold Rmin, Rmax. repeat destruct (Rle_dec _ _); lra.
Qed.

Lemma normalizedPull_positive m : m > 0.15 → 0 < MessageWindow.normalizedPull m.
Proof.
  intros Hm. unfold MessageWindow.normalizedPull.
  unfold MessageWindow.PULL_SCALE_MAX, MessageWindow.PULL_SCALE_MIN.
  assert (Hx : 0 < (m - 0.15) / (0.5 - 0.15))
    by (apply Rmult_lt_0_compat; [lra|apply Rinv_0_lt_compat; lra]).
  unfold Rmin, Rmax. repeat destruct (Rle_dec _ _); lra.
Qed.

(** Case analysis of one run of the effect. *)
Ltac run_pullEffect t r isOpen isOpening :=
  unfold MessageWindow.pullEffect;
  destruct (isPulling t), (MessageWindow.wasPullingRef r), isOpen, isOpening;
  cbn [andb negb app fst snd];
  repeat match goal with
  | |- context [bool_decide ?P && bool_decide ?Q] =>
      destruct (bool_decide P && bool_decide Q); cbn [andb negb app fst snd]
  | |- context [bool_decide (MessageWindow.normalizedPull ?m > 0.3)] =>
      let H := fresh "Hopens" in
      destruct (bool_decide_reflect (MessageWindow.normalizedPull m > 0.3)) as [H|H];
      cbn [andb negb app fst snd]
  end;
  cbn [MessageWindow.maxPullDistanceRef MessageWindow.prevSizeRef fst snd].

(** Whatever the gesture and the refs, every size the effect gives to
    [setWindowSize] is within 320..720 by 200..480, is the size kept in
    [prevSizeRef] and the size of the largest pull of the gesture so far, and
    every pulse intensity is within 0..1. *)
Theorem window_size_stays_within_its_bounds t isOpen isOpening now r :
  Forall (λ action,
      match action with
      | MessageWindow.setWindowSize size =>
          MessageWindow.MIN_WINDOW_WIDTH <= MessageWindow.width size
            <= MessageWindow.MAX_WINDOW_WIDTH ∧
          MessageWindow.MIN_WINDOW_HEIGHT <= MessageWindow.height size
            <= MessageWindow.MAX_WINDOW_HEIGHT ∧
          size = MessageWindow.prevSizeRef
                   (MessageWindow.pullEffect t isOpen isOpening now r).1 ∧
          size = MessageWindow.sizeFor
                   (MessageWindow.maxPullDistanceRef
                      (MessageWindow.pullEffect t isOpen isOpening now r).1)
      | MessageWindow.setPulseIntensity intensity => 0 <= intensity <= 1
      | _ => True
      end)
    (MessageWindow.pullEffect t isOpen isOpening now r).2.
Proof.
  assert (Hsize : ∀ m,
            MessageWindow.MIN_WINDOW_WIDTH <=
              MessageWindow.MIN_WINDOW_WIDTH +
              (MessageWindow.MAX_WINDOW_WIDTH - MessageWindow.MIN_WINDOW_WIDTH) *
              MessageWindow.normalizedPull m <= MessageWindow.MAX_WINDOW_WIDTH ∧
            MessageWindow.MIN_WINDOW_HEIGHT <=
              MessageWindow.MIN_WINDOW_HEIGHT +
              (MessageWindow.MAX_WINDOW_HEIGHT - MessageWindow.MIN_WINDOW_HEIGHT) *
              MessageWindow.normalizedPull m <= MessageWindow.MAX_WINDOW_HEIGHT).
  { intros m. pose proof (normalizedPull_bounds m).
    unfold MessageWindow.MIN_WINDOW_WIDTH, MessageWindow.MAX_WINDOW_WIDTH,
      MessageWindow.MIN_WINDOW_HEIGHT, MessageWindow.MAX_WINDOW_HEIGHT. lra. }
  run_pullEffect t r isOpen isOpening;
    repeat (apply Forall_cons; split); try apply Forall_nil; try done;
    try apply normalizedPull_bounds; try lra;
    (split; [apply Hsize|split; [apply Hsize|done]]).
Qed.

(** While the window is open the effect never closes it and never lets it
    shrink: the largest pull kept in the ref does not decrease (a new pull
    does not reset it), every requested size is at least the size of that
    largest pull, and neither [setIsOpen] nor [setIsOpening] is called. *)
Theorem open_window_never_shrinks t now r :
  let result := MessageWindow.pullEffect t true false now r in
  MessageWindow.maxPullDistanceRef r <= MessageWindow.maxPullDistanceRef result.1 ∧
  Forall (λ action,
      match action with
      | MessageWindow.setWindowSize size =>
          MessageWindow.width (MessageWindow.sizeFor (MessageWindow.maxPullDistanceRef r))
            <= MessageWindow.width size ∧
          MessageWindow.height (MessageWindow.sizeFor (MessageWindow.maxPullDistanceRef r))
            <= MessageWindow.height size
      | MessageWindow.setIsOpen _ | MessageWindow.setIsOpening _ => False
      | _ => True
      end) result.2.
Proof.
  cbv zeta.
  assert (Hmono : ∀ m m', m <= m' →
            MessageWindow.width (MessageWindow.sizeFor m) <=
              MessageWindow.MIN_WINDOW_WIDTH +
              (MessageWindow.MAX_WINDOW_WIDTH - MessageWindow.MIN_WINDOW_WIDTH) *
              MessageWindow.normalizedPull m' ∧
            MessageWindow.height (MessageWindow.sizeFor m) <=
              MessageWindow.MIN_WINDOW_HEIGHT +
              (MessageWindow.MAX_WINDOW_HEIGHT - MessageWindow.MIN_WINDOW_HEIGHT) *
              MessageWindow.normalizedPull m').
  { intros m m' Hle. pose proof (normalizedPull_mono m m' Hle).
    unfold MessageWindow.sizeFor. cbn [MessageWindow.width MessageWindow.height].
    unfold MessageWindow.MIN_WINDOW_WIDTH, MessageWindow.MAX_WINDOW_WIDTH,
      MessageWindow.MIN_WINDOW_HEIGHT, MessageWindow.MAX_WINDOW_HEIGHT. lra. }
  pose proof (Rmax_l (MessageWindow.maxPullDistanceRef r) (pullDistance t)) as Hmax.
  unfold MessageWindow.pullEffect;
    destruct (isPulling t), (MessageWindow.wasPullingRef r);
    cbn [andb negb app fst snd];
    repeat match goal with
    | |- context [bool_decide ?P && bool_decide ?Q] =>
        destruct (bool_decide P && bool_decide Q); cbn [andb negb app fst snd]
    end;
    cbn [MessageWindow.maxPullDistanceRef fst snd];
    (split; [first [done | lra]|]);
    repeat (apply Forall_cons; split); try apply Forall_nil; try done;
    by apply Hmono.
Qed.

(** The effect begins to open the window exactly when a pull starts while the
    window is neither open nor opening, and makes it open exactly when it is
    opening and the largest pull of the gesture exceeds 0.255; so a window is
    never opened by the run of the effect that begins to open it. *)
Theorem window_opens_beyond_a_pull_of_0_255 t isOpen isOpening now r :
  let actions := (MessageWindow.pullEffect t isOpen isOpening now r).2 in
  (MessageWindow.setIsOpening true ∈ actions ↔
     isPulling t = true ∧ MessageWindow.wasPullingRef r = false ∧
     isOpen = false ∧ isOpening = false) ∧
  (MessageWindow.setIsOpen true ∈ actions ↔
     isPulling t = true ∧ isOpening = true ∧
     Rmax (MessageWindow.maxPullDistanceRef r) (pullDistance t) > 0.255) ∧
  ¬ (MessageWindow.setIsOpening true ∈ actions ∧ MessageWindow.setIsOpen true ∈ actions).
Proof.
  cbv zeta.
  run_pullEffect t r isOpen isOpening;
    rewrite ?normalizedPull_opens in *;
    rewrite ?elem_of_cons, ?elem_of_nil;
    (split;
     [split; intros; destruct_and?; destruct_or?;
        try discriminate; try done; try lra; auto 10
     |split;
      [split; intros; destruct_and?; destruct_or?;
         try discriminate; try done; try lra; auto 10
      |intros [Hopening Hopen]; destruct_or?; try discriminate; done]]).
Qed.

(** ** From the hands to the window *)

Lemma latestTwoHandGesture_homeAfter (calls : list Emission) :
  latestTwoHandGesture (foldr handleEmission initialHome calls) = noTwoHandGesture ∨
  onTwoHandGestureUpdate (latestTwoHandGesture (foldr handleEmission initialHome calls))
    ∈ calls.
Proof.
  induction calls as [|e calls IH]; [by left|].
  destruct e as [g|t]; cbn.
  - destruct IH as [IH|IH]; [by left|]. right. by right.
  - right. left.
Qed.

Lemma rawInput_touching_tips (tip : HandLandmark) :
  rawInput (hand tip tip) = Some (0, tipCenter tip tip).
Proof.
  unfold rawInput, hand. cbn. do 2 f_equal. unfold tipDistance.
  replace (_ + _ + _) with 0 by ring. apply sqrt_0.
Qed.

Lemma smoothPosition_fixed prev c :
  prev = None ∨ prev = Some c → smoothPosition prev c = c.
Proof.
  intros [-> | ->]; [done|]. destruct c as [x y z].
  unfold smoothPosition, POSITION_SMOOTHING. cbn. f_equal; lra.
Qed.

(** Six frames of touching finger tips on a new slot: the grab is committed
    and the position is the anchor of the hand. *)
Lemma closing_slot c p :
  slotIs p 1 false None 0 → Slot.smoothedPosition p = None →
  let q := Nat.iter 6 (filter 0 c) p in
  Slot.wasGrabbing q = true ∧ Slot.smoothedPosition q = Some (centered c).
Proof.
  intros Hp Hposition. cbn [Nat.iter nat_rect]. split.
  - assert (Hq : slotIs (filter 0 c (filter 0 c (filter 0 c (filter 0 c (filter 0 c
                   (filter 0 c p)))))) 0.015625 true None 0); [|by destruct Hq as (_ & ? & _)].
    apply (slotIs_below_commit _ _ _ 0.03125 _ 1%nat); [|lia|lra|lra].
    apply (slotIs_below_first _ _ _ 0.0625 _ None 0%nat); [|lra|lra|done].
    apply (slotIs_above _ _ _ 0.125 _ None 0%nat); [|lra|lra].
    apply (slotIs_above _ _ _ 0.25 _ None 0%nat); [|lra|lra].
    apply (slotIs_above _ _ _ 0.5 _ None 0%nat); [|lra|lra].
    apply (slotIs_above _ _ _ 1 _ None 0%nat); [|lra|lra]. done.
  - rewrite !filter_smoothedPosition, Hposition.
    rewrite (smoothPosition_fixed None) by auto.
    by rewrite !(smoothPosition_fixed (Some (centered c)) (centered c)) by auto.
Qed.

Lemma pullingFrame_step s :
  let cR := tipCenter (Point3.mk 0.2 0.5 0) (Point3.mk 0.2 0.5 0) in
  let cL := tipCenter (Point3.mk 0.8 0.5 0) (Point3.mk 0.8 0.5 0) in
  let s' := stateAfter (onResults true pullingFrame s) in
  slot 0 s' = filter 0 cR (slot 0 s) ∧ slot 1 s' = filter 0 cL (slot 1 s) ∧
  twoHandGesture s' =
    newTwoHandGesture (Some (slotGesture (slot 0 s'))) (Some (slotGesture (slot 1 s')))
      (Some "Right"%string) (Some "Left"%string) ∧
  latestTwoHandGesture (homeAfter s') = twoHandGesture s'.
Proof.
  intros cR cL s'.
  destruct (onResults_complete_hands pullingFrame _ _ s eq_refl)
    as (s1 & Hrun & Hslots & _ & _ & _ & Htwo & Hcalls).
  { repeat constructor; unfold hand; cbn; lia. }
  subst s'. rewrite Hrun. cbn [stateAfter].
  split; [apply (Hslots 0%nat _ _ _ eq_refl (rawInput_touching_tips _))|].
  split; [apply (Hslots 1%nat _ _ _ eq_refl (rawInput_touching_tips _))|].
  split; [exact Htwo|].
  unfold homeAfter. by rewrite Hcalls.
Qed.

Lemma pullingFrames_slots n s :
  let cR := tipCenter (Point3.mk 0.2 0.5 0) (Point3.mk 0.2 0.5 0) in
  let cL := tipCenter (Point3.mk 0.8 0.5 0) (Point3.mk 0.8 0.5 0) in
  let s' := afterFrames true (replicate (S n) pullingFrame) s in
  slot 0 s' = Nat.iter (S n) (filter 0 cR) (slot 0 s) ∧
  slot 1 s' = Nat.iter (S n) (filter 0 cL) (slot 1 s) ∧
  twoHandGesture s' =
    newTwoHandGesture (Some (slotGesture (slot 0 s'))) (Some (slotGesture (slot 1 s')))
      (Some "Right"%string) (Some "Left"%string) ∧
  latestTwoHandGesture (homeAfter s') = twoHandGesture s'.
Proof.
  cbv zeta. revert s. induction n as [|n IH]; intros s.
  - cbn [replicate]. rewrite afterFrames_cons, afterFrames_nil.
    apply pullingFrame_step.
  - change (replicate (S (S n)) pullingFrame)
      with (pullingFrame :: replicate (S n) pullingFrame).
    rewrite afterFrames_cons.
    destruct (pullingFrame_step s) as (H0 & H1 & _).
    destruct (IH (stateAfter (onResults true pullingFrame s))) as (IH0 & IH1 & IH2 & IH3).
    rewrite H0 in IH0. rewrite H1 in IH1.
    rewrite (Nat.iter_succ_r (S n)). rewrite (Nat.iter_succ_r (S n) (filter 0 _)).
    done.
Qed.

(** Two hands held 1.2 apart with touching finger tips: after six frames the
    page holds a two-hand gesture that pulls. *)
Lemma pullingFrames_pull :
  isPulling (latestTwoHandGesture
               (homeAfter (afterFrames true (replicate 6 pullingFrame) initialHook))) = true.
Proof.
  destruct (pullingFrames_slots 5 initialHook) as (H0 & H1 & Htwo & ->).
  rewrite !slot_initialHook in H0, H1.
  destruct (closing_slot (tipCenter (Point3.mk 0.2 0.5 0) (Point3.mk 0.2 0.5 0))
              Slot.initial slotIs_initial eq_refl) as [Hgrab0 Hposition0].
  destruct (closing_slot (tipCenter (Point3.mk 0.8 0.5 0) (Point3.mk 0.8 0.5 0))
              Slot.initial slotIs_initial eq_refl) as [Hgrab1 Hposition1].
  rewrite <- H0 in Hgrab0, Hposition0. rewrite <- H1 in Hgrab1, Hposition1.
  rewrite Htwo.
  set (s := afterFrames true (replicate 6 pullingFrame) initialHook) in *. clearbody s.
  destruct (slot 0 s) as [position0 pinch0 grab0 pending0 counter0].
  destruct (slot 1 s) as [position1 pinch1 grab1 pending1 counter1].
  cbn in Hgrab0, Hposition0, Hgrab1, Hposition1. subst.
  unfold newTwoHandGesture. decide_labels. cbn.
  apply bool_decide_eq_true_2. unfold MIN_PULL_DISTANCE.
  replace (_ * _ + _ * _) with (1.2 * 1.2) by lra.
  rewrite sqrt_square by lra. lra.
Qed.

(** ** The pull gate, from the frames to the emitted gesture *)

(** Two hands with a position and labels that cannot clash fill both roles,
    and the gate is decided by them. *)
Lemma newTwoHandGesture_two_hands (h0 h1 : GestureState) p0 p1
    (handedness0 handedness1 : option string) :
  handPosition h0 = Some p0 → handPosition h1 = Some p1 →
  distinctRoles handedness0 handedness1 →
  let t := newTwoHandGesture (Some h0) (Some h1) handedness0 handedness1 in
  ((leftHand t = Some h0 ∧ rightHand t = Some h1) ∨
   (leftHand t = Some h1 ∧ rightHand t = Some h0)) ∧
  pullDistance t =
    sqrt ((Point3.x p1 - Point3.x p0)² + (Point3.y p1 - Point3.y p0)²) ∧
  bothPinching t = isGrabbing h0 && isGrabbing h1 ∧
  (isPulling t = true ↔
     isGrabbing h0 = true ∧ isGrabbing h1 = true ∧ pullDistance t > 0.15).
Proof.
  intros Hp0 Hp1 Hroles.
  destruct h0 as [b0 o0 d0 c0], h1 as [b1 o1 d1 c1]. cbn in Hp0, Hp1. subst.
  unfold newTwoHandGesture.
  destruct Hroles as [[-> HL1]|[[-> HR1]|(HL0 & HR0 & HL1 & HR1)]];
    decide_labels; cbn;
    repeat case_bool_decide; cbn;
    (split; [auto|]); (split; [f_equal; unfold Rsqr; ring|]);
    (split; [by destruct b0, b1|]);
    rewrite ?andb_true_iff, ?bool_decide_eq_true; unfold MIN_PULL_DISTANCE;
    tauto.
Qed.

(** Two hands held 1.2 apart with touching finger tips: the state after six
    frames. *)
Lemma pullingFrames_gesture :
  let t := twoHandGesture (afterFrames true (replicate 6 pullingFrame) initialHook) in
  isPulling t = true ∧ pullDistance t = 1.2 ∧
  ∃ l r, leftHand t = Some l ∧ rightHand t = Some r ∧
         isGrabbing l = true ∧ isGrabbing r = true ∧
         handPosition l = Some (Point3.mk (-0.6) 0 0) ∧
         handPosition r = Some (Point3.mk 0.6 0 0).
Proof.
  cbv zeta.
  destruct (pullingFrames_slots 5 initialHook) as (H0 & H1 & Htwo & _).
  rewrite !slot_initialHook in H0, H1.
  destruct (closing_slot (tipCenter (Point3.mk 0.2 0.5 0) (Point3.mk 0.2 0.5 0))
              Slot.initial slotIs_initial eq_refl) as [Hgrab0 Hposition0].
  destruct (closing_slot (tipCenter (Point3.mk 0.8 0.5 0) (Point3.mk 0.8 0.5 0))
              Slot.initial slotIs_initial eq_refl) as [Hgrab1 Hposition1].
  rewrite <- H0 in Hgrab0, Hposition0. rewrite <- H1 in Hgrab1, Hposition1.
  rewrite Htwo.
  set (s := afterFrames true (replicate 6 pullingFrame) initialHook) in *. clearbody s.
  destruct (slot 0 s) as [position0 pinch0 grab0 pending0 counter0].
  destruct (slot 1 s) as [position1 pinch1 grab1 pending1 counter1].
  cbn in Hgrab0, Hposition0, Hgrab1, Hposition1. subst.
  unfold newTwoHandGesture. decide_labels. cbn.
  assert (Hdistance : sqrt ((- ((0.2 + 0.2) / 2 * 2 - 1) - - ((0.8 + 0.8) / 2 * 2 - 1)) *
                            (- ((0.2 + 0.2) / 2 * 2 - 1) - - ((0.8 + 0.8) / 2 * 2 - 1)) +
                            (- ((0.5 + 0.5) / 2 * 2 - 1) - - ((0.5 + 0.5) / 2 * 2 - 1)) *
                            (- ((0.5 + 0.5) / 2 * 2 - 1) - - ((0.5 + 0.5) / 2 * 2 - 1))) =
                      1.2).
  { replace (_ * _ + _ * _) with (1.2 * 1.2) by lra. apply sqrt_square. lra. }
  rewrite Hdistance.
  split; [apply bool_decide_eq_true_2; unfold MIN_PULL_DISTANCE; lra|].
  split; [done|].
  eexists _, _. repeat split; try reflexivity;
    unfold centered, tipCenter; cbn; f_equal; f_equal; lra.
Qed.

(** C5. Pull gate.  In every [TwoHandGestureState] emitted over any stream
    of frames (the value held by the hook or passed to the callback),
    [pullDistance] is the Euclidean distance of the left and right smoothed
    positions in the (x, y) plane when both are non-null and 0 otherwise, and
    [isPulling] is true exactly when both assigned hands report
    [isGrabbing = true] and [pullDistance] exceeds 0.15; in particular it is
    false when either hand is absent.  The assigned hands are those of the
    frame: for a frame of two complete hands whose labels cannot claim the
    same role, the two roles of the emitted gesture hold the two gestures
    that the per-hand filter returns for the hands of the frame,
    [pullDistance] is the distance of their two positions in the (x, y)
    plane and [isPulling] is true exactly when both of them grab and that
    distance exceeds 0.15. *)
Theorem pull_gate :
  (∀ canvas (frames : list Results) (g : TwoHandGestureState),
     g = twoHandGesture (afterFrames canvas frames initialHook) ∨
     onTwoHandGestureUpdate g ∈ callbacks (afterFrames canvas frames initialHook) →
     pullDistance g =
       match leftHand g ≫= handPosition, rightHand g ≫= handPosition with
       | Some l, Some r =>
           sqrt ((Point3.x r - Point3.x l)² + (Point3.y r - Point3.y l)²)
       | _, _ => 0
       end ∧
     (isPulling g = true ↔
        (∃ l r, leftHand g = Some l ∧ rightHand g = Some r ∧
                isGrabbing l = true ∧ isGrabbing r = true) ∧
        pullDistance g > 0.15) ∧
     (leftHand g = None ∨ rightHand g = None → isPulling g = false)) ∧
  (∀ results (landmarks0 landmarks1 : list HandLandmark) s,
     multiHandLandmarks results = Some [landmarks0; landmarks1] →
     (21 ≤ length landmarks0)%nat → (21 ≤ length landmarks1)%nat →
     distinctRoles (label <$> (multiHandedness results ≫= (.!! 0%nat)))
                   (label <$> (multiHandedness results ≫= (.!! 1%nat))) →
     ∃ g0 g1 p0 p1 s0 s1 s',
       processHandLandmarks landmarks0 0 s = Returned g0 s0 ∧
       processHandLandmarks landmarks1 1 s = Returned g1 s1 ∧
       handPosition g0 = Some p0 ∧ handPosition g1 = Some p1 ∧
       onResults true results s = Returned tt s' ∧
       let t := twoHandGesture s' in
       callbacks s' =
         onTwoHandGestureUpdate t :: onGestureUpdate (gesture s') :: callbacks s ∧
       ((leftHand t = Some g0 ∧ rightHand t = Some g1) ∨
        (leftHand t = Some g1 ∧ rightHand t = Some g0)) ∧
       pullDistance t =
         sqrt ((Point3.x p1 - Point3.x p0)² + (Point3.y p1 - Point3.y p0)²) ∧
       (isPulling t = true ↔
          isGrabbing g0 = true ∧ isGrabbing g1 = true ∧ pullDistance t > 0.15)).
Proof.
  split.
  - intros canvas frames g Hg.
    assert (Hgate : pullGate g).
    { destruct (pullGateEverywhere_afterFrames canvas frames) as [Hstate Hcalls].
      destruct Hg as [-> | Hg]; auto. }
    destruct Hgate as [Hdist Hpull]. split; [done|]. split; [done|].
    intros Habsent. destruct (isPulling g); [|done].
    destruct (proj1 Hpull eq_refl) as [(l & r & Hl & Hr & _) _].
    destruct Habsent; congruence.
  - intros results landmarks0 landmarks1 s Hhands Hlen0 Hlen1 Hroles.
    destruct (rawInput_complete landmarks0 Hlen0) as (d0 & c0 & Hraw0).
    destruct (rawInput_complete landmarks1 Hlen1) as (d1 & c1 & Hraw1).
    pose proof (processHandLandmarks_rawInput landmarks0 0 s) as Hrun0.
    pose proof (processHandLandmarks_rawInput landmarks1 1 s) as Hrun1.
    rewrite Hraw0 in Hrun0. rewrite Hraw1 in Hrun1.
    destruct (onResults_complete_hands results landmarks0 [landmarks1] s Hhands)
      as (s' & Hrun & Hslots & _ & _ & _ & Htwo & Hcalls).
    { by repeat constructor. }
    pose proof (Hslots 0%nat landmarks0 d0 c0 eq_refl Hraw0) as Hslot0.
    pose proof (Hslots 1%nat landmarks1 d1 c1 eq_refl Hraw1) as Hslot1.
    rewrite Hslot0, Hslot1 in Htwo. cbn [lookup list_lookup fmap option_fmap option_map
                                         mbind option_bind] in Htwo.
    eexists _, _, _, _, _, _, s'.
    split; [exact Hrun0|]. split; [exact Hrun1|].
    split; [cbn; apply filter_smoothedPosition|].
    split; [cbn; apply filter_smoothedPosition|].
    split; [exact Hrun|]. cbv zeta. split; [exact Hcalls|].
    rewrite Htwo.
    destruct (newTwoHandGesture_two_hands
                (slotGesture (filter d0 c0 (slot 0 s)))
                (slotGesture (filter d1 c1 (slot 1 s)))
                (smoothPosition (Slot.smoothedPosition (slot 0 s)) (centered c0))
                (smoothPosition (Slot.smoothedPosition (slot 1 s)) (centered c1))
                (label <$> (multiHandedness results ≫= (.!! 0%nat)))
                (label <$> (multiHandedness results ≫= (.!! 1%nat))))
      as (Hassigned & Hdistance & _ & Hpull);
      [cbn; apply filter_smoothedPosition|cbn; apply filter_smoothedPosition|done|].
    done.
Qed.

(** Two hands with touching finger tips held about 1.2 apart for six
    frames: the gesture the hook then holds pulls, its two roles hold
    grabbing hands and its [pullDistance] is the distance of their positions
    in the (x, y) plane, between 1.1 and 1.3; the two roles hold the gestures
    the per-hand filter returns for the sixth frame. *)
Lemma pull_gate_witness :
  let s5 := afterFrames true (replicate 5 pullingFrame) initialHook in
  let g := twoHandGesture (afterFrames true (replicate 6 pullingFrame) initialHook) in
  isPulling g = true ∧ 1.1 < pullDistance g < 1.3 ∧ pullDistance g > 0.15 ∧
  pullDistance g =
    match leftHand g ≫= handPosition, rightHand g ≫= handPosition with
    | Some l, Some r =>
        sqrt ((Point3.x r - Point3.x l)² + (Point3.y r - Point3.y l)²)
    | _, _ => 0
    end ∧
  (∃ l r, leftHand g = Some l ∧ rightHand g = Some r ∧
          isGrabbing l = true ∧ isGrabbing r = true) ∧
  (∃ g0 g1 s0 s1,
     processHandLandmarks (hand (Point3.mk 0.2 0.5 0) (Point3.mk 0.2 0.5 0)) 0 s5 =
       Returned g0 s0 ∧
     processHandLandmarks (hand (Point3.mk 0.8 0.5 0) (Point3.mk 0.8 0.5 0)) 1 s5 =
       Returned g1 s1 ∧
     ((leftHand g = Some g0 ∧ rightHand g = Some g1) ∨
      (leftHand g = Some g1 ∧ rightHand g = Some g0)) ∧
     isGrabbing g0 = true ∧ isGrabbing g1 = true).
Proof.
  intros s5 g.
  destruct pull_gate as [Hstream Hframe].
  destruct pullingFrames_gesture as (Hpull & Hdistance & l & r & Hl & Hr & _).
  fold g in Hpull, Hdistance, Hl, Hr.
  destruct (Hstream true (replicate 6 pullingFrame) g (or_introl eq_refl))
    as (Hformula & Hiff & _).
  destruct (proj1 Hiff Hpull) as [Hhands Hfar].
  split; [done|]. split; [rewrite Hdistance; lra|]. split; [done|].
  split; [done|]. split; [done|].
  destruct (Hframe pullingFrame _ _ s5 eq_refl) as
    (g0 & g1 & p0 & p1 & s0 & s1 & s' & Hrun0 & Hrun1 & _ & _ & Hrun & Hgate).
  { unfold hand. cbn. lia. }
  { unfold hand. cbn. lia. }
  { right. left. split; [reflexivity|discriminate]. }
  cbv zeta in Hgate.
  assert (Hs' : afterFrames true (replicate 6 pullingFrame) initialHook = s').
  { change (replicate 6 pullingFrame) with (replicate 5 pullingFrame ++ [pullingFrame]).
    rewrite afterFrames_app, afterFrames_cons, afterFrames_nil. fold s5.
    by rewrite Hrun. }
  rewrite <- Hs' in Hgate. fold g in Hgate.
  destruct Hgate as (_ & Hassigned & _ & Hpulls).
  destruct (proj1 Hpulls Hpull) as (Hg0 & Hg1 & _).
  exists g0, g1, s0, s1. split; [done|]. split; [done|]. done.
Defined.

(** ** The window is sized by a real pull *)

(** Every size the message window is given comes from a real pull: over
    every stream of frames, when the effect run on the two-hand gesture held
    by the page calls [setWindowSize], both roles of the gesture are filled
    with grabbing hands more than 0.15 apart, and the size is strictly larger
    than 320 by 200. *)
Theorem window_is_sized_by_a_real_pull canvas (frames : list Results)
    isOpen isOpening now r size :
  let t := latestTwoHandGesture (homeAfter (afterFrames canvas frames initialHook)) in
  MessageWindow.setWindowSize size ∈ (MessageWindow.pullEffect t isOpen isOpening now r).2 →
  (∃ l r, leftHand t = Some l ∧ rightHand t = Some r ∧
          isGrabbing l = true ∧ isGrabbing r = true) ∧
  pullDistance t > 0.15 ∧
  MessageWindow.MIN_WINDOW_WIDTH < MessageWindow.width size ∧
  MessageWindow.MIN_WINDOW_HEIGHT < MessageWindow.height size.
Proof.
  intros t.
  assert (Hgate : pullGate t).
  { subst t. unfold homeAfter.
    destruct (latestTwoHandGesture_homeAfter
                (callbacks (afterFrames canvas frames initialHook))) as [->|Hin].
    - apply pullGate_noTwoHandGesture.
    - by apply (pullGateEverywhere_afterFrames canvas frames). }
  clearbody t. destruct Hgate as [_ Hgate].
  assert (Hsize : ∀ m,
            isPulling t = true →
            MessageWindow.MIN_WINDOW_WIDTH <
              MessageWindow.MIN_WINDOW_WIDTH +
              (MessageWindow.MAX_WINDOW_WIDTH - MessageWindow.MIN_WINDOW_WIDTH) *
              MessageWindow.normalizedPull (Rmax m (pullDistance t)) ∧
            MessageWindow.MIN_WINDOW_HEIGHT <
              MessageWindow.MIN_WINDOW_HEIGHT +
              (MessageWindow.MAX_WINDOW_HEIGHT - MessageWindow.MIN_WINDOW_HEIGHT) *
              MessageWindow.normalizedPull (Rmax m (pullDistance t))).
  { intros m Hpull. apply Hgate in Hpull as [_ Hfar].
    pose proof (Rmax_r m (pullDistance t)).
    pose proof (normalizedPull_positive (Rmax m (pullDistance t))).
    unfold MessageWindow.MIN_WINDOW_WIDTH, MessageWindow.MAX_WINDOW_WIDTH,
      MessageWindow.MIN_WINDOW_HEIGHT, MessageWindow.MAX_WINDOW_HEIGHT. nra. }
  unfold MessageWindow.pullEffect.
  destruct (isPulling t) eqn:Hpull.
  - destruct (proj1 Hgate eq_refl) as [Hhands Hfar].
    intros Hin. split; [done|]. split; [done|].
    revert Hin.
    destruct (MessageWindow.wasPullingRef r), isOpen, isOpening;
      cbn [andb negb app fst snd];
      repeat match goal with
      | |- context [bool_decide ?P && bool_decide ?Q] =>
          destruct (bool_decide P && bool_decide Q); cbn [andb negb app fst snd]
      | |- context [bool_decide (MessageWindow.normalizedPull ?m > 0.3)] =>
          destruct (bool_decide (MessageWindow.normalizedPull m > 0.3));
          cbn [andb negb app fst snd]
      end;
      rewrite ?elem_of_cons, ?elem_of_nil; intros Hin; destruct_or?;
      try discriminate; try done;
      injection Hin as ->; by apply Hsize.
  - destruct (MessageWindow.wasPullingRef r), isOpen, isOpening;
      cbn [andb negb app fst snd];
      rewrite ?elem_of_cons, ?elem_of_nil; intros Hin; destruct_or?;
      try discriminate; done.
Qed.

Lemma pullEffect_starts t now :
  isPulling t = true →
  ∃ size, MessageWindow.setWindowSize size ∈
            (MessageWindow.pullEffect t false false now MessageWindow.initialRefs).2.
Proof.
  intros Hpull. unfold MessageWindow.pullEffect. rewrite Hpull.
  cbn [andb negb app fst snd MessageWindow.wasPullingRef MessageWindow.initialRefs].
  match goal with
  | |- context [bool_decide ?P && bool_decide ?Q] =>
      destruct (bool_decide P && bool_decide Q)
  end;
    cbn [andb negb app fst snd]; eexists; rewrite !elem_of_cons; auto 10.
Qed.

Lemma window_is_sized_by_a_real_pull_witness :
  ∃ size,
    MessageWindow.setWindowSize size ∈
      (MessageWindow.pullEffect
         (latestTwoHandGesture
            (homeAfter (afterFrames true (replicate 6 pullingFrame) initialHook)))
         false false 0 MessageWindow.initialRefs).2 ∧
    MessageWindow.MIN_WINDOW_WIDTH < MessageWindow.width size ∧
    MessageWindow.MIN_WINDOW_HEIGHT < MessageWindow.height size.
Proof.
  destruct (pullEffect_starts _ 0 pullingFrames_pull) as [size Hin].
  exists size. split; [exact Hin|].
  destruct (window_is_sized_by_a_real_pull true (replicate 6 pullingFrame)
              false false 0 MessageWindow.initialRefs size Hin) as (_ & _ & Hsize).
  exact Hsize.
Defined.

(** ** The menu: pinches and toggles *)

(** The pinch effect of the menu acts only on the frame at which a grab
    begins and only when at least 300 ms have passed since the last action;
    it then stamps the time.  The committed grab is recorded in every run,
    also in one that the debounce discards: a pinch made too early is lost,
    and holding it does nothing in any later run. *)
Theorem menu_toggles_on_a_new_pinch_after_300_ms gesture isOpen hoveringOption
    isHovering now r :
  let result := HamburgerMenu.pinchEffect gesture isOpen hoveringOption isHovering now r in
  HamburgerMenu.wasGrabbingRef result.1 = isGrabbing gesture ∧
  (result.2 ≠ [] →
     isGrabbing gesture = true ∧ HamburgerMenu.wasGrabbingRef r = false ∧
     now - HamburgerMenu.lastToggleTimeRef r >= 300 ∧
     HamburgerMenu.lastToggleTimeRef result.1 = now) ∧
  (result.2 = [] →
     HamburgerMenu.lastToggleTimeRef result.1 = HamburgerMenu.lastToggleTimeRef r) ∧
  (∀ isOpen' hoveringOption' isHovering' now',
     isGrabbing gesture = true →
     (HamburgerMenu.pinchEffect gesture isOpen' hoveringOption' isHovering' now'
        result.1).2 = []).
Proof.
  cbv zeta. unfold HamburgerMenu.pinchEffect.
  destruct (isGrabbing gesture) eqn:Hgrab, (HamburgerMenu.wasGrabbingRef r) eqn:Hwas;
    cbn [andb negb fst snd HamburgerMenu.wasGrabbingRef];
    try (repeat split; try done; intros; done).
  case_bool_decide as Hnow; cbn [fst snd HamburgerMenu.wasGrabbingRef].
  { repeat split; try done; intros; done. }
  destruct (isOpen && HamburgerMenu.truthy hoveringOption);
    [|destruct isHovering];
    cbn [fst snd HamburgerMenu.wasGrabbingRef HamburgerMenu.lastToggleTimeRef];
    (split; [done|]);
    (split; [intros Hacts; first [done | repeat split; try done; lra]|]);
    (split; [|by intros]).
  - destruct (hoveringOption ≫= _) as [[? ?]|]; discriminate.
  - discriminate.
  - done.
Qed.

Lemma menu_toggles_on_a_new_pinch_after_300_ms_witness :
  (HamburgerMenu.pinchEffect (mkGesture true None 0.01 1) false None true 1000
     HamburgerMenu.initialRefs).2 ≠ [] ∧
  1000 - 0 >= 300.
Proof.
  assert (Hact : (HamburgerMenu.pinchEffect (mkGesture true None 0.01 1) false None true
                    1000 HamburgerMenu.initialRefs).2 ≠ []).
  { unfold HamburgerMenu.pinchEffect. cbn.
    rewrite bool_decide_eq_false_2 by lra. done. }
  split; [exact Hact|].
  destruct (menu_toggles_on_a_new_pinch_after_300_ms (mkGesture true None 0.01 1) false
              None true 1000 HamburgerMenu.initialRefs) as (_ & Hacts & _).
  by destruct (Hacts Hact) as (_ & _ & Hdebounce & _).
Defined.

(** While the menu is open and the hand is over an option, a pinch goes to
    the option and never toggles the menu, even when the hand is over the
    menu button too; a pinch toggles the menu only when the hand is over the
    button and no option takes it. *)
Theorem menu_options_take_the_pinch gesture isOpen hoveringOption isHovering now r :
  let actions :=
    (HamburgerMenu.pinchEffect gesture isOpen hoveringOption isHovering now r).2 in
  (HamburgerMenu.toggleIsOpen ∈ actions →
     isHovering = true ∧
     (isOpen = false ∨ HamburgerMenu.truthy hoveringOption = false) ∧
     actions = [HamburgerMenu.toggleIsOpen]) ∧
  (HamburgerMenu.playOptionSelect ∈ actions →
     isOpen = true ∧ HamburgerMenu.truthy hoveringOption = true) ∧
  (∀ id, HamburgerMenu.optionClicked id ∈ actions →
     hoveringOption = Some id ∧ id ∈ HamburgerMenu.menuOptions).
Proof.
  cbv zeta. unfold HamburgerMenu.pinchEffect.
  destruct (isGrabbing gesture && negb (HamburgerMenu.wasGrabbingRef r));
    cbn [negb fst snd]; [|by repeat split; intros; exfalso; eapply not_elem_of_nil].
  case_bool_decide; cbn [fst snd];
    [by repeat split; intros; exfalso; eapply not_elem_of_nil|].
  destruct isOpen, (HamburgerMenu.truthy hoveringOption) eqn:Htruthy, isHovering;
    cbn [andb fst snd];
    try (by repeat split; intros; exfalso; eapply not_elem_of_nil);
    try (split; [intros _; repeat split; auto|];
         split; [intros Hin; apply list_elem_of_singleton in Hin; discriminate|];
         intros id Hin; apply list_elem_of_singleton in Hin; discriminate).
  all: destruct hoveringOption as [id'|]; [|discriminate Htruthy]; cbn [mbind option_bind].
  all: destruct (list_find _ HamburgerMenu.menuOptions) as [[i id'']|] eqn:Hfind.
  all: split; [intros Hin; repeat (apply elem_of_cons in Hin as [Hin|Hin];
                                   [discriminate|]); by apply elem_of_nil in Hin|].
  all: split; [done|].
  all: intros id Hin; repeat (apply elem_of_cons in Hin as [Hin|Hin]);
         try discriminate; try (by apply elem_of_nil in Hin).
  all: injection Hin as ->; apply list_find_Some in Hfind as (Hlookup & -> & _).
  all: split; [done|by eapply list_elem_of_lookup_2].
Qed.

Lemma menu_options_take_the_pinch_witness :
  let actions :=
    (HamburgerMenu.pinchEffect (mkGesture true None 0.01 1) true (Some "info"%string)
       true 1000 HamburgerMenu.initialRefs).2 in
  HamburgerMenu.optionClicked "info" ∈ actions ∧ HamburgerMenu.toggleIsOpen ∉ actions.
Proof.
  cbv zeta.
  assert (Hin : HamburgerMenu.optionClicked "info" ∈
                (HamburgerMenu.pinchEffect (mkGesture true None 0.01 1) true
                   (Some "info"%string) true 1000 HamburgerMenu.initialRefs).2).
  { unfold HamburgerMenu.pinchEffect. cbn.
    rewrite bool_decide_eq_false_2 by lra. cbn. left. }
  split; [exact Hin|]. intros Htoggle.
  destruct (menu_options_take_the_pinch (mkGesture true None 0.01 1) true
              (Some "info"%string) true 1000 HamburgerMenu.initialRefs)
    as (Hbutton & _ & _).
  destruct (Hbutton Htoggle) as (_ & [Hopen|Htruthy] & _); discriminate.
Defined.

(** ** The sphere *)

Lemma depth_clamped v :
  InteractiveSphere.MIN_DEPTH <=
    Rmax InteractiveSphere.MIN_DEPTH (Rmin InteractiveSphere.MAX_DEPTH v) <=
    InteractiveSphere.MAX_DEPTH.
Proof.
  unfold InteractiveSphere.MIN_DEPTH, InteractiveSphere.MAX_DEPTH, Rmax, Rmin.
  repeat destruct (Rle_dec _ _); lra.
Qed.

(** The sphere is picked up only when a grab begins with the hand less than
    0.8 from it in the (x, y) plane of the scene, is dropped only when a
    held grab ends, moves only while it is held and the hand grabs, and its
    depth then stays within -8..4.  Without a hand position the effect does
    nothing: it does not even record that the grab has ended. *)
Theorem sphere_is_picked_up_near_the_hand gesture viewport isHeld grabOffset
    spherePos wasGrabbingRef :
  let result :=
    InteractiveSphere.gestureEffect gesture viewport isHeld grabOffset spherePos
      wasGrabbingRef in
  (handPosition gesture = None → result = (wasGrabbingRef, [])) ∧
  (InteractiveSphere.setIsHeld true ∈ result.2 →
     isGrabbing gesture = true ∧ wasGrabbingRef = false ∧
     ∃ p, handPosition gesture = Some p ∧
          sqrt ((Point3.x p * (InteractiveSphere.width viewport / 2) * 1.2
                 - Point3.x spherePos) ^ 2 +
                (Point3.y p * (InteractiveSphere.height viewport / 2) * 1.2
                 - Point3.y spherePos) ^ 2) < 0.8) ∧
  (InteractiveSphere.setIsHeld false ∈ result.2 →
     isGrabbing gesture = false ∧ wasGrabbingRef = true ∧ isHeld = true) ∧
  (∀ position, InteractiveSphere.setPosition position ∈ result.2 →
     isHeld = true ∧ isGrabbing gesture = true ∧
     InteractiveSphere.MIN_DEPTH <= Point3.z position <= InteractiveSphere.MAX_DEPTH).
Proof.
  cbv zeta. unfold InteractiveSphere.gestureEffect.
  destruct (handPosition gesture) as [p|];
    [|by repeat split; intros; exfalso; eapply not_elem_of_nil].
  split; [done|].
  destruct (isGrabbing gesture), wasGrabbingRef, isHeld; cbn [andb negb app fst snd];
    repeat case_bool_decide; cbn [app];
    rewrite ?elem_of_cons, ?elem_of_nil;
    (split; [intros Hin; destruct_or?; try discriminate; try done; eauto|]);
    (split; [intros Hin; destruct_or?; try discriminate; done|]);
    intros position; rewrite ?elem_of_cons, ?elem_of_nil;
    intros Hin; destruct_or?; try discriminate; try done;
    injection Hin as ->; (split; [done|]); (split; [done|]); apply depth_clamped.
Qed.

Lemma sphere_is_picked_up_near_the_hand_witness :
  InteractiveSphere.setIsHeld true ∈
    (InteractiveSphere.gestureEffect (mkGesture true (Some origin) 0.01 1)
       (InteractiveSphere.mkViewport 10 6) false origin origin false).2 ∧
  ∃ p, handPosition (mkGesture true (Some origin) 0.01 1) = Some p ∧
       sqrt ((Point3.x p * (10 / 2) * 1.2 - 0) ^ 2 +
             (Point3.y p * (6 / 2) * 1.2 - 0) ^ 2) < 0.8.
Proof.
  assert (Hin : InteractiveSphere.setIsHeld true ∈
            (InteractiveSphere.gestureEffect (mkGesture true (Some origin) 0.01 1)
               (InteractiveSphere.mkViewport 10 6) false origin origin false).2).
  { unfold InteractiveSphere.gestureEffect. cbn.
    rewrite bool_decide_eq_true_2; [left|].
    replace (_ + _) with 0 by lra. rewrite sqrt_0. lra. }
  split; [exact Hin|].
  destruct (sphere_is_picked_up_near_the_hand (mkGesture true (Some origin) 0.01 1)
              (InteractiveSphere.mkViewport 10 6) false origin origin false)
    as (_ & Hpick & _).
  by destruct (Hpick Hin) as (_ & _ & Hnear).
Defined.

(** The sphere and the message window each keep the largest pull of the
    gesture.  Started from the same values, they agree after a frame that
    pulls when the pull continues or the window is closed; but when a pull
    begins while the window is open or opening, the sphere restarts from 0
    and the window does not, so after a smaller pull the pieces of the sphere
    are set for a smaller window than the one shown. *)
Theorem sphere_pieces_follow_the_window t isMessageWindowVisible isOpen isOpening
    now r :
  isPulling t = true → 0 <= pullDistance t →
  let window := (MessageWindow.pullEffect t isOpen isOpening now r).1 in
  let sphere :=
    InteractiveSphere.trackPull true t isMessageWindowVisible
      (MessageWindow.wasPullingRef r) (MessageWindow.maxPullDistanceRef r) in
  (MessageWindow.wasPullingRef r = true ∨ (isOpen = false ∧ isOpening = false) →
     sphere.1.2 = MessageWindow.maxPullDistanceRef window ∧
     sphere.2 = Some (MessageWindow.normalizedPull
                        (MessageWindow.maxPullDistanceRef window))) ∧
  (MessageWindow.wasPullingRef r = false → isOpen = true ∨ isOpening = true →
   pullDistance t < MessageWindow.maxPullDistanceRef r →
     MessageWindow.maxPullDistanceRef window = MessageWindow.maxPullDistanceRef r ∧
     sphere.1.2 = pullDistance t ∧
     sphere.1.2 < MessageWindow.maxPullDistanceRef window).
Proof.
  intros Hpull Hdistance. cbv zeta.
  unfold MessageWindow.pullEffect, InteractiveSphere.trackPull. rewrite Hpull.
  destruct (MessageWindow.wasPullingRef r), isOpen, isOpening, isMessageWindowVisible;
    cbn [andb negb app fst snd];
    repeat match goal with
    | |- context [bool_decide ?P && bool_decide ?Q] =>
        destruct (bool_decide P && bool_decide Q); cbn [andb negb app fst snd]
    | |- context [bool_decide (MessageWindow.normalizedPull ?m > 0.3)] =>
        destruct (bool_decide (MessageWindow.normalizedPull m > 0.3));
        cbn [andb negb app fst snd]
    end;
    cbn [MessageWindow.maxPullDistanceRef fst snd];
    (split;
     [intros Hsame; first [done | exfalso; by destruct Hsame as [?|[? ?]]]
     |intros Hwas Hopen Hless;
      first [done
            | exfalso; by destruct Hopen
            | rewrite (Rmax_left _ _ (Rlt_le _ _ Hless)), (Rmax_right _ _ Hdistance);
              done]]).
Qed.

Lemma sphere_pieces_follow_the_window_witness :
  let t := mkTwoHand true 0.2 None None None true in
  let r := MessageWindow.mkRefs false 0.4
             (MessageWindow.mkSize 320 200) 0 0 true in
  (InteractiveSphere.trackPull true t true false 0.4).1.2 = 0.2 ∧
  MessageWindow.maxPullDistanceRef (MessageWindow.pullEffect t true false 0 r).1 = 0.4.
Proof.
  intros t r.
  assert (Hpull : isPulling t = true) by reflexivity.
  assert (Hdistance : 0 <= pullDistance t) by (cbn; lra).
  destruct (sphere_pieces_follow_the_window t true true false 0 r Hpull Hdistance)
    as [_ Hdiffer].
  destruct Hdiffer as (Hwindow & Hsphere & _); [reflexivity|by left|cbn; lra|].
  split; [exact Hsphere|exact Hwindow].
Defined.

(** ** After the hands return *)

Lemma youngSlot_initial : youngSlot 0 Slot.initial.
Proof. split; [cbn; lra|]. split; [done|]. discriminate. Qed.

Lemma youngSlot_mono n p : youngSlot n p → youngSlot (S n) p.
Proof.
  intros (Hpinch & Hwas & Hpending). split; [|done].
  assert (Hpow : 0 < 2 ^ n) by (apply pow_lt; lra).
  eapply Rle_trans; [|exact Hpinch]. cbn [pow].
  set (P := 2 ^ n) in *. clearbody P.
  apply Rmult_le_reg_r with (r := 2 * P); [lra|]. field_simplify; lra.
Qed.

Lemma youngSlot_filter n d c p :
  0 <= d → (n < 5)%nat → youngSlot n p → youngSlot (S n) (filter d c p).
Proof.
  intros Hd Hn (Hpinch & Hwas & Hpending).
  assert (Hpow : 0 < 2 ^ n) by (apply pow_lt; lra).
  assert (Hfar : ¬ Slot.smoothedPinch p < PINCH_THRESHOLD).
  { unfold PINCH_THRESHOLD. intros Hbelow.
    assert (Hsmall : 1 / 2 ^ n < 0.055) by lra.
    destruct n as [|[|[|[|[|n]]]]]; [| | | | |lia]; cbn [pow] in Hsmall; lra. }
  assert (Hno : Slot.pendingState p ≠ Some true) by (intros H; by apply Hfar, Hpending).
  destruct (filter_open d c p Hwas) as (Hpinch' & Habove & Hfirst & _).
  cbv zeta in *.
  split; [|split].
  - rewrite Hpinch'. unfold smoothPinch, PINCH_SMOOTHING. cbn [pow].
    set (P := 2 ^ n) in *. clearbody P.
    assert (Hhalf : 1 / (2 * P) <= Slot.smoothedPinch p / 2).
    { apply Rmult_le_reg_r with (r := 2 * P); [lra|].
      replace (1 / (2 * P) * (2 * P)) with 1 by (field; lra).
      apply (Rmult_le_compat_r P) in Hpinch; [|lra].
      replace (1 / P * P) with 1 in Hpinch by (field; lra). lra. }
    lra.
  - destruct (Rlt_dec (Slot.smoothedPinch (filter d c p)) PINCH_THRESHOLD) as [Hb|Hb].
    + by destruct (Hfirst Hb Hno) as (? & _).
    + by destruct (Habove Hb) as (? & _).
  - intros Hpend.
    destruct (Rlt_dec (Slot.smoothedPinch (filter d c p)) PINCH_THRESHOLD) as [Hb|Hb];
      [done|].
    destruct (Habove Hb) as (_ & Hnone & _). by rewrite Hnone in Hpend.
Qed.

Lemma youngSlots_afterFrames (frames : list Results) n s :
  (∀ results, results ∈ frames →
     ∃ hands, multiHandLandmarks results = Some hands ∧ hands ≠ [] ∧
              Forall (λ landmarks : list HandLandmark, (21 ≤ length landmarks)%nat)
                hands) →
  (n + length frames ≤ 5)%nat →
  (∀ j, youngSlot n (slot j s)) →
  let s' := afterFrames true frames s in
  (∀ j, youngSlot (n + length frames) (slot j s')) ∧
  (frames ≠ [] →
     ∀ g, leftHand (twoHandGesture s') = Some g ∨ rightHand (twoHandGesture s') = Some g →
          isGrabbing g = false).
Proof.
  cbv zeta. revert n s.
  induction frames as [|results frames IH]; intros n s Hall Hlen Hyoung.
  - cbn [length]. rewrite Nat.add_0_r. by split.
  - cbn [length] in Hlen.
    destruct (Hall results) as (hands & Hhands & Hne & Hcomplete); [by left|].
    destruct hands as [|landmarks others]; [done|].
    destruct (onResults_complete_hands results landmarks others s Hhands Hcomplete)
      as (s1 & Hrun & Hslots & Hother & _ & _ & Htwo & _).
    rewrite afterFrames_cons, Hrun. cbn [stateAfter].
    assert (Hyoung1 : ∀ j, youngSlot (S n) (slot j s1)).
    { intros j.
      destruct ((landmarks :: others) !! j) as [l|] eqn:Hl.
      - assert (Hlen' : (21 ≤ length l)%nat)
          by (by eapply (Forall_lookup_1 _ _ _ _ Hcomplete)).
        destruct (rawInput_complete l Hlen') as (d & c & Hraw).
        rewrite (Hslots j l d c Hl Hraw).
        apply youngSlot_filter; [by eapply rawInput_nonneg|lia|done].
      - rewrite Hother by (by apply lookup_ge_None_1).
        by apply youngSlot_mono. }
    destruct (IH (S n) s1) as [IHslots IHtwo];
      [intros r Hr; apply Hall; by right|lia|done|].
    cbn [length].
    replace (n + S (length frames))%nat with (S n + length frames)%nat by lia.
    split; [done|]. intros _.
    destruct frames as [|results' frames']; [|by apply IHtwo].
    rewrite afterFrames_nil. intros g Hg.
    destruct (newTwoHandGesture_derived
                (Some (slotGesture (slot 0 s1)))
                ((λ _, slotGesture (slot 1 s1)) <$> others !! 0%nat)
                (label <$> (multiHandedness results ≫= (.!! 0%nat)))
                (others !! 0%nat ≫=
                   λ _, label <$> (multiHandedness results ≫= (.!! 1%nat))))
      as (_ & Hl & Hr).
    rewrite <- Htwo in Hl, Hr.
    assert (Hhand : Some (slotGesture (slot 0 s1)) = Some g ∨
                    (λ _, slotGesture (slot 1 s1)) <$> others !! 0%nat = Some g)
      by (destruct Hg; auto).
    destruct Hhand as [[= <-]|Hhand].
    + by destruct (Hyoung1 0%nat) as (_ & ? & _).
    + destruct (others !! 0%nat); [|done]. cbn in Hhand. injection Hhand as <-.
      by destruct (Hyoung1 1%nat) as (_ & ? & _).
Qed.

Lemma bothPinching_derivedGesture leftHand rightHand :
  bothPinching (derivedGesture leftHand rightHand) =
    from_option isGrabbing false leftHand && from_option isGrabbing false rightHand.
Proof.
  unfold derivedGesture.
  by destruct (leftHand ≫= handPosition), (rightHand ≫= handPosition).
Qed.

Lemma isPulling_derivedGesture leftHand rightHand :
  isPulling (derivedGesture leftHand rightHand) =
    from_option isGrabbing false leftHand && from_option isGrabbing false rightHand &&
    bool_decide (pullDistance (derivedGesture leftHand rightHand) > MIN_PULL_DISTANCE).
Proof.
  unfold derivedGesture.
  by destruct (leftHand ≫= handPosition), (rightHand ≫= handPosition).
Qed.

(** After a frame without hands the per-hand path starts anew: whatever the
    landmarks, during the first five frames in which hands are seen again no
    role of the two-hand gesture is filled with a grabbing hand, so the hook
    reports neither a pinch of both hands nor a pull. *)
Theorem pull_needs_six_frames_after_the_hands_return results
    (frames : list Results) s :
  multiHandLandmarks results = None ∨ multiHandLandmarks results = Some [] →
  (∀ r, r ∈ frames →
     ∃ hands, multiHandLandmarks r = Some hands ∧ hands ≠ [] ∧
              Forall (λ landmarks : list HandLandmark, (21 ≤ length landmarks)%nat)
                hands) →
  (length frames ≤ 5)%nat →
  let t := twoHandGesture (afterFrames true (results :: frames) s) in
  (∀ g, leftHand t = Some g ∨ rightHand t = Some g → isGrabbing g = false) ∧
  bothPinching t = false ∧ isPulling t = false.
Proof.
  intros Hnone Hall Hlen t.
  assert (Hroles : ∀ g, leftHand t = Some g ∨ rightHand t = Some g →
                        isGrabbing g = false).
  { subst t. rewrite afterFrames_cons, onResults_no_hands by done. cbn [stateAfter].
    destruct frames as [|r frames'].
    - rewrite afterFrames_nil. by intros g [Hg|Hg].
    - apply (youngSlots_afterFrames (r :: frames') 0 (resetHook s)); [done|done| |done].
      intros j. rewrite slot_resetHook. apply youngSlot_initial. }
  split; [done|].
  assert (Hderived : t = derivedGesture (leftHand t) (rightHand t)).
  { subst t. rewrite afterFrames_cons, onResults_no_hands by done. cbn [stateAfter].
    destruct frames as [|r frames'] eqn:Hframes.
    - rewrite afterFrames_nil. reflexivity.
    - rewrite <- Hframes.
      assert (Hsplit : ∃ init final, frames = init ++ [final] ∧ final ∈ frames).
      { destruct (exists_last (l := frames)) as (init & final & Hlast);
          [by rewrite Hframes|].
        exists init, final. split; [done|].
        rewrite Hlast. apply elem_of_app. right. left. }
      destruct Hsplit as (init & final & -> & Hfinal).
      rewrite afterFrames_app, afterFrames_cons, afterFrames_nil.
      destruct (Hall final) as (hands & Hhands & Hne & Hcomplete);
        [by rewrite <- Hframes|].
      destruct hands as [|landmarks others]; [done|].
      destruct (onResults_complete_hands final landmarks others
                  (afterFrames true init (resetHook s)) Hhands Hcomplete)
        as (s1 & Hrun & _ & _ & _ & _ & Htwo & _).
      rewrite Hrun. cbn [stateAfter]. rewrite Htwo. apply newTwoHandGesture_derived. }
  clearbody t. rewrite Hderived, bothPinching_derivedGesture, isPulling_derivedGesture.
  assert (Hboth : from_option isGrabbing false (leftHand t) &&
                  from_option isGrabbing false (rightHand t) = false).
  { destruct (leftHand t) as [l|] eqn:Hl; [|done]. cbn.
    by rewrite (Hroles l) by auto. }
  by rewrite Hboth.
Qed.

Lemma pull_needs_six_frames_after_the_hands_return_witness :
  let t := twoHandGesture
             (afterFrames true (noHandsFrame :: replicate 5 pullingFrame) initialHook) in
  bothPinching t = false ∧ isPulling t = false.
Proof.
  intros t.
  destruct (pull_needs_six_frames_after_the_hands_return noHandsFrame
              (replicate 5 pullingFrame) initialHook) as (_ & Hboth & Hpull).
  - by right.
  - intros r Hr. apply elem_of_replicate in Hr as [-> _].
    eexists. split; [reflexivity|]. split; [done|].
    repeat constructor; unfold hand; cbn; lia.
  - cbn. lia.
  - by split.
Defined.
